(** * vimiv: configuration parser and library pane

    A shallow embedding of [vimiv/configparser.py] and of the cursor and
    width bookkeeping of [vimiv/library.py], with the properties of the
    specification stated and settled against it.

    Conventions of the embedding.
    - A Python [str] is a Rocq [string]; the embedding covers ASCII text.
    - A Python [int] is a [Z] (Python integers are unbounded).
    - A Python [dict] is a stdpp [gmap]; an INI section, whose iteration
      order matters for the messages, is a list of (option, value) pairs.
    - Code that may raise returns a [res]: [Ok v] or [Raise e]. *)

From Stdlib Require Import ZArith Ascii String DecimalString DecimalPos DecimalZ.
From stdpp Require Import base option list gmap strings.

Local Open Scope Z_scope.
Local Open Scope string_scope.

(** ** Python string primitives *)

Module Py.

(** [s.lstrip(chars)] and [s.rstrip(chars)], with the stripped characters
    given as a predicate. *)
Fixpoint lstrip_by (p : ascii → bool) (s : string) : string :=
  match s with
  | EmptyString => EmptyString
  | String c s' => if p c then lstrip_by p s' else s
  end.

Fixpoint rstrip_by (p : ascii → bool) (s : string) : string :=
  match s with
  | EmptyString => EmptyString
  | String c s' =>
      match rstrip_by p s' with
      | EmptyString => if p c then EmptyString else String c EmptyString
      | r => String c r
      end
  end.

Definition is_char (a c : ascii) : bool := Ascii.eqb a c.

Definition lstrip (a : ascii) : string → string := lstrip_by (is_char a).
Definition rstrip (a : ascii) : string → string := rstrip_by (is_char a).

(** [s.split(sep)] for a one-character separator: always at least one part. *)
Fixpoint split (sep : ascii) (s : string) : list string :=
  match s with
  | EmptyString => [EmptyString]
  | String c s' =>
      if Ascii.eqb c sep then EmptyString :: split sep s'
      else match split sep s' with
           | [] => [String c EmptyString]
           | part :: parts => String c part :: parts
           end
  end.

(** [s.startswith(p)] *)
Fixpoint startswith (p s : string) : bool :=
  match p, s with
  | EmptyString, _ => true
  | String _ _, EmptyString => false
  | String a p', String b s' => Ascii.eqb a b && startswith p' s'
  end.

(** [s.endswith(p)] *)
Fixpoint endswith (p s : string) : bool :=
  match s with
  | EmptyString => String.eqb p EmptyString
  | String _ s' => String.eqb p s || endswith p s'
  end.

(** [s.lower()] on ASCII letters. *)
Definition lower_char (c : ascii) : ascii :=
  let n := nat_of_ascii c in
  if ((65 <=? n) && (n <=? 90))%nat then ascii_of_nat (n + 32) else c.

Fixpoint lower (s : string) : string :=
  match s with
  | EmptyString => EmptyString
  | String c s' => String (lower_char c) (lower s')
  end.

(** White space as [int()] skips it around the digits of an ASCII string:
    tab, newline, vertical tab, form feed, carriage return and the space.
    The separators 0x1c-0x1f, which [str.strip()] removes, are not among
    them. *)
Definition is_space (c : ascii) : bool :=
  let n := nat_of_ascii c in
  (((9 <=? n) && (n <=? 13)) || (n =? 32))%nat.

Definition strip (s : string) : string := rstrip_by is_space (lstrip_by is_space s).

Definition digit_of (c : ascii) : option Z :=
  let n := nat_of_ascii c in
  if ((48 <=? n) && (n <=? 57))%nat then Some (Z.of_nat (n - 48)) else None.

(** The digits of a base-10 literal after its first digit: a single
    underscore may separate two digits. *)
Fixpoint int_digits (acc : Z) (after_underscore : bool) (s : string) : option Z :=
  match s with
  | EmptyString => if after_underscore then None else Some acc
  | String c s' =>
      if Ascii.eqb c "_" then
        if after_underscore then None else int_digits acc true s'
      else
        match digit_of c with
        | Some d => int_digits (10 * acc + d) false s'
        | None => None
        end
  end.

Definition int_unsigned (s : string) : option Z :=
  match s with
  | EmptyString => None
  | String c s' =>
      match digit_of c with
      | Some d => int_digits d false s'
      | None => None
      end
  end.

(** An optional sign, then the digits. *)
Definition int_signed (t : string) : option Z :=
  match t with
  | String "-" r => Z.opp <$> int_unsigned r
  | String "+" r => int_unsigned r
  | _ => int_unsigned t
  end.

(** [int(s)] for a string: [None] stands for [ValueError]. *)
Definition int (s : string) : option Z := int_signed (strip s).

(** [str(n)] for an integer. *)
Definition str_int (n : Z) : string := NilZero.string_of_int (Z.to_int n).

(** [os.path.basename]: what follows the last slash. *)
Fixpoint has_slash (s : string) : bool :=
  match s with
  | EmptyString => false
  | String c s' => Ascii.eqb c "/" || has_slash s'
  end.

Fixpoint basename (p : string) : string :=
  match p with
  | EmptyString => EmptyString
  | String c p' => if has_slash p then basename p' else p
  end.

(** [p[:p.rfind('/') + 1]]: up to and including the last slash. *)
Fixpoint head_of (p : string) : string :=
  match p with
  | EmptyString => EmptyString
  | String c p' => if has_slash p then String c (head_of p') else EmptyString
  end.

Fixpoint all_slashes (s : string) : bool :=
  match s with
  | EmptyString => true
  | String c s' => Ascii.eqb c "/" && all_slashes s'
  end.

(** [os.path.dirname] *)
Definition dirname (p : string) : string :=
  let head := head_of p in
  if all_slashes head then head else rstrip "/" head.

(** [list.index(x)]: position of the first occurrence. *)
Fixpoint index (x : string) (l : list string) : option Z :=
  match l with
  | [] => None
  | y :: l' => if String.eqb x y then Some 0 else Z.succ <$> index x l'
  end.

(** [x in l] *)
Definition contains (x : string) (l : list string) : bool :=
  existsb (String.eqb x) l.

(** [os.path.join(a, b)] *)
Definition join (a b : string) : string :=
  if startswith "/" b then b
  else if String.eqb a "" || endswith "/" a then a ++ b
  else a ++ "/" ++ b.

(** [l[:n]]: a negative [n] counts from the end. *)
Definition slice_to {A} (n : Z) (l : list A) : list A :=
  if (0 <=? n)%Z then take (Z.to_nat n) l
  else take (Z.to_nat (Z.of_nat (length l) + n)) l.

End Py.

(** ** Exceptions and results *)

Inductive exn : Type :=
  | KeyError (key : string)
  | IndexError
  | ValueError
  | TypeError
  | RecursionError
  | DuplicateOptionError (message : string)
  | DuplicateSectionError
  | MissingSectionHeaderError
  | ParsingError
  | UnicodeDecodeError
  | InterpolationError
  | NoSectionError
  | SystemExit (code : Z).

Inductive res (A : Type) : Type :=
  | Ok (a : A)
  | Raise (e : exn).
Arguments Ok {A} a.
Arguments Raise {A} e.

Definition bind {A B} (r : res A) (k : A → res B) : res B :=
  match r with
  | Ok a => k a
  | Raise e => Raise e
  end.

#[global] Instance res_fmap : FMap res :=
  λ A B f r, match r with Ok a => Ok (f a) | Raise e => Raise e end.

Notation "'let*' x ':=' r 'in' k" := (bind r (fun x => k))
  (at level 10, x pattern, r at level 100, k at level 200).

(** A [for] loop whose body may raise. *)
Fixpoint for_each {A S} (body : S → A → res S) (items : list A) (s : S) : res S :=
  match items with
  | [] => Ok s
  | x :: items' => let* s' := body s x in for_each body items' s'
  end.

(** The exit status of the interpreter when a call made from the main
    program ends this way: [sys.exit(c)] gives [c], any other exception that
    nothing catches gives a traceback and status 1. *)
Definition exit_status {A} (r : res A) : option Z :=
  match r with
  | Ok _ => None
  | Raise (SystemExit c) => Some c
  | Raise _ => Some 1
  end.

Definition nl : string := String (ascii_of_nat 10) EmptyString.
Definition dquote : string := String (ascii_of_nat 34) EmptyString.

(** ** The parser of the standard library *)

(** The part of [configparser.ConfigParser] that [parse_keys] runs on the
    keys file: [parse_keys] writes into the parser through the section
    proxies and hands them out, so the storage of the parser and its
    [BasicInterpolation] are modelled. *)
Module ConfigParser.

(** The parser after [read]: the options of DEFAULT and of every section,
    with their values as they stand in the file, in file order. An option
    occurs once in a section; [read] puts its name in lower case. *)
Record parser : Type := {
  defaults : list (string * string);
  sections : gmap string (list (string * string))
}.

(** [d[k]] and [d[k] = v] on an ordered dictionary: a new key goes last. *)
Fixpoint assoc (k : string) (d : list (string * string)) : option string :=
  match d with
  | [] => None
  | (k', v) :: d' => if String.eqb k' k then Some v else assoc k d'
  end.

Fixpoint assoc_set (k v : string) (d : list (string * string))
    : list (string * string) :=
  match d with
  | [] => [(k, v)]
  | (k', v') :: d' =>
      if String.eqb k' k then (k, v) :: d' else (k', v') :: assoc_set k v d'
  end.

(** [parser.has_section(section)] *)
Definition has_section (p : parser) (section : string) : bool :=
  match sections p !! section with Some _ => true | None => false end.

(** [key in parser] *)
Definition contains (p : parser) (key : string) : bool :=
  String.eqb key "DEFAULT" || has_section p key.

(** The options of a section itself: none for DEFAULT, whose options are
    the defaults. [None] stands for [NoSectionError]. *)
Definition own (p : parser) (section : string) : option (list (string * string)) :=
  if String.eqb section "DEFAULT" then Some [] else sections p !! section.

(** The keys of [proxy], the proxy of [section]: [parser.options(section)],
    the options of the section, then those of DEFAULT that it does not
    have. *)
Definition options (p : parser) (section : string) : option (list string) :=
  match own p section with
  | None => None
  | Some d =>
      Some (d.*1 ++ List.filter (λ k, negb (Py.contains k d.*1)) (defaults p).*1)%list
  end.

(** The chain of mappings that [get] looks values up in, [_unify_values]:
    the section, then DEFAULT. *)
Definition chain : Type := list (string * string) * list (string * string).

Definition unify_values (p : parser) (section : string) : option chain :=
  match own p section with
  | None => None
  | Some d => Some (d, defaults p)
  end.

Definition chain_get (d : chain) (name : string) : option string :=
  match assoc name d.1 with
  | Some v => Some v
  | None => assoc name d.2
  end.

(** [s[:s.find(c)]], all of [s] when [c] is not in it, and [s[s.find(c):]],
    empty when [c] is not in it. *)
Fixpoint before (c : ascii) (s : string) : string :=
  match s with
  | EmptyString => EmptyString
  | String x s' => if Ascii.eqb x c then EmptyString else String x (before c s')
  end.

Fixpoint from (c : ascii) (s : string) : string :=
  match s with
  | EmptyString => EmptyString
  | String x s' => if Ascii.eqb x c then s else from c s'
  end.

(** [c in s] *)
Definition has_char (c : ascii) (s : string) : bool :=
  negb (String.eqb (from c s) "").

(** [_KEYCRE.match(rest)] for the pattern [%\(([^)]+)\)s]: the name between
    the brackets and what follows the match. *)
Definition keycre_match (rest : string) : option (string * string) :=
  match rest with
  | String "%" (String "(" r) =>
      match from ")" r with
      | String _ (String "s" tail) =>
          if String.eqb (before ")" r) "" then None else Some (before ")" r, tail)
      | _ => None
      end
  | _ => None
  end.

(** [MAX_INTERPOLATION_DEPTH] *)
Definition MAX_INTERPOLATION_DEPTH : nat := 10.

(** The loop of [BasicInterpolation._interpolate_some], with the text
    accumulated so far. [deeper] is the call of [_interpolate_some] one level
    down, for a value that has a [%] itself. Every round shortens [rest],
    whose length bounds the number of [rounds]. The errors of syntax and of
    a missing option are [InterpolationError]s. *)
Fixpoint interpolate_loop (deeper : string → string → res string)
    (map : string → option string) (rounds : nat) (accum rest : string)
    {struct rounds} : res string :=
  match rounds with
  | O => Ok accum
  | S rounds' =>
      if String.eqb rest "" then Ok accum
      else
        let accum := accum ++ before "%" rest in
        match from "%" rest with
        | EmptyString => Ok accum
        | String _ (String "%" rest') =>
            interpolate_loop deeper map rounds' (accum ++ "%") rest'
        | String _ (String "(" _) =>
            match keycre_match (from "%" rest) with
            | None => Raise InterpolationError
            | Some (var, rest') =>
                match map (Py.lower var) with
                | None => Raise InterpolationError
                | Some v =>
                    let* accum :=
                      if has_char "%" v then deeper accum v else Ok (accum ++ v) in
                    interpolate_loop deeper map rounds' accum rest'
                end
            end
        | String _ _ => Raise InterpolationError
        end
  end.

(** [BasicInterpolation._interpolate_some]. [budget] is the number of levels
    still allowed: the call at depth [d] has
    [budget = MAX_INTERPOLATION_DEPTH + 1 - d], and none left is
    [InterpolationDepthError], an [InterpolationError] too. *)
Fixpoint interpolate_some (budget : nat) (map : string → option string)
    (accum rest : string) {struct budget} : res string :=
  match budget with
  | O => Raise InterpolationError
  | S budget' =>
      interpolate_loop (interpolate_some budget' map) map (String.length rest) accum rest
  end.

(** [BasicInterpolation.before_get], with the mapping of [get]. *)
Definition before_get (d : chain) (value : string) : res string :=
  interpolate_some MAX_INTERPOLATION_DEPTH (chain_get d) "" value.

(** [value.replace('%%', '')] *)
Fixpoint unescape (s : string) : string :=
  match s with
  | String "%" (String "%" s') => unescape s'
  | String c s' => String c (unescape s')
  | EmptyString => EmptyString
  end.

(** [_KEYCRE.sub('', s)]: the matches are removed from left to right. *)
Fixpoint remove_keys (rounds : nat) (s : string) : string :=
  match rounds, s with
  | S rounds', String c s' =>
      match keycre_match s with
      | Some (_, tail) => remove_keys rounds' tail
      | None => String c (remove_keys rounds' s')
      end
  | _, _ => s
  end.

(** [BasicInterpolation.before_set]: [ValueError] for a [%] that neither is
    doubled nor opens a reference. *)
Definition before_set (value : string) : res string :=
  let tmp_value := unescape value in
  let tmp_value := remove_keys (String.length tmp_value) tmp_value in
  if has_char "%" tmp_value then Raise ValueError else Ok value.

(** [proxy[key]] on the proxy of [section]: [SectionProxy.__getitem__], which
    is [parser.get(section, key)] when [has_option] finds the option. The
    name of the option is put in lower case. *)
Definition proxy_get (p : parser) (section key : string) : res string :=
  match unify_values p section with
  | None => Raise (KeyError key)
  | Some d =>
      match chain_get d (Py.lower key) with
      | None => Raise (KeyError key)
      | Some value => before_get d value
      end
  end.

(** [proxy[key] = value] on the proxy of [section]: [parser.set(section, key,
    value)]. An empty value is not checked. *)
Definition proxy_set (p : parser) (section key value : string) : res parser :=
  let* value := if negb (String.eqb value "") then before_set value else Ok value in
  if String.eqb section "" || String.eqb section "DEFAULT" then
    Ok {| defaults := assoc_set (Py.lower key) value (defaults p);
          sections := sections p |}
  else
    match sections p !! section with
    | None => Raise NoSectionError
    | Some own =>
        Ok {| defaults := defaults p;
              sections := <[section := assoc_set (Py.lower key) value own]> (sections p) |}
    end.

(** [target.update(source)] for the proxies of two sections:
    [MutableMapping.update] assigns [source[key]] to [target[key]] for every
    key of [source], whose keys are listed before the first assignment. *)
Definition proxy_update (p : parser) (target source : string) : res parser :=
  match options p source with
  | None => Raise NoSectionError
  | Some keys =>
      for_each (λ p key, let* value := proxy_get p source key in
                         proxy_set p target key value) keys p
  end.

End ConfigParser.

(** ** configparser.py *)

Module Config.

(** The typed values of the Settings Store. *)
Inductive value : Type :=
  | VBool (b : bool)
  | VInt (n : Z)
  | VStr (s : string)
  | VPair (a b : Z).

(** [str(v)], as [%s] formats it. *)
Definition str (v : value) : string :=
  match v with
  | VBool true => "True"
  | VBool false => "False"
  | VInt n => Py.str_int n
  | VStr s => s
  | VPair a b => "(" ++ Py.str_int a ++ ", " ++ Py.str_int b ++ ")"
  end.

(** What [os.path] sees of the machine. [home] is [$HOME], or the password
    database entry of the current user when the variable is unset;
    [pw_dir] is [pwd.getpwnam(name).pw_dir]. *)
Record os_env : Type := {
  home : option string;
  pw_dir : string → option string;
  isdir : string → bool
}.

Fixpoint until_slash (s : string) : string * string :=
  match s with
  | EmptyString => (EmptyString, EmptyString)
  | String c s' =>
      if Ascii.eqb c "/" then (EmptyString, s)
      else let '(name, rest) := until_slash s' in (String c name, rest)
  end.

(** [os.path.expanduser] *)
Definition expanduser (env : os_env) (path : string) : string :=
  match path with
  | String "~" p =>
      let '(name, rest) := until_slash p in
      let userhome := if String.eqb name "" then home env else pw_dir env name in
      match userhome with
      | None => path
      | Some h =>
          let r := Py.rstrip "/" h ++ rest in
          if String.eqb r "" then "/" else r
      end
  | _ => path
  end.

Definition general_defaults : list (string * value) :=
  [ ("start_fullscreen", VBool false);
    ("start_slideshow", VBool false);
    ("slideshow_delay", VInt 2);
    ("shuffle", VBool false);
    ("display_bar", VBool true);
    ("default_thumbsize", VPair 128 128);
    ("geometry", VStr "800x600");
    ("search_case_sensitive", VBool true);
    ("incsearch", VBool true);
    ("recursive", VBool false);
    ("rescale_svg", VBool true);
    ("overzoom", VBool false);
    ("copy_to_primary", VBool false);
    ("commandline_padding", VInt 6);
    ("thumb_padding", VInt 10);
    ("completion_height", VInt 200) ].

Definition library_defaults (env : os_env) : list (string * value) :=
  [ ("show_library", VBool false);
    ("library_width", VInt 300);
    ("expand_lib", VBool true);
    ("border_width", VInt 0);
    ("markup", VStr ("<span foreground=" ++ dquote ++ "#875FFF" ++ dquote ++ ">"));
    ("show_hidden", VBool false);
    ("desktop_start_dir", VStr (expanduser env "~"));
    ("file_check_amount", VInt 30);
    ("tilde_in_statusbar", VBool true) ].

Definition set_defaults (env : os_env) : gmap string (gmap string value) :=
  <["GENERAL" := list_to_map general_defaults]>
  (<["LIBRARY" := list_to_map (library_defaults env)]>
  (<["ALIASES" := ∅]> ∅)).

(** *** overwrite_section *)

(** What [section[option]] gives for an option of a section of the parser:
    the value after interpolation, or the [InterpolationError] that reading
    it raises, with its message. [InterpolationError] stands for the class
    with its subclasses; it is not a [ValueError]. *)
Inductive read_value : Type :=
  | Interpolated (value : string)
  | InterpolationFails (message : string).

(** How the [try] block of [overwrite_section] ends for one setting: the
    assignment [settings[key][setting] = file_set] is reached, a [continue]
    skips it, or an exception is raised. *)
Inductive parsed : Type :=
  | Store (v : value)
  | Skip
  | Fail (e : exn).

Definition integer_settings : list string :=
  [ "library_width"; "slideshow_delay"; "file_check_amount";
    "commandline_padding"; "thumb_padding"; "completion_height";
    "border_width" ].

(** [RawConfigParser.BOOLEAN_STATES] *)
Definition BOOLEAN_STATES (s : string) : option bool :=
  if Py.contains s ["1"; "yes"; "true"; "on"] then Some true
  else if Py.contains s ["0"; "no"; "false"; "off"] then Some false
  else None.

(** [section.getboolean(setting)]: [ValueError] on any other token. *)
Definition getboolean (raw : string) : parsed :=
  match BOOLEAN_STATES (Py.lower raw) with
  | Some b => Store (VBool b)
  | None => Fail ValueError
  end.

(** Lines 70-76. [file_set[0]] always exists, [file_set[1]] need not; the
    length is compared with 2 only after both have been converted. *)
Definition parse_thumbsize (raw : string) : parsed :=
  let file_set := Py.split "," (Py.rstrip ")" (Py.lstrip "(" raw)) in
  match file_set !! 0%nat with
  | None => Fail IndexError
  | Some x0 =>
      match Py.int x0 with
      | None => Fail ValueError
      | Some a =>
          match file_set !! 1%nat with
          | None => Fail IndexError
          | Some x1 =>
              match Py.int x1 with
              | None => Fail ValueError
              | Some b =>
                  if negb (Nat.eqb (length file_set) 2) then Fail ValueError
                  else Store (VPair a b)
              end
          end
      end
  end.

(** Lines 67-97: the branch on the name of the setting. *)
Definition parse_setting (env : os_env) (setting raw : string) : parsed :=
  if String.eqb setting "geometry" then Store (VStr raw)
  else if Py.contains setting ["default_thumbsize"] then parse_thumbsize raw
  else if Py.contains setting integer_settings then
    match Py.int raw with
    | Some n => Store (VInt n)
    | None => Fail ValueError
    end
  else if String.eqb setting "desktop_start_dir" then
    let file_set := expanduser env raw in
    if negb (isdir env file_set) then Skip else Store (VStr file_set)
  else if String.eqb setting "markup" then
    if negb (Py.startswith "<span " raw) || negb (Py.endswith ">" raw) then Skip
    else Store (VStr raw)
  else getboolean raw.

Definition unknown_warning (setting : string) : string :=
  "Ignoring unknown setting " ++ setting ++ ".".

Definition fallback_warning (raw setting : string) (old : value) : string :=
  "Invalid setting '" ++ raw ++ "' for '" ++ setting ++ "'." ++ nl
  ++ "Falling back to default '" ++ str old ++ "'." ++ nl ++ nl.

(** One iteration of the loop of lines 61-103, on the option [setting]. The
    name is looked up before the value is read. Every branch of the [try]
    block starts by reading [section[setting]] (or [section.getboolean], which
    reads it the same way): an [InterpolationError] raised there is not
    caught, as only [ValueError] is. *)
Definition overwrite_setting (env : os_env) (key : string)
    (acc : gmap string (gmap string value) * string) (item : string * read_value)
    : res (gmap string (gmap string value) * string) :=
  let '(settings, message) := acc in
  let '(setting, read) := item in
  match settings !! key with
  | None => Raise (KeyError key)
  | Some known =>
      match known !! setting with
      | None => Ok (settings, message ++ unknown_warning setting)
      | Some old =>
          match read with
          | InterpolationFails _ => Raise InterpolationError
          | Interpolated raw =>
              match parse_setting env setting raw with
              | Store file_set =>
                  Ok (<[key := <[setting := file_set]> known]> settings, message)
              | Skip => Ok (settings, message)
              | Fail ValueError =>
                  Ok (settings, message ++ fallback_warning raw setting old)
              | Fail e => Raise e
              end
          end
      end
  end.

(** [overwrite_section(key, config, settings)]. [config] maps a section name
    to the section as its proxy presents it: the options in iteration order
    (those of the section, then those of DEFAULT that it does not define),
    each once, with what reading it gives. *)
Definition overwrite_section (env : os_env) (key : string)
    (config : gmap string (list (string * read_value)))
    (settings : gmap string (gmap string value))
    : res (gmap string (gmap string value) * string) :=
  match config !! key with
  | None => Raise (KeyError key)
  | Some section => for_each (overwrite_setting env key) section (settings, "")
  end.

(** *** parse_keys *)

(** The calls of [error_message] and of [print], in order. *)
Inductive event : Type :=
  | ErrorMessage (message : string)
  | Print (line : string).

Definition required_sections : list string :=
  ["IMAGE"; "THUMBNAIL"; "LIBRARY"; "MANIPULATE"; "COMMAND"].

Definition deprecation_notice (section : string) : string :=
  "Section " ++ section ++ " is deprecated and will be removed in a future version.".

Definition missing_section_message (name : string) : string :=
  "Missing section '" ++ name ++ "' in keys.conf." ++ nl
  ++ "Refer to vimivrc(5) to fix your config.".

(** [keys[name]]: the proxy of the section, a view of the parser that is
    given by the name of the section. *)
Definition section_of (keys : ConfigParser.parser) (name : string) : res string :=
  if ConfigParser.contains keys name then Ok name else Raise (KeyError name).

(** [update_keybindings(sections, keydict)], lines 224-230. [keydict] is the
    proxy of a section of [keys], so it is [keys] that [keydict.update]
    writes into; an exception of the update ends [parse_keys]. *)
Definition update_keybindings (sections : list string) (keydict : string)
    (acc : list event * res ConfigParser.parser)
    : list event * res ConfigParser.parser :=
  foldl (λ '(out, r) section,
           match r with
           | Raise e => (out, Raise e)
           | Ok keys =>
               if ConfigParser.contains keys section then
                 ((out ++ [Print (deprecation_notice section)])%list,
                  ConfigParser.proxy_update keys keydict section)
               else (out, Ok keys)
           end) acc sections.

(** [parse_keys]. [read] is how [keys.read(keyfiles)] ended: the files that
    were read and the resulting parser, or the exception it raised. The
    result pairs the messages with the returned dictionary, which maps the
    five names to the proxies of these sections of the one parser. The
    argument [running_tests] is only handed on to [error_message], where it
    decides whether the message pops up, and is left out. *)
Definition parse_keys (read : res (list string * ConfigParser.parser))
    : list event * res (gmap string (ConfigParser.parser * string)) :=
  match read with
  | Raise (DuplicateOptionError m) =>
      ([ErrorMessage (m ++ "." ++ nl ++ " Duplicate keybinding. Exiting.")],
       Raise (SystemExit 1))
  | Raise e => ([], Raise e)
  | Ok ([], _) =>
      ([ErrorMessage "Keyfile not found. Exiting."], Raise (SystemExit 1))
  | Ok (_ :: _, keys) =>
      match
        (let* keys_image := section_of keys "IMAGE" in
         let* keys_thumbnail := section_of keys "THUMBNAIL" in
         let* keys_library := section_of keys "LIBRARY" in
         let* keys_manipulate := section_of keys "MANIPULATE" in
         let* keys_command := section_of keys "COMMAND" in
         Ok [keys_image; keys_thumbnail; keys_library; keys_manipulate; keys_command])
      with
      | Raise (KeyError name) =>
          ([ErrorMessage (missing_section_message name)], Raise (SystemExit 1))
      | Raise e => ([], Raise e)
      | Ok proxies =>
          let acc :=
            update_keybindings ["GENERAL"; "IM_THUMB"; "IM_LIB"] "IMAGE" ([], Ok keys) in
          let acc := update_keybindings ["GENERAL"; "IM_THUMB"] "THUMBNAIL" acc in
          let '(out, r) := update_keybindings ["GENERAL"; "IM_LIB"] "LIBRARY" acc in
          (out,
           (λ keys, list_to_map ((λ name : string, (name, (keys, name))) <$> proxies))
             <$> r)
      end
  end.


End Config.

(** ** library.py *)

Module Library.

(** A value handed to [resize] as [val]: [None], an integer, or the text
    typed on the command line. *)
Inductive pyval : Type :=
  | PNone
  | PInt (n : Z)
  | PStr (s : string).

(** Truth value of [val] in [if not val]. *)
Definition truthy (v : pyval) : bool :=
  match v with
  | PNone => false
  | PInt n => negb (n =? 0)%Z
  | PStr s => negb (String.eqb s "")
  end.

(** [int(val)] *)
Definition int_of (v : pyval) : res Z :=
  match v with
  | PNone => Raise TypeError
  | PInt n => Ok n
  | PStr s => match Py.int s with Some n => Ok n | None => Raise ValueError end
  end.

(** The sibling components and the file system, as the library consults them
    through [self.app] and [os]. None of them is changed by the operations
    below. *)
Record app : Type := {
  cwd : string;                          (* os.getcwd() *)
  winsize_width : Z;                     (* app["window"].winsize[0] *)
  image : option string;                 (* app.paths[app.index]; None when app.paths is empty *)
  get_pos : Z;                           (* app.get_pos(force_widget="lib") *)
  tags_directory : string;               (* app["tags"].directory *)
  marked : list string;                  (* app["mark"].marked *)
  listdir : string → bool → res (list string);  (* listdir_wrapper *)
  is_image : string → bool;              (* fileactions.is_image *)
  isdir : string → bool;                 (* os.path.isdir *)
  islink : string → bool;                (* os.path.islink *)
  link_target_exists : string → bool;    (* os.path.exists(os.path.realpath(f)) *)
  realpath : string → string;            (* os.path.realpath *)
  abspath : string → string;             (* os.path.abspath *)
  size_fmt : string → string             (* sizeof_fmt(os.path.getsize(f)) *)
}.

(** A row of the list store: number, name, size, mark. *)
Definition row : Type := Z * string * string * string.

(** The library, with the state of the widgets and of the key handler and
    status bar that its methods read and write. *)
Record library : Type := {
  dir_pos : gmap string Z;
  default_width : Z;
  width : Z;
  markup : string;
  show_hidden : bool;
  file_check_amount : Z;
  files : list string;
  filesize : gmap string string;
  model : list row;                      (* treeview.get_model() *)
  cursor : option Z;                     (* row of the last treeview.set_cursor
                                            since the model was set *)
  grid_visible : bool;                   (* grid.is_visible() *)
  focused : bool;                        (* the treeview holds the focus *)
  num_str : string;                      (* app["keyhandler"].num_str *)
  err_messages : list string;            (* app["statusbar"].err_message, oldest first *)
  search_positions : list Z              (* app["commandline"].search_positions *)
}.

Definition set_dir_pos (x : gmap string Z) (l : library) : library :=
  {| dir_pos := x; default_width := default_width l; width := width l;
     markup := markup l; show_hidden := show_hidden l;
     file_check_amount := file_check_amount l; files := files l;
     filesize := filesize l; model := model l; cursor := cursor l;
     grid_visible := grid_visible l; focused := focused l;
     num_str := num_str l; err_messages := err_messages l;
     search_positions := search_positions l |}.

Definition set_width (x : Z) (l : library) : library :=
  {| dir_pos := dir_pos l; default_width := default_width l; width := x;
     markup := markup l; show_hidden := show_hidden l;
     file_check_amount := file_check_amount l; files := files l;
     filesize := filesize l; model := model l; cursor := cursor l;
     grid_visible := grid_visible l; focused := focused l;
     num_str := num_str l; err_messages := err_messages l;
     search_positions := search_positions l |}.

Definition set_show_hidden (x : bool) (l : library) : library :=
  {| dir_pos := dir_pos l; default_width := default_width l; width := width l;
     markup := markup l; show_hidden := x;
     file_check_amount := file_check_amount l; files := files l;
     filesize := filesize l; model := model l; cursor := cursor l;
     grid_visible := grid_visible l; focused := focused l;
     num_str := num_str l; err_messages := err_messages l;
     search_positions := search_positions l |}.

Definition set_files (x : list string) (l : library) : library :=
  {| dir_pos := dir_pos l; default_width := default_width l; width := width l;
     markup := markup l; show_hidden := show_hidden l;
     file_check_amount := file_check_amount l; files := x;
     filesize := filesize l; model := model l; cursor := cursor l;
     grid_visible := grid_visible l; focused := focused l;
     num_str := num_str l; err_messages := err_messages l;
     search_positions := search_positions l |}.

Definition set_filesize (x : gmap string string) (l : library) : library :=
  {| dir_pos := dir_pos l; default_width := default_width l; width := width l;
     markup := markup l; show_hidden := show_hidden l;
     file_check_amount := file_check_amount l; files := files l;
     filesize := x; model := model l; cursor := cursor l;
     grid_visible := grid_visible l; focused := focused l;
     num_str := num_str l; err_messages := err_messages l;
     search_positions := search_positions l |}.

(** [treeview.set_model(m)]: a new model has no cursor yet. *)
Definition set_model (x : list row) (l : library) : library :=
  {| dir_pos := dir_pos l; default_width := default_width l; width := width l;
     markup := markup l; show_hidden := show_hidden l;
     file_check_amount := file_check_amount l; files := files l;
     filesize := filesize l; model := x; cursor := None;
     grid_visible := grid_visible l; focused := focused l;
     num_str := num_str l; err_messages := err_messages l;
     search_positions := search_positions l |}.

(** [treeview.set_cursor(Gtk.TreePath(pos), None, False)] *)
Definition set_cursor (pos : Z) (l : library) : library :=
  {| dir_pos := dir_pos l; default_width := default_width l; width := width l;
     markup := markup l; show_hidden := show_hidden l;
     file_check_amount := file_check_amount l; files := files l;
     filesize := filesize l; model := model l; cursor := Some pos;
     grid_visible := grid_visible l; focused := focused l;
     num_str := num_str l; err_messages := err_messages l;
     search_positions := search_positions l |}.

Definition set_grid_visible (x : bool) (l : library) : library :=
  {| dir_pos := dir_pos l; default_width := default_width l; width := width l;
     markup := markup l; show_hidden := show_hidden l;
     file_check_amount := file_check_amount l; files := files l;
     filesize := filesize l; model := model l; cursor := cursor l;
     grid_visible := x; focused := focused l;
     num_str := num_str l; err_messages := err_messages l;
     search_positions := search_positions l |}.

Definition set_focused (x : bool) (l : library) : library :=
  {| dir_pos := dir_pos l; default_width := default_width l; width := width l;
     markup := markup l; show_hidden := show_hidden l;
     file_check_amount := file_check_amount l; files := files l;
     filesize := filesize l; model := model l; cursor := cursor l;
     grid_visible := grid_visible l; focused := x;
     num_str := num_str l; err_messages := err_messages l;
     search_positions := search_positions l |}.

(** Modelled from the spec: [app["keyhandler"].num_clear()], of a module that
    is not part of these sources, clears the pending numeric prefix. *)
Definition num_clear (l : library) : library :=
  {| dir_pos := dir_pos l; default_width := default_width l; width := width l;
     markup := markup l; show_hidden := show_hidden l;
     file_check_amount := file_check_amount l; files := files l;
     filesize := filesize l; model := model l; cursor := cursor l;
     grid_visible := grid_visible l; focused := focused l;
     num_str := ""; err_messages := err_messages l;
     search_positions := search_positions l |}.

(** [app["statusbar"].err_message(message)] *)
Definition err_message (message : string) (l : library) : library :=
  {| dir_pos := dir_pos l; default_width := default_width l; width := width l;
     markup := markup l; show_hidden := show_hidden l;
     file_check_amount := file_check_amount l; files := files l;
     filesize := filesize l; model := model l; cursor := cursor l;
     grid_visible := grid_visible l; focused := focused l;
     num_str := num_str l; err_messages := (err_messages l ++ [message])%list;
     search_positions := search_positions l |}.

Definition set_search_positions (x : list Z) (l : library) : library :=
  {| dir_pos := dir_pos l; default_width := default_width l; width := width l;
     markup := markup l; show_hidden := show_hidden l;
     file_check_amount := file_check_amount l; files := files l;
     filesize := filesize l; model := model l; cursor := cursor l;
     grid_visible := grid_visible l; focused := focused l;
     num_str := num_str l; err_messages := err_messages l;
     search_positions := x |}.

(** *** Building the listing *)

(** Lines 381-395: the size column of a directory. *)
Definition dir_amount (a : app) (l : library) (fil : string) : string :=
  match listdir a fil (show_hidden l) with
  | Raise _ => "N/A"
  | Ok subfiles =>
      let many := (file_check_amount l <? Z.of_nat (length subfiles))%Z in
      let subfiles :=
        List.filter (λ subfile, is_image a (Py.join fil subfile))
                    (Py.slice_to (file_check_amount l) subfiles) in
      let amount := Py.str_int (Z.of_nat (length subfiles)) in
      if negb (Nat.eqb (length subfiles) 0) && many then amount ++ "+" else amount
  end.

(** [filelist_create(directory)]: every entry is returned, a broken symbolic
    link gets no size. *)
Definition filelist_create (a : app) (directory : string) (l : library)
    : res (list string * library) :=
  let* files := listdir a directory (show_hidden l) in
  let sizes :=
    foldl (λ (sizes : gmap string string) fil,
             if islink a fil && negb (link_target_exists a fil) then sizes
             else if isdir a fil then <[fil := dir_amount a l fil]> sizes
             else <[fil := size_fmt a fil]> sizes)
          ∅ files in
  Ok (files, set_filesize sizes l).

(** One row of lines 177-188. *)
Definition make_row (a : app) (l : library) (i : nat) (fil : string) : res row :=
  match filesize l !! fil with
  | None => Raise (KeyError fil)
  | Some size =>
      let markup_string :=
        if islink a fil then fil ++ "  →  " ++ realpath a fil else fil in
      let marked_string :=
        if Py.contains (abspath a fil) (marked a) then "[*]" else "" in
      let markup_string :=
        if isdir a fil then "<b>" ++ markup_string ++ "</b>" else markup_string in
      let markup_string :=
        if existsb (Z.eqb (Z.of_nat i)) (search_positions l)
        then markup l ++ markup_string ++ "</span>" else markup_string in
      Ok (Z.of_nat i + 1, markup_string, size, marked_string)
  end.

Fixpoint make_rows (a : app) (l : library) (i : nat) (fs : list string)
    : res (list row) :=
  match fs with
  | [] => Ok []
  | fil :: fs' =>
      let* r := make_row a l i fil in
      let* rs := make_rows a l (S i) fs' in
      Ok (r :: rs)
  end.

(** [liststore_create()]: sets [self.files] and returns the list store. *)
Definition liststore_create (a : app) (l : library) : res (list row * library) :=
  let* (files, l) := filelist_create a "." l in
  let files :=
    if negb (String.eqb (cwd a) (tags_directory a))
    then List.filter (λ f, is_image a f || isdir a f) files
    else files in
  let l := set_files files l in
  let* liststore := make_rows a l 0 files in
  Ok (liststore, l).

(** *** Position memory and cursor *)

(** [remember_pos(directory, position)] *)
Definition remember_pos (directory : string) (position : Z) (l : library) : library :=
  set_dir_pos (<[directory := position]> (dir_pos l)) l.

(** [move_pos(forward, defined_pos)]. [defined_pos] is [Some p] for an
    integer [p] and [None] for anything that is not an [int]. *)
Definition move_pos (forward : bool) (defined_pos : option Z) (l : library)
    : res library :=
  match files l with
  | [] => Ok (err_message "Warning: Directory is empty" l)
  | _ :: _ =>
      let max_pos := Z.of_nat (length (files l)) - 1 in
      let* (new_pos, l) :=
        match defined_pos with
        | Some p => Ok (Some p, l)
        | None =>
            if negb (String.eqb (num_str l) "") then
              match Py.int (num_str l) with
              | None => Raise ValueError
              | Some n =>
                  let new_pos := n - 1 in
                  let l := num_clear l in
                  if (new_pos <? 0)%Z || (max_pos <? new_pos)%Z
                  then Ok (None, err_message "Warning: Unsupported index" l)
                  else Ok (Some new_pos, l)
              end
            else if forward then Ok (Some max_pos, l)
            else Ok (Some 0, l)
        end in
      match new_pos with
      | None => Ok l                                  (* the early return of line 308 *)
      | Some new_pos => Ok (num_clear (set_cursor new_pos l))
      end
  end.

(** *** focus, toggle, reload *)

(** The three methods call one another. [fuel] bounds the depth of the
    calls; [RecursionError] is what Python raises when it is exceeded. *)
Fixpoint reload (fuel : nat) (a : app) (directory last_directory : string)
    (search : bool) (l : library) {struct fuel} : res library :=
  match fuel with
  | O => Raise RecursionError
  | S fuel =>
      let l := if negb search then set_search_positions [] l else l in
      let* (liststore, l) := liststore_create a l in
      let l := set_model liststore l in
      let* l := focus fuel a true l in
      match dir_pos l !! directory with
      | Some pos => move_pos true (Some pos) l
      | None =>
          if Py.contains (Py.basename last_directory) (files l) then
            match Py.index (Py.basename last_directory) (files l) with
            | Some i => move_pos true (Some i) l
            | None => Raise ValueError
            end
          else Ok l
      end
  end
with toggle (fuel : nat) (a : app) (update_image : bool) (l : library)
    {struct fuel} : res library :=
  match fuel with
  | O => Raise RecursionError
  | S fuel =>
      if grid_visible l then
        let l := remember_pos (cwd a) (get_pos a) l in
        let l := set_grid_visible false l in
        focus fuel a false l
      else
        let l := set_grid_visible true l in
        let l :=
          match image a with
          | None => l
          | Some image =>
              let image_path := Py.dirname image in
              let image_name := Py.basename image in
              if String.eqb image_path (cwd a) && Py.contains image_name (files l)
              then match Py.index image_name (files l) with
                   | Some i => remember_pos (cwd a) i l
                   | None => l
                   end
              else l
          end in
        let* l := focus fuel a true l in
        reload fuel a (cwd a) "" false l
  end
with focus (fuel : nat) (a : app) (focus_library : bool) (l : library)
    {struct fuel} : res library :=
  match fuel with
  | O => Raise RecursionError
  | S fuel =>
      if focus_library then
        let l := set_focused true l in
        if negb (grid_visible l) then toggle fuel a true l else Ok l
      else Ok (set_focused false l)
  end.

(** [toggle_hidden()] *)
Definition toggle_hidden (fuel : nat) (a : app) (l : library) : res library :=
  reload fuel a "." "" false (set_show_hidden (negb (show_hidden l)) l).

(** *** resize *)

(** Lines 351-354. *)
Definition limit_width (a : app) (w : Z) : Z :=
  if (winsize_width a - 200 <? w)%Z then winsize_width a - 200
  else if (w <? 100)%Z then 100
  else w.

(** [resize(inc, require_val, val)]. The bare [except] catches whatever
    [int(val)] raises. *)
Definition resize (a : app) (inc require_val : bool) (val : pyval) (l : library)
    : library :=
  if require_val then
    let val := if negb (truthy val) then PInt (default_width l) else val in
    match int_of val with
    | Raise _ => err_message "Library width must be an integer" l
    | Ok val => set_width (limit_width a val) l
    end
  else
    let val := if negb (truthy val) then PInt 20 else val in
    match int_of val with
    | Raise _ => err_message "Library width must be an integer" l
    | Ok val =>
        let w := if inc then width l + val else width l - val in
        set_width (limit_width a w) l
    end.

End Library.

(** ** configparser.py: aliases, [parse_config], [parse_dirs] *)

Module Startup.

Import Config.

Definition alias_failure (alias message : string) : string :=
  "Parsing alias '" ++ alias ++ "' failed." ++ nl
  ++ "If you meant to use % for current file, use %%." ++ nl
  ++ message ++ nl.

(** One iteration of the loop of lines 126-132. The value is read before
    [settings["ALIASES"]] is looked up. *)
Definition add_alias (acc : gmap string (gmap string Config.value) * string)
    (item : string * read_value)
    : res (gmap string (gmap string Config.value) * string) :=
  let '(settings, message) := acc in
  let '(alias, read) := item in
  match read with
  | InterpolationFails e => Ok (settings, message ++ alias_failure alias e)
  | Interpolated value =>
      match settings !! "ALIASES" with
      | None => Raise (KeyError "ALIASES")
      | Some aliases =>
          Ok (<["ALIASES" := <[alias := Config.VStr value]> aliases]> settings, message)
      end
  end.

(** [add_aliases(config, settings)]. [alias_section] is [config["ALIASES"]],
    its options in file order, or [None] when the file has no such section. *)
Definition add_aliases (alias_section : option (list (string * read_value)))
    (settings : gmap string (gmap string Config.value))
    : res (gmap string (gmap string Config.value) * string) :=
  for_each add_alias (default [] alias_section) (settings, "").

(** The parser after [config.read]: its sections in the order in which
    iterating it gives them (DEFAULT first), each once and as its proxy
    presents it. The options of DEFAULT are among those of every section. *)
Definition configuration : Type := list (string * list (string * read_value)).

(** [config[name]]: [None] stands for [KeyError]. *)
Definition section (config : configuration) (name : string)
    : option (list (string * read_value)) :=
  (list_to_map config : gmap string (list (string * read_value))) !! name.

(** The text that a failed [config.read] adds to the message; the exceptions
    that [parse_config] does not catch go on. *)
Definition read_failure (e : exn) (text : string) : res string :=
  match e with
  | UnicodeDecodeError => Ok ("Could not decode configfile." ++ nl ++ text)
  | MissingSectionHeaderError => Ok ("Invalid configfile." ++ nl ++ text)
  | ParsingError => Ok text
  | _ => Raise e
  end.

(** The files that [parse_config] hands to [config.read], lines 147-156. *)
Definition configfiles (env : Config.os_env) (user_config_dir : string)
    (commandline_config : option string) (running_tests : bool) : list string :=
  ((if negb running_tests
    then ["/etc/vimiv/vimivrc";
          Py.join user_config_dir "vimiv/vimivrc";
          Config.expanduser env "~/.vimiv/vimivrc"]
    else [])
   ++ match commandline_config with
      | Some c => if negb (String.eqb c "") then [c] else []
      | None => []
      end)%list.

(** [parse_config(commandline_config, running_tests)]. [read] is
    [config.read]: for a list of files, the configuration that the parser
    holds afterwards and, when it raised, the exception with its text.
    [user_config_dir] is [GLib.get_user_config_dir()]. The result pairs the
    calls of [error_message] with the returned settings. *)
Definition parse_config (env : Config.os_env) (user_config_dir : string)
    (read : list string → configuration * option (exn * string))
    (commandline_config : option string) (running_tests : bool)
    : list Config.event * res (gmap string (gmap string Config.value)) :=
  let settings := Config.set_defaults env in
  let '(config, raised) :=
    read (configfiles env user_config_dir commandline_config running_tests) in
  let outcome :=
    let* message :=
      match raised with
      | None => Ok ""
      | Some (e, text) => read_failure e text
      end in
    let keys :=
      List.filter (λ key, Py.contains key ["GENERAL"; "LIBRARY"]) config.*1 in
    let* (settings, message) :=
      for_each
        (λ (acc : gmap string (gmap string Config.value) * string) key,
           let* (settings, partial_message) :=
             Config.overwrite_section env key (list_to_map config) acc.1 in
           Ok (settings, acc.2 ++ partial_message))
        keys (settings, message) in
    let* (settings, partial_message) :=
      add_aliases (section config "ALIASES") settings in
    Ok (settings, message ++ partial_message) in
  match outcome with
  | Raise e => ([], Raise e)
  | Ok (settings, message) =>
      (if negb (String.eqb message "") then [Config.ErrorMessage message] else [],
       Ok settings)
  end.

(** The part of [os] that [parse_dirs] uses, on a file system of type [F]:
    [os.path.isdir] and [os.mkdir], which gives no file system when it
    raises. *)
Record os_fs (F : Type) : Type := {
  fs_isdir : F → string → bool;
  fs_mkdir : F → string → option F
}.
Arguments fs_isdir {F} _ _ _.
Arguments fs_mkdir {F} _ _ _.

(** [parse_dirs(basedir)]: [None] when an [os.mkdir] raises. *)
Definition parse_dirs {F} (os : os_fs F) (env : Config.os_env) (basedir : string)
    (fs : F) : option F :=
  let vimivdir := Config.expanduser env basedir in
  let tagdir := Py.join vimivdir "Tags" in
  let thumbdir := Py.join vimivdir "Thumbnails" in
  let trashdir := Py.join vimivdir "Trash" in
  foldl (λ (acc : option F) directory,
           fs ← acc;
           if negb (fs_isdir os fs directory) then fs_mkdir os fs directory
           else Some fs)
        (Some fs) [vimivdir; tagdir; thumbdir; trashdir].

End Startup.

(** ** library.py: construction, [move_up], [scroll] *)

Module Pane.

Import Library.

(** [library[name]] for the LIBRARY settings. *)
Definition setting (library : gmap string Config.value) (name : string)
    : res Config.value :=
  match library !! name with
  | Some v => Ok v
  | None => Raise (KeyError name)
  end.

(** The fields of [library] are typed. [TypeError] stands for a setting whose
    value has another type than its default, which [library] cannot hold. *)
Definition as_int (v : Config.value) : res Z :=
  match v with Config.VInt n => Ok n | _ => Raise TypeError end.

Definition as_bool (v : Config.value) : res bool :=
  match v with Config.VBool b => Ok b | _ => Raise TypeError end.

Definition as_str (v : Config.value) : res string :=
  match v with Config.VStr s => Ok s | _ => Raise TypeError end.

(** [Library.__init__(app, settings)], lines 47-97. A widget that was never
    shown is not visible. The pending prefix, the status messages and the
    search positions belong to other components and are given as they are
    when the library is built. *)
Definition init (a : app) (settings : gmap string (gmap string Config.value))
    (num_str0 : string) (err_messages0 : list string) (search_positions0 : list Z)
    : res library :=
  let* library :=
    match settings !! "LIBRARY" with
    | Some library => Ok library
    | None => Raise (KeyError "LIBRARY")
    end in
  let* show_at_start := bind (setting library "show_library") as_bool in
  let* default_width := bind (setting library "library_width") as_int in
  let* expand := bind (setting library "expand_lib") as_bool in
  let* border_width := bind (setting library "border_width") as_int in
  let width := default_width - border_width in
  let* markup := bind (setting library "markup") as_str in
  let* show_hidden := bind (setting library "show_hidden") as_bool in
  let* file_check_amount := bind (setting library "file_check_amount") as_int in
  let* desktop_start_dir := bind (setting library "desktop_start_dir") as_str in
  let l :=
    {| dir_pos := ∅; default_width := default_width; width := width;
       markup := markup; show_hidden := show_hidden;
       file_check_amount := file_check_amount; files := []; filesize := ∅;
       model := []; cursor := None; grid_visible := false; focused := false;
       num_str := num_str0; err_messages := err_messages0;
       search_positions := search_positions0 |} in
  let* (liststore, l) := liststore_create a l in
  Ok (set_model liststore l).

(** The library as [liststore_create] leaves it when it raises: untouched
    when the directory cannot be listed, with the new files and sizes when a
    row cannot be built. *)
Definition failed_listing (a : app) (l : library) : library :=
  match filelist_create a "." l with
  | Raise _ => l
  | Ok (files, l) =>
      set_files
        (if negb (String.eqb (cwd a) (tags_directory a))
         then List.filter (λ f, is_image a f || isdir a f) files
         else files) l
  end.

(** [move_up(directory, start)]. [chdir directory] is the application as
    [os.chdir(directory)] leaves it, with its new working directory and
    listing, or the exception it raises. The bare [except] also catches what
    [reload] raises, which can only come from building the listing. The
    result is the application and the library afterwards. *)
Definition move_up (fuel : nat) (a : app) (chdir : string → res app)
    (directory : string) (start : bool) (l : library) : app * library :=
  let curdir := cwd a in
  match chdir directory with
  | Raise _ => (a, err_message "Error: directory not accessible" l)
  | Ok a' =>
      if negb start then
        match reload fuel a' (cwd a') curdir false l with
        | Ok l' => (a', l')
        | Raise _ =>
            (a', err_message "Error: directory not accessible"
                   (failed_listing a' (set_search_positions [] l)))
        end
      else (a', l)
  end.

(** [scroll(direction)]. [file_select] stands for the method of that name on
    the row of the cursor; it hands the activated entry to the tag, image and
    thumbnail components, which are not part of these sources. *)
Definition scroll (fuel : nat) (a : app) (chdir : string → res app)
    (file_select : library → res (app * library)) (direction : string)
    (l : library) : res (app * library) :=
  if String.eqb direction "h" then
    let l := remember_pos (cwd a) (get_pos a) l in
    Ok (move_up fuel a chdir ".." false l)
  else if String.eqb direction "l" then file_select l
  else
    let* step :=
      if negb (String.eqb (num_str l) "") then
        match Py.int (num_str l) with
        | Some n => Ok n
        | None => Raise ValueError
        end
      else Ok 1 in
    let new_pos :=
      if String.eqb direction "j" then
        let new_pos := get_pos a + step in
        if (Z.of_nat (length (model l)) <=? new_pos)%Z
        then Z.of_nat (length (model l)) - 1 else new_pos
      else
        let new_pos := get_pos a - step in
        if (new_pos <? 0)%Z then 0 else new_pos in
    let* l := move_pos true (Some new_pos) l in
    Ok (a, l).

(** Lines 221-226 of [file_select]: the position of the selected file among
    the regular files of the listing. *)
Fixpoint image_index (isfile : string → bool) (fil : string) (index : Z)
    (files : list string) : Z :=
  match files with
  | [] => index
  | f :: files' =>
      if String.eqb f fil then index
      else if isfile f then image_index isfile fil (index + 1) files'
      else image_index isfile fil index files'
  end.

End Pane.

(** ** Vocabulary of the proofs *)

(** Every character of [s] satisfies [q]. *)
Fixpoint all_chars (q : ascii → bool) (s : string) : bool :=
  match s with
  | EmptyString => true
  | String c s' => q c && all_chars q s'
  end.

(** The characters [str] produces for an integer. *)
Definition numeral_char (c : ascii) : bool :=
  match Py.digit_of c with
  | Some _ => true
  | None => Ascii.eqb c "-"
  end.

(** The number that decimal digits denote, read left to right from [acc]. *)
Fixpoint uint_value (d : Decimal.uint) (acc : Z) : Z :=
  match d with
  | Decimal.Nil => acc
  | Decimal.D0 d => uint_value d (10 * acc + 0)
  | Decimal.D1 d => uint_value d (10 * acc + 1)
  | Decimal.D2 d => uint_value d (10 * acc + 2)
  | Decimal.D3 d => uint_value d (10 * acc + 3)
  | Decimal.D4 d => uint_value d (10 * acc + 4)
  | Decimal.D5 d => uint_value d (10 * acc + 5)
  | Decimal.D6 d => uint_value d (10 * acc + 6)
  | Decimal.D7 d => uint_value d (10 * acc + 7)
  | Decimal.D8 d => uint_value d (10 * acc + 8)
  | Decimal.D9 d => uint_value d (10 * acc + 9)
  end.

(** The types of settings that [overwrite_section] tells apart, in the order
    of its branches. *)
Inductive kind : Type := KRaw | KPair | KInt | KDir | KMarkup | KBool.

Definition kind_of (setting : string) : kind :=
  if String.eqb setting "geometry" then KRaw
  else if Py.contains setting ["default_thumbsize"] then KPair
  else if Py.contains setting Config.integer_settings then KInt
  else if String.eqb setting "desktop_start_dir" then KDir
  else if String.eqb setting "markup" then KMarkup
  else KBool.

(** A typed value of the right type for a setting: a path is an existing
    directory written without the home shorthand, a markup string opens a
    span and ends with the closing bracket. *)
Definition well_typed (env : Config.os_env) (setting : string) (v : Config.value) : Prop :=
  match kind_of setting, v with
  | KRaw, Config.VStr _ => True
  | KPair, Config.VPair _ _ => True
  | KInt, Config.VInt _ => True
  | KDir, Config.VStr p =>
      Config.isdir env p = true ∧ Config.expanduser env p = p
  | KMarkup, Config.VStr s =>
      Py.startswith "<span " s = true ∧ Py.endswith ">" s = true
  | KBool, Config.VBool _ => True
  | _, _ => False
  end.

(** A sample machine: one user, whose home directory exists. *)
Definition sample_env : Config.os_env :=
  {| Config.home := Some "/home/user";
     Config.pw_dir := λ _, None;
     Config.isdir := λ p, String.eqb p "/home/user" |}.

(** A result with [m] put before its message. *)
Definition extend (m : string)
    (r : res (gmap string (gmap string Config.value) * string))
    : res (gmap string (gmap string Config.value) * string) :=
  match r with
  | Ok (s, m') => Ok (s, m ++ m')
  | Raise e => Raise e
  end.




(** [keybindings[mode][k]] *)
Definition binding (keybindings : gmap string (ConfigParser.parser * string))
    (mode k : string) : res string :=
  match keybindings !! mode with
  | Some (keys, section) => ConfigParser.proxy_get keys section k
  | None => Raise (KeyError mode)
  end.

(** The parser with the options [d] as those of [section]. *)
Definition set_section (section : string) (d : list (string * string))
    (p : ConfigParser.parser) : ConfigParser.parser :=
  {| ConfigParser.defaults := ConfigParser.defaults p;
     ConfigParser.sections := <[section := d]> (ConfigParser.sections p) |}.

(** The exceptions that an update of a proxy can raise. *)
Definition from_update (e : exn) : Prop :=
  match e with
  | InterpolationError | ValueError | KeyError _ | NoSectionError => True
  | _ => False
  end.

(** The situations in which the keys file is refused. *)
Definition keyfile_not_found (read : res (list string * ConfigParser.parser)) : Prop :=
  ∃ keys, read = Ok ([], keys).

Definition duplicate_option (read : res (list string * ConfigParser.parser)) : Prop :=
  ∃ m, read = Raise (DuplicateOptionError m).

Definition first_missing (keys : ConfigParser.parser) : option string :=
  List.find (λ name, negb (ConfigParser.contains keys name)) Config.required_sections.

Definition missing_section (read : res (list string * ConfigParser.parser))
    (name : string) : Prop :=
  ∃ f fs keys, read = Ok (f :: fs, keys) ∧ first_missing keys = Some name.

(** A keys file with the five sections and the deprecated GENERAL section,
    in which [a] is bound both for the image mode and for all modes. *)
Definition sample_keys : ConfigParser.parser :=
  {| ConfigParser.defaults := [];
     ConfigParser.sections :=
       list_to_map
         [ ("IMAGE", [("a", "next"); ("b", "zoom_in")]);
           ("THUMBNAIL", []); ("LIBRARY", []); ("MANIPULATE", []); ("COMMAND", []);
           ("GENERAL", [("a", "quit")]) ] |}.


(** The keys file [sample_keys] with the command [c] for [a] in GENERAL. *)
Definition sample_keys_with (c : string) : ConfigParser.parser :=
  set_section "GENERAL" [("a", c)] sample_keys.

Definition returned_keybindings
    (r : list Config.event * res (gmap string (ConfigParser.parser * string)))
    : gmap string (ConfigParser.parser * string) :=
  match r.2 with
  | Ok kb => kb
  | Raise _ => ∅
  end.

(** A library showing five entries, and the application around it, with a
    window 800 pixels wide. *)
Definition sample_files : list string := ["a.png"; "b.png"; "c"; "d.png"; "e.png"].

Definition sample_library : Library.library :=
  {| Library.dir_pos := ∅; Library.default_width := 300; Library.width := 300;
     Library.markup := "<span>"; Library.show_hidden := false;
     Library.file_check_amount := 30; Library.files := sample_files;
     Library.filesize := ∅; Library.model := []; Library.cursor := Some 1;
     Library.grid_visible := true; Library.focused := true;
     Library.num_str := ""; Library.err_messages := [];
     Library.search_positions := [] |}.

Definition sample_app (directory : string) (width : Z) (listing : list string)
    : Library.app :=
  {| Library.cwd := directory; Library.winsize_width := width;
     Library.image := None; Library.get_pos := 0;
     Library.tags_directory := "/home/user/.vimiv/Tags"; Library.marked := [];
     Library.listdir := λ d _, if String.eqb d "." then Ok listing else Ok [];
     Library.is_image := Py.endswith ".png";
     Library.isdir := λ f, negb (Py.endswith ".png" f);
     Library.islink := λ _, false; Library.link_target_exists := λ _, true;
     Library.realpath := λ f, f; Library.abspath := λ f, directory ++ "/" ++ f;
     Library.size_fmt := λ _, "1.0K" |}.

(** The key handler after the user typed the digits [p]. *)
Definition typed (p : string) (l : Library.library) : Library.library :=
  {| Library.dir_pos := Library.dir_pos l;
     Library.default_width := Library.default_width l;
     Library.width := Library.width l; Library.markup := Library.markup l;
     Library.show_hidden := Library.show_hidden l;
     Library.file_check_amount := Library.file_check_amount l;
     Library.files := Library.files l; Library.filesize := Library.filesize l;
     Library.model := Library.model l; Library.cursor := Library.cursor l;
     Library.grid_visible := Library.grid_visible l;
     Library.focused := Library.focused l; Library.num_str := p;
     Library.err_messages := Library.err_messages l;
     Library.search_positions := Library.search_positions l |}.

(** The entries that a reload of the library [l] lists. *)
Definition listing (a : Library.app) (l : Library.library) : res (list string) :=
  (λ r : list Library.row * Library.library, Library.files r.2)
    <$> Library.liststore_create a l.

(** Lines 278-283 of [reload]: where the cursor goes once the model is set. *)
Definition restore_position (directory last_directory : string)
    (l : Library.library) : res Library.library :=
  match Library.dir_pos l !! directory with
  | Some pos => Library.move_pos true (Some pos) l
  | None =>
      if Py.contains (Py.basename last_directory) (Library.files l) then
        match Py.index (Py.basename last_directory) (Library.files l) with
        | Some i => Library.move_pos true (Some i) l
        | None => Raise ValueError
        end
      else Ok l
  end.

(** Lines 123-128 of [toggle]: the row of the displayed image is remembered
    when the image is in the current directory. *)
Definition remember_image (a : Library.app) (l : Library.library) : Library.library :=
  match Library.image a with
  | None => l
  | Some image =>
      if String.eqb (Py.dirname image) (Library.cwd a)
         && Py.contains (Py.basename image) (Library.files l)
      then match Py.index (Py.basename image) (Library.files l) with
           | Some i => Library.remember_pos (Library.cwd a) i l
           | None => l
           end
      else l
  end.

(** The shape of a value of the type of a setting; a markup string is a
    valid one. *)
Definition has_type (setting : string) (v : Config.value) : Prop :=
  match kind_of setting, v with
  | KRaw, Config.VStr _ => True
  | KPair, Config.VPair _ _ => True
  | KInt, Config.VInt _ => True
  | KDir, Config.VStr _ => True
  | KMarkup, Config.VStr s =>
      Py.startswith "<span " s = true ∧ Py.endswith ">" s = true
  | KBool, Config.VBool _ => True
  | _, _ => False
  end.

(** A value that [overwrite_section] can have stored: of the type of the
    setting, and an existing directory when it is the start directory. *)
Definition acceptable (env : Config.os_env) (setting : string) (v : Config.value)
    : Prop :=
  has_type setting v
  ∧ (kind_of setting = KDir → ∃ p, v = Config.VStr p ∧ Config.isdir env p = true).

(** The value of [setting] in section [key]. *)
Definition stored (settings : gmap string (gmap string Config.value))
    (key setting : string) : option Config.value :=
  settings !! key ≫= (.!! setting).

(** The command that the last readable definition of [alias] gives it. *)
Definition last_alias (items : list (string * Config.read_value)) (alias : string)
    : option string :=
  foldl (λ acc item,
           match item with
           | (name, Config.Interpolated value) =>
               if String.eqb name alias then Some value else acc
           | (_, Config.InterpolationFails _) => acc
           end) None items.

(** The messages for the aliases that cannot be read, in file order: three
    lines for each, the first naming the alias and the last giving the
    message of the exception. *)
Fixpoint alias_failures (items : list (string * Config.read_value)) : string :=
  match items with
  | [] => ""
  | (alias, Config.InterpolationFails e) :: items' =>
      ("Parsing alias '" ++ alias ++ "' failed." ++ nl
       ++ "If you meant to use % for current file, use %%." ++ nl
       ++ e ++ nl)
      ++ alias_failures items'
  | (_, Config.Interpolated _) :: items' => alias_failures items'
  end.

(** Options that can all be read, with the values they give. *)
Definition readable (options : list (string * string))
    : list (string * Config.read_value) :=
  (λ option, (option.1, Config.Interpolated option.2)) <$> options.

(** A configuration file with a wrong value, an unknown setting and two
    aliases, one of which cannot be read. *)
Definition sample_config : Startup.configuration :=
  [ ("DEFAULT", []);
    ("GENERAL", readable [("shuffle", "yes"); ("colour", "red"); ("thumb_padding", "x")]);
    ("LIBRARY", readable [("library_width", "400"); ("border_width", "10")]);
    ("ALIASES", [ ("e", Config.Interpolated "!gimp %");
                  ("bad", Config.InterpolationFails "bad interpolation") ]) ].

(** A file system that is the set of its directories: a directory that
    exists cannot be made again. *)
Definition set_fs : Startup.os_fs (gset string) :=
  {| Startup.fs_isdir := λ fs p, bool_decide (p ∈ fs);
     Startup.fs_mkdir := λ fs p, if bool_decide (p ∈ fs) then None else Some ({[p]} ∪ fs) |}.

(** The body of the loop of [parse_config] over the sections. *)
Definition overlay (env : Config.os_env)
    (config : gmap string (list (string * Config.read_value)))
    (acc : gmap string (gmap string Config.value) * string) (key : string)
    : res (gmap string (gmap string Config.value) * string) :=
  let* (settings, partial_message) := Config.overwrite_section env key config acc.1 in
  Ok (settings, acc.2 ++ partial_message).

(** The sections that [parse_config] overlays, in file order. *)
Definition overlaid (config : Startup.configuration) : list string :=
  List.filter (λ key, Py.contains key ["GENERAL"; "LIBRARY"]) config.*1.

(** What [parse_config] computes from the configuration it has read. *)
Definition overlay_all (env : Config.os_env) (config : Startup.configuration)
    (raised : option (exn * string))
    : res (gmap string (gmap string Config.value) * string) :=
  let* message :=
    match raised with
    | None => Ok ""
    | Some (e, text) => Startup.read_failure e text
    end in
  let* (settings, message) :=
    for_each (overlay env (list_to_map config))
             (overlaid config) (Config.set_defaults env, message) in
  let* (settings, partial_message) :=
    Startup.add_aliases (Startup.section config "ALIASES") settings in
  Ok (settings, message ++ partial_message).


(** The settings that [parse_config] returned. *)
Definition returned_settings
    (r : list Config.event * res (gmap string (gmap string Config.value)))
    : gmap string (gmap string Config.value) :=
  match r.2 with
  | Ok settings => settings
  | Raise _ => ∅
  end.

(** A start with [sample_config] as the only configuration read. *)
Definition sample_start
    : list Config.event * res (gmap string (gmap string Config.value)) :=
  Startup.parse_config sample_env "/home/user/.config"
    (λ _, (sample_config, None)) None false.

(** Whether a call returned. *)
Definition returns {A} (r : res A) : bool :=
  match r with
  | Ok _ => true
  | Raise _ => false
  end.

(** A symbolic link whose target is gone: [filelist_create] gives it no size. *)
Definition broken_link (a : Library.app) (fil : string) : bool :=
  Library.islink a fil && negb (Library.link_target_exists a fil).

(** The entries of a directory listing that [liststore_create] keeps. *)
Definition kept_entries (a : Library.app) (entries : list string) : list string :=
  if negb (String.eqb (Library.cwd a) (Library.tags_directory a))
  then List.filter (λ f, Library.is_image a f || Library.isdir a f) entries
  else entries.

(** The columns of a row. *)
Definition row_number (r : Library.row) : Z := r.1.1.1.
Definition row_size (r : Library.row) : string := r.1.2.

(** An application in a directory whose only subdirectory is [c]; pictures
    end in [.png]. *)
Definition album_app (directory : string) (listing : list string) : Library.app :=
  {| Library.cwd := directory; Library.winsize_width := 800;
     Library.image := None; Library.get_pos := 1;
     Library.tags_directory := "/home/user/.vimiv/Tags"; Library.marked := [];
     Library.listdir := λ d _, if String.eqb d "." then Ok listing else Ok ["x.png"; "y"];
     Library.is_image := Py.endswith ".png";
     Library.isdir := String.eqb "c";
     Library.islink := String.eqb "gone.png"; Library.link_target_exists := λ _, false;
     Library.realpath := λ f, f; Library.abspath := λ f, directory ++ "/" ++ f;
     Library.size_fmt := λ _, "1.0K" |}.

(** The settings of the library that only [resize] and [toggle_hidden]
    change. *)
Definition same_settings (l l' : Library.library) : Prop :=
  Library.default_width l' = Library.default_width l
  ∧ Library.width l' = Library.width l
  ∧ Library.markup l' = Library.markup l
  ∧ Library.show_hidden l' = Library.show_hidden l
  ∧ Library.file_check_amount l' = Library.file_check_amount l.

(** The only message of [move_pos] on a position that is given. *)
Definition empty_warning : string := "Warning: Directory is empty".

(** The library [l'] shows the listing [fs] after a reload of [l]: one row
    for each file, shown and focused, with the settings of [l], the positions
    it remembered for other directories, and its messages followed by
    warnings about an empty directory. *)
Definition reloaded (a : Library.app) (search : bool) (l : Library.library)
    (fs : list string) (l' : Library.library) : Prop :=
  Library.files l' = fs
  ∧ length (Library.model l') = length fs
  ∧ Library.grid_visible l' = true
  ∧ Library.focused l' = true
  ∧ same_settings l l'
  ∧ Library.search_positions l'
    = (if search && Library.grid_visible l then Library.search_positions l else [])
  ∧ (∀ d, d ≠ Library.cwd a → Library.dir_pos l' !! d = Library.dir_pos l !! d)
  ∧ (Library.grid_visible l = true → Library.dir_pos l' = Library.dir_pos l)
  ∧ (fs ≠ [] → Library.err_messages l' = Library.err_messages l)
  ∧ ∃ more, Library.err_messages l' = (Library.err_messages l ++ more)%list
            ∧ Forall (eq empty_warning) more.

(** The row of the displayed image, when the image is in the current
    directory and among the files of the library. *)
Definition image_row (a : Library.app) (l : Library.library) : option Z :=
  match Library.image a with
  | Some image =>
      if String.eqb (Py.dirname image) (Library.cwd a)
      then Py.index (Py.basename image) (Library.files l)
      else None
  | None => None
  end.

(** An application in a directory with one hidden picture. *)
Definition hidden_app : Library.app :=
  {| Library.cwd := "/a"; Library.winsize_width := 800;
     Library.image := Some "/a/b.png"; Library.get_pos := 0;
     Library.tags_directory := "/home/user/.vimiv/Tags"; Library.marked := [];
     Library.listdir := λ d hidden,
       if String.eqb d "." then Ok (if hidden then [".h.png"; "a.png"; "b.png"]
                                    else ["a.png"; "b.png"])
       else Ok [];
     Library.is_image := Py.endswith ".png"; Library.isdir := λ _, false;
     Library.islink := λ _, false; Library.link_target_exists := λ _, true;
     Library.realpath := λ f, f; Library.abspath := λ f, "/a/" ++ f;
     Library.size_fmt := λ _, "1.0K" |}.

(** The positions that [reload] consults for the listing [fs]: those of the
    library when it is shown. When it is hidden, [focus] shows it through
    [toggle], which has first remembered the row of the displayed image for
    the current directory. *)
Definition remembered (a : Library.app) (l : Library.library) (fs : list string)
    : gmap string Z :=
  if Library.grid_visible l then Library.dir_pos l
  else match image_row a (Library.set_files fs l) with
       | Some i => <[Library.cwd a := i]> (Library.dir_pos l)
       | None => Library.dir_pos l
       end.


(** * Properties *)

(** ** Sanity checks of the primitives on concrete inputs *)

Example int_examples :
  Py.int "128" = Some 128 ∧ Py.int " 128" = Some 128 ∧ Py.int "-7" = Some (-7)
  ∧ Py.int "" = None ∧ Py.int "1_000" = Some 1000 ∧ Py.int "1__0" = None
  ∧ Py.int "12a" = None ∧ Py.int "- 1" = None ∧ Py.int "+3 " = Some 3.
Proof. repeat split; reflexivity. Qed.

Example str_int_examples :
  Py.str_int 0 = "0" ∧ Py.str_int 128 = "128" ∧ Py.str_int (-45) = "-45".
Proof. repeat split; reflexivity. Qed.

Example path_examples :
  Py.basename "/a/b/c" = "c" ∧ Py.basename "" = "" ∧ Py.basename "/a/b/" = ""
  ∧ Py.dirname "/a/b/c.png" = "/a/b" ∧ Py.dirname "/c.png" = "/"
  ∧ Py.dirname "c.png" = "" ∧ Py.dirname "//a" = "//".
Proof. repeat split; reflexivity. Qed.

Example split_examples :
  Py.split "," "128, 128" = ["128"; " 128"] ∧ Py.split "," "" = [""]
  ∧ Py.split "," "1,2,3" = ["1"; "2"; "3"] ∧ Py.split "," "a," = ["a"; ""]
  ∧ Py.rstrip ")" (Py.lstrip "(" "((1, 2))") = "1, 2"
  ∧ Py.endswith ">" "<span a>" = true ∧ Py.endswith ">" "" = false
  ∧ Py.lower "TrUe" = "true".
Proof. repeat split; reflexivity. Qed.

Example thumbsize_examples :
  Config.parse_thumbsize "(128, 128)" = Config.Store (Config.VPair 128 128)
  ∧ Config.parse_thumbsize "64,32" = Config.Store (Config.VPair 64 32)
  ∧ Config.parse_thumbsize "1,2,3" = Config.Fail ValueError
  ∧ Config.parse_thumbsize "a,2" = Config.Fail ValueError
  ∧ Config.parse_thumbsize "1,b" = Config.Fail ValueError
  ∧ Config.parse_thumbsize "" = Config.Fail ValueError
  ∧ Config.parse_thumbsize "128" = Config.Fail IndexError.
Proof. repeat split; reflexivity. Qed.

(** ** Strings: stripping, splitting, and integers in decimal *)

Lemma append_nil_l (t : string) : "" ++ t = t.
Proof. reflexivity. Qed.

Lemma append_cons c (s t : string) : String c s ++ t = String c (s ++ t).
Proof. reflexivity. Qed.

Section StringFacts.

Variable p : ascii → bool.

Lemma all_chars_app q s t :
  all_chars q (s ++ t) = all_chars q s && all_chars q t.
Proof.
  induction s as [|c s IH]; [reflexivity|].
  rewrite append_cons. simpl. rewrite IH. apply andb_assoc.
Qed.

Lemma all_chars_impl (q q' : ascii → bool) s :
  (∀ c, q c = true → q' c = true) → all_chars q s = true → all_chars q' s = true.
Proof.
  intros Hq. induction s as [|c s IH]; simpl; [done|].
  intros [Hc Hs]%andb_prop. rewrite (Hq _ Hc), (IH Hs). reflexivity.
Qed.

Lemma lstrip_by_head c s : p c = false → Py.lstrip_by p (String c s) = String c s.
Proof. intros H. simpl. rewrite H. reflexivity. Qed.

Lemma rstrip_by_clean s :
  all_chars (λ c, negb (p c)) s = true → Py.rstrip_by p s = s.
Proof.
  induction s as [|c s IH]; simpl; [reflexivity|].
  intros [Hc Hs]%andb_prop. rewrite (IH Hs).
  apply negb_true_iff in Hc. rewrite Hc. destruct s; reflexivity.
Qed.

Lemma rstrip_by_app s t :
  Py.rstrip_by p (s ++ t) =
  match Py.rstrip_by p t with
  | EmptyString => Py.rstrip_by p s
  | r => s ++ r
  end.
Proof.
  induction s as [|c s IH].
  - rewrite append_nil_l. simpl. destruct (Py.rstrip_by p t); reflexivity.
  - rewrite append_cons. simpl. rewrite IH.
    destruct (Py.rstrip_by p t); [reflexivity|]. destruct s; reflexivity.
Qed.

End StringFacts.

Lemma split_clean sep s :
  all_chars (λ c, negb (Ascii.eqb c sep)) s = true → Py.split sep s = [s].
Proof.
  induction s as [|c s IH]; simpl; [reflexivity|].
  intros [Hc Hs]%andb_prop. apply negb_true_iff in Hc.
  rewrite Hc, (IH Hs). reflexivity.
Qed.

Lemma split_app sep s t :
  all_chars (λ c, negb (Ascii.eqb c sep)) s = true →
  Py.split sep (s ++ String sep t) = s :: Py.split sep t.
Proof.
  induction s as [|c s IH].
  - intros _. rewrite append_nil_l. simpl. rewrite Ascii.eqb_refl. reflexivity.
  - rewrite append_cons. simpl. intros [Hc Hs]%andb_prop.
    apply negb_true_iff in Hc. rewrite Hc, (IH Hs). reflexivity.
Qed.

(** What a numeral character is not. *)
Lemma numeral_char_plain c :
  numeral_char c = true →
  Py.is_space c = false ∧ Ascii.eqb c "," = false
  ∧ Py.is_char "(" c = false ∧ Py.is_char ")" c = false.
Proof.
  destruct c as [[] [] [] [] [] [] [] []]; vm_compute; intros H;
    first [discriminate H | repeat split].
Qed.

Lemma int_signed_when_digit c d s :
  Py.digit_of c = Some d →
  Py.int_signed (String c s) = Py.int_unsigned (String c s).
Proof.
  destruct c as [[] [] [] [] [] [] [] []]; vm_compute; intros H;
    first [discriminate H | reflexivity].
Qed.

Lemma digits_numeral d : all_chars numeral_char (NilEmpty.string_of_uint d) = true.
Proof. induction d; simpl; auto. Qed.

Lemma int_digits_uint d acc :
  Py.int_digits acc false (NilEmpty.string_of_uint d) = Some (uint_value d acc).
Proof. revert acc. induction d; intros acc; simpl; auto. Qed.

Lemma uint_value_pos d q : uint_value d (Z.pos q) = Z.pos (Pos.of_uint_acc d q).
Proof.
  revert q. induction d; intros q; simpl; [reflexivity|..];
    match goal with
    | |- uint_value _ ?a = Z.pos (Pos.of_uint_acc _ ?b) =>
        replace a with (Z.pos b) by lia; apply IHd
    end.
Qed.

Lemma uint_value_0 d : uint_value d 0 = Z.of_N (Pos.of_uint d).
Proof.
  induction d; simpl; [reflexivity | exact IHd | ..]; apply uint_value_pos.
Qed.

Lemma int_unsigned_uint d :
  d ≠ Decimal.Nil →
  Py.int_unsigned (NilEmpty.string_of_uint d) = Some (uint_value d 0).
Proof.
  destruct d; [done|..]; intros _; simpl; apply int_digits_uint.
Qed.

Lemma to_uint_not_nil q : Pos.to_uint q ≠ Decimal.Nil.
Proof.
  intros H. pose proof (DecimalPos.Unsigned.of_to q) as E.
  rewrite H in E. discriminate E.
Qed.

Lemma int_unsigned_pos q :
  Py.int_unsigned (NilZero.string_of_uint (Pos.to_uint q)) = Some (Z.pos q).
Proof.
  pose proof (to_uint_not_nil q) as Hn.
  replace (NilZero.string_of_uint (Pos.to_uint q))
    with (NilEmpty.string_of_uint (Pos.to_uint q))
    by (destruct (Pos.to_uint q); [done | reflexivity..]).
  rewrite (int_unsigned_uint _ Hn), uint_value_0, DecimalPos.Unsigned.of_to.
  reflexivity.
Qed.

Lemma str_int_numeral n :
  all_chars numeral_char (Py.str_int n) = true ∧ Py.str_int n ≠ "".
Proof.
  assert (Hu : ∀ d, all_chars numeral_char (NilZero.string_of_uint d) = true
                    ∧ NilZero.string_of_uint d ≠ "" ∨ d = Decimal.Nil).
  { intros d. destruct d; [right; reflexivity | left; split; [apply (digits_numeral (_ d)) | discriminate]..]. }
  destruct n as [|q|q]; unfold Py.str_int; simpl.
  - split; [reflexivity | discriminate].
  - destruct (Hu (Pos.to_uint q)) as [H|H]; [exact H | destruct (to_uint_not_nil _ H)].
  - split; [|discriminate].
    destruct (Hu (Pos.to_uint q)) as [[H _]|H]; [exact H | destruct (to_uint_not_nil _ H)].
Qed.

Lemma strip_numeral s : all_chars numeral_char s = true → Py.strip s = s.
Proof.
  intros H. unfold Py.strip.
  assert (Hs : all_chars (λ c, negb (Py.is_space c)) s = true).
  { revert H. apply all_chars_impl. intros c Hc.
    destruct (numeral_char_plain c Hc) as [-> _]. reflexivity. }
  destruct s as [|c s]; [reflexivity|].
  simpl in Hs. apply andb_prop in Hs as [Hc Hs'].
  rewrite lstrip_by_head by (by apply negb_true_iff).
  apply rstrip_by_clean. simpl. rewrite Hc, Hs'. reflexivity.
Qed.

(** [int(str(n)) == n] for every integer. *)
Lemma int_str_int n : Py.int (Py.str_int n) = Some n.
Proof.
  unfold Py.int. rewrite strip_numeral by apply str_int_numeral.
  destruct n as [|q|q]; [reflexivity|..]; unfold Py.str_int; simpl.
  - pose proof (int_unsigned_pos q) as H.
    destruct (NilZero.string_of_uint (Pos.to_uint q)) as [|c s] eqn:E; [discriminate H|].
    simpl in H. destruct (Py.digit_of c) as [d|] eqn:Ed; [|discriminate H].
    rewrite (int_signed_when_digit c d s Ed). simpl. rewrite Ed. exact H.
  - rewrite int_unsigned_pos. reflexivity.
Qed.

(** Leading white space does not matter to [int]. *)
Lemma int_space s : Py.int (String " " s) = Py.int s.
Proof. reflexivity. Qed.

Lemma append_assoc (s t u : string) : (s ++ t) ++ u = s ++ t ++ u.
Proof.
  induction s as [|c s IH]; [reflexivity|].
  rewrite !append_cons, IH. reflexivity.
Qed.

Lemma append_nil_r (s : string) : s ++ "" = s.
Proof.
  induction s as [|c s IH]; [reflexivity|].
  rewrite append_cons, IH. reflexivity.
Qed.

(** ** configparser.py: [overwrite_section] *)

Lemma numeral_not c (s : string) :
  all_chars numeral_char s = true →
  (c = "," ∨ c = "(" ∨ c = ")")%char →
  all_chars (λ x, negb (Ascii.eqb x c)) s = true.
Proof.
  intros Hs Hc. revert Hs. apply all_chars_impl. intros x Hx.
  destruct (numeral_char_plain x Hx) as (_ & H1 & H2 & H3).
  unfold Py.is_char in *. rewrite Ascii.eqb_sym in H2, H3.
  destruct Hc as [->| [->| ->]]; apply negb_true_iff; assumption.
Qed.

(** The text [str] gives a pair of integers parses back to the pair. *)
Lemma parse_thumbsize_str a b :
  Config.parse_thumbsize (Config.str (Config.VPair a b)) = Config.Store (Config.VPair a b).
Proof.
  destruct (str_int_numeral a) as [Ha Hane], (str_int_numeral b) as [Hb Hbne].
  unfold Config.parse_thumbsize. simpl Config.str.
  set (A := Py.str_int a) in *. set (B := Py.str_int b) in *.
  assert (E1 : Py.lstrip "(" ("(" ++ A ++ ", " ++ B ++ ")") = (A ++ ", " ++ B) ++ ")").
  { rewrite append_cons, append_nil_l. unfold Py.lstrip. simpl Py.lstrip_by.
    destruct A as [|c A']; [done|].
    simpl in Ha. apply andb_prop in Ha as [Hc _].
    rewrite append_cons, lstrip_by_head
      by (destruct (numeral_char_plain c Hc) as (_ & _ & H & _); exact H).
    rewrite <- append_cons, !append_assoc. reflexivity. }
  assert (Hclean : ∀ c, (c = "," ∨ c = "(" ∨ c = ")")%char → c ≠ " "%char →
            all_chars (λ x, negb (Ascii.eqb x c)) (" " ++ B) = true).
  { intros c Hc Hsp. rewrite append_cons, append_nil_l. cbn [all_chars].
    rewrite (numeral_not c B Hb Hc), andb_true_r.
    apply negb_true_iff, Ascii.eqb_neq. congruence. }
  assert (E2 : Py.rstrip ")" ((A ++ ", " ++ B) ++ ")") = A ++ ", " ++ B).
  { unfold Py.rstrip. rewrite rstrip_by_app. simpl Py.rstrip_by.
    apply rstrip_by_clean.
    assert (H : all_chars (λ x, negb (Ascii.eqb x ")")) (A ++ ", " ++ B) = true).
    { rewrite all_chars_app, (numeral_not ")" A Ha) by auto.
      change (", " ++ B) with (String "," (" " ++ B)). cbn [all_chars andb].
      change (negb (Ascii.eqb "," ")")) with true. cbn [andb].
      apply Hclean; [auto | discriminate]. }
    revert H. apply all_chars_impl. intros x.
    unfold Py.is_char. rewrite Ascii.eqb_sym. done. }
  rewrite E1, E2.
  change (A ++ ", " ++ B) with (A ++ String "," (" " ++ B)).
  rewrite split_app by (apply numeral_not; auto).
  rewrite split_clean by (apply Hclean; [auto | discriminate]).
  simpl. subst A B. rewrite int_str_int.
  change (" " ++ Py.str_int b) with (String " " (Py.str_int b)).
  rewrite int_space, int_str_int. reflexivity.
Qed.

(** The branch of [parse_setting] follows the type of the setting. *)
Lemma parse_setting_str env setting v :
  well_typed env setting v →
  Config.parse_setting env setting (Config.str v) = Config.Store v.
Proof.
  unfold well_typed, kind_of, Config.parse_setting.
  destruct (String.eqb setting "geometry");
    [destruct v; done|].
  destruct (Py.contains setting ["default_thumbsize"]);
    [destruct v; try done; intros _; apply parse_thumbsize_str|].
  destruct (Py.contains setting Config.integer_settings);
    [destruct v; try done; intros _; simpl; by rewrite int_str_int|].
  destruct (String.eqb setting "desktop_start_dir");
    [destruct v; try done; simpl; intros [Hd ->]; by rewrite Hd|].
  destruct (String.eqb setting "markup");
    [destruct v; try done; simpl; intros [-> ->]; done|].
  destruct v as [[]| | |]; done.
Qed.

Lemma bind_Ok {A} (r : res A) : bind r Ok = r.
Proof. destruct r; reflexivity. Qed.

Lemma for_each_single {A S} (body : S → A → res S) x s :
  for_each body [x] s = body s x.
Proof. apply bind_Ok. Qed.

(** The loop of [overwrite_section] over a file with one option. *)
Lemma overwrite_section_single env key item config settings :
  Config.overwrite_section env key (<[key := [item]]> config) settings
  = Config.overwrite_setting env key (settings, "") item.
Proof.
  unfold Config.overwrite_section. rewrite lookup_insert_eq.
  apply for_each_single.
Qed.

(** C4. For every supported type of setting (boolean, integer, pair of
    integers, raw string, valid markup, existing directory), the string form
    [str v] of a typed value [v], read by [overwrite_section] from a
    configuration file, stores [v] itself under the setting and reports
    nothing. *)
Theorem overwrite_section_roundtrip env key setting v known old config settings :
  settings !! key = Some known →
  known !! setting = Some old →
  well_typed env setting v →
  Config.overwrite_section env key
    (<[key := [(setting, Config.Interpolated (Config.str v))]]> config) settings
  = Ok (<[key := <[setting := v]> known]> settings, "").
Proof.
  intros Hkey Hold Hv. rewrite overwrite_section_single.
  unfold Config.overwrite_setting.
  rewrite Hkey, Hold, (parse_setting_str env setting v Hv). reflexivity.
Qed.

Lemma overwrite_section_roundtrip_witness :
  Config.overwrite_section sample_env "GENERAL"
    (<["GENERAL" := [("default_thumbsize", Config.Interpolated "(128, 128)")]]> ∅)
    (Config.set_defaults sample_env)
  = Ok (<["GENERAL" := <["default_thumbsize" := Config.VPair 128 128]>
                         (list_to_map Config.general_defaults)]>
          (Config.set_defaults sample_env), "").
Proof.
  exact (overwrite_section_roundtrip sample_env "GENERAL" "default_thumbsize"
           (Config.VPair 128 128) (list_to_map Config.general_defaults)
           (Config.VPair 128 128) ∅ (Config.set_defaults sample_env)
           eq_refl eq_refl I).
Defined.

(** Every default of [set_defaults] is a value of the type of its setting,
    on a machine whose home directory exists and is named without the home
    shorthand. *)
Lemma defaults_well_typed env key known setting v :
  Config.isdir env (Config.expanduser env "~") = true →
  Config.expanduser env (Config.expanduser env "~") = Config.expanduser env "~" →
  key = "GENERAL" ∨ key = "LIBRARY" →
  Config.set_defaults env !! key = Some known →
  known !! setting = Some v →
  well_typed env setting v.
Proof.
  intros Hdir Hfix [-> | ->] Hknown Hv;
    unfold Config.set_defaults in Hknown;
    [rewrite lookup_insert_eq in Hknown
    |rewrite lookup_insert_ne, lookup_insert_eq in Hknown by discriminate];
    injection Hknown as <-;
    repeat (apply lookup_insert_Some in Hv as [[<- <-] | [_ Hv]]);
    try (by rewrite lookup_empty in Hv); try exact I.
  - split; reflexivity.
  - split; assumption.
Qed.

(** The defaults themselves survive the round trip through a file. *)
Lemma defaults_roundtrip env key known setting v config :
  Config.isdir env (Config.expanduser env "~") = true →
  Config.expanduser env (Config.expanduser env "~") = Config.expanduser env "~" →
  key = "GENERAL" ∨ key = "LIBRARY" →
  Config.set_defaults env !! key = Some known →
  known !! setting = Some v →
  Config.overwrite_section env key
    (<[key := [(setting, Config.Interpolated (Config.str v))]]> config)
    (Config.set_defaults env)
  = Ok (Config.set_defaults env, "").
Proof.
  intros Hdir Hfix Hkey Hknown Hv.
  rewrite overwrite_section_single. unfold Config.overwrite_setting.
  rewrite Hknown, Hv, (parse_setting_str env setting v)
    by eauto using defaults_well_typed.
  rewrite (insert_id known) by assumption.
  rewrite (insert_id (Config.set_defaults env)) by assumption.
  reflexivity.
Qed.

(** *** Unknown settings *)

Lemma for_each_cons {A S} (body : S → A → res S) x l s :
  for_each body (x :: l) s = bind (body s x) (for_each body l).
Proof. reflexivity. Qed.

Lemma for_each_app {A S} (body : S → A → res S) l1 l2 s :
  for_each body (l1 ++ l2)%list s = bind (for_each body l1 s) (for_each body l2).
Proof.
  revert s. induction l1 as [|x l1 IH]; intros s; [reflexivity|].
  rewrite <- app_comm_cons, !for_each_cons.
  destruct (body s x) as [s'|e]; [apply IH | reflexivity].
Qed.

Lemma overwrite_setting_extend env key s m item :
  Config.overwrite_setting env key (s, m) item
  = extend m (Config.overwrite_setting env key (s, "") item).
Proof.
  destruct item as [setting [raw|e]]; unfold Config.overwrite_setting;
    (destruct (s !! key) as [known|]; [|reflexivity]);
    (destruct (known !! setting) as [old|]; [|reflexivity]); [|reflexivity].
  destruct (Config.parse_setting env setting raw) as [v| |[]]; simpl;
    rewrite ?append_nil_r; reflexivity.
Qed.

Lemma for_each_extend env key items s m :
  for_each (Config.overwrite_setting env key) items (s, m)
  = extend m (for_each (Config.overwrite_setting env key) items (s, "")).
Proof.
  revert s m. induction items as [|item items IH]; intros s m.
  - simpl. rewrite append_nil_r. reflexivity.
  - rewrite !for_each_cons, (overwrite_setting_extend env key s m).
    destruct (Config.overwrite_setting env key (s, "") item) as [[s1 m1]|e];
      [|reflexivity].
    cbn [extend bind]. rewrite (IH s1 (m ++ m1)), (IH s1 m1).
    destruct (for_each _ items (s1, "")) as [[s2 m2]|e]; [|reflexivity].
    cbn [extend]. rewrite append_assoc. reflexivity.
Qed.

(** No iteration adds or removes a setting name. *)
Lemma overwrite_setting_names env key s m item s' m' known :
  Config.overwrite_setting env key (s, m) item = Ok (s', m') →
  s !! key = Some known →
  ∃ known', s' !! key = Some known'
            ∧ ∀ k, known' !! k = None ↔ known !! k = None.
Proof.
  destruct item as [setting [raw|e]]; unfold Config.overwrite_setting;
    intros H Hkey; rewrite Hkey in H;
    (destruct (known !! setting) as [old|] eqn:Hold;
       [|injection H as <- <-; by exists known]); [|discriminate H].
  - destruct (Config.parse_setting env setting raw) as [v| |[]];
      try discriminate H; injection H as <- <-; try (by exists known).
    exists (<[setting := v]> known). split; [apply lookup_insert_eq|].
    intros k. destruct (decide (setting = k)) as [<-|Hne].
    + rewrite lookup_insert_eq, Hold. split; discriminate.
    + rewrite lookup_insert_ne by assumption. reflexivity.
Qed.

Lemma for_each_names env key items s m s' m' known :
  for_each (Config.overwrite_setting env key) items (s, m) = Ok (s', m') →
  s !! key = Some known →
  ∃ known', s' !! key = Some known'
            ∧ ∀ k, known' !! k = None ↔ known !! k = None.
Proof.
  revert s m known. induction items as [|item items IH]; intros s m known.
  - intros [= <- <-] Hkey. by exists known.
  - rewrite for_each_cons.
    destruct (Config.overwrite_setting env key (s, m) item) as [[s1 m1]|e] eqn:E;
      [|discriminate].
    cbn [bind]. intros H Hkey.
    destruct (overwrite_setting_names _ _ _ _ _ _ _ _ E Hkey) as (k1 & Hk1 & Hsame).
    destruct (IH _ _ _ H Hk1) as (k2 & Hk2 & Hsame2).
    exists k2. split; [assumption|]. intros k. rewrite Hsame2. apply Hsame.
Qed.

(** One iteration on a name that the settings do not have. *)
Lemma overwrite_setting_unknown env key s m setting read known :
  s !! key = Some known →
  known !! setting = None →
  Config.overwrite_setting env key (s, m) (setting, read)
  = Ok (s, m ++ "Ignoring unknown setting " ++ setting ++ ".").
Proof. intros Hkey Hnone. unfold Config.overwrite_setting. by rewrite Hkey, Hnone. Qed.

(** C5. An option of a GENERAL or LIBRARY section whose name is not a known
    setting changes no entry of the settings and adds exactly one warning,
    [Ignoring unknown setting <name>.], which names it: compared with the
    same file without that option, [overwrite_section] returns the same
    settings, and the same message with the one warning inserted where the
    option stood. The value of the option is not read: it does not matter
    whether it can be. *)
Theorem unknown_setting_ignored env key pre setting read post config settings known :
  settings !! key = Some known →
  known !! setting = None →
  (∀ e, Config.overwrite_section env key (<[key := (pre ++ post)%list]> config) settings
        = Raise e →
        Config.overwrite_section env key
          (<[key := (pre ++ (setting, read) :: post)%list]> config) settings
        = Raise e)
  ∧ (∀ s' m',
       Config.overwrite_section env key (<[key := (pre ++ post)%list]> config) settings
       = Ok (s', m') →
       ∃ s1 m1 m2,
         Config.overwrite_section env key (<[key := pre]> config) settings = Ok (s1, m1)
         ∧ m' = m1 ++ m2
         ∧ Config.overwrite_section env key
             (<[key := (pre ++ (setting, read) :: post)%list]> config) settings
           = Ok (s', m1 ++ ("Ignoring unknown setting " ++ setting ++ ".") ++ m2)).
Proof.
  intros Hkey Hnone. unfold Config.overwrite_section.
  rewrite !lookup_insert_eq, !for_each_app.
  destruct (for_each (Config.overwrite_setting env key) pre (settings, ""))
    as [[s1 m1]|e1] eqn:Epre; cbn [bind].
  - destruct (for_each_names _ _ _ _ _ _ _ _ Epre Hkey) as (k1 & Hk1 & Hsame).
    rewrite for_each_cons, (overwrite_setting_unknown env key s1 m1 setting read k1 Hk1)
      by (by apply Hsame).
    cbn [bind]. rewrite (for_each_extend env key post s1 (m1 ++ _)),
      (for_each_extend env key post s1 m1).
    destruct (for_each _ post (s1, "")) as [[s2 m2]|e2]; cbn [extend].
    + split; [discriminate|]. intros s' m' [= <- <-].
      exists s1, m1, m2. by rewrite append_assoc.
    + split; [intros e [= <-]; reflexivity | discriminate].
  - split; [intros e [= <-]; reflexivity | discriminate].
Qed.

Lemma unknown_setting_ignored_witness :
  ∃ s1 m1 m2,
    Config.overwrite_section sample_env "GENERAL"
      (<["GENERAL" := [("shuffle", Config.Interpolated "yes")]]> ∅)
      (Config.set_defaults sample_env)
    = Ok (s1, m1)
    ∧ ("Invalid setting 'x' for 'thumb_padding'." ++ nl
       ++ "Falling back to default '10'." ++ nl ++ nl) = m1 ++ m2
    ∧ Config.overwrite_section sample_env "GENERAL"
        (<["GENERAL" := [("shuffle", Config.Interpolated "yes");
                         ("colour", Config.Interpolated "red");
                         ("thumb_padding", Config.Interpolated "x")]]> ∅)
        (Config.set_defaults sample_env)
      = Ok (<["GENERAL" := <["shuffle" := Config.VBool true]>
                             (list_to_map Config.general_defaults)]>
              (Config.set_defaults sample_env),
            m1 ++ ("Ignoring unknown setting " ++ "colour" ++ ".") ++ m2).
Proof.
  exact (proj2 (unknown_setting_ignored sample_env "GENERAL"
                  [("shuffle", Config.Interpolated "yes")]
                  "colour" (Config.Interpolated "red")
                  [("thumb_padding", Config.Interpolated "x")] ∅
                  (Config.set_defaults sample_env)
                  (list_to_map Config.general_defaults) eq_refl eq_refl)
           (<["GENERAL" := <["shuffle" := Config.VBool true]>
                             (list_to_map Config.general_defaults)]>
              (Config.set_defaults sample_env))
           ("Invalid setting 'x' for 'thumb_padding'." ++ nl
            ++ "Falling back to default '10'." ++ nl ++ nl)
           eq_refl).
Defined.

(** *** The thumbnail size *)

(** What [except ValueError] does with a value it refuses: the setting keeps
    its value and the warning names the text of the file. *)
Lemma overwrite_setting_invalid env key s m setting raw known old :
  s !! key = Some known →
  known !! setting = Some old →
  Config.parse_setting env setting raw = Config.Fail ValueError →
  Config.overwrite_setting env key (s, m) (setting, Config.Interpolated raw)
  = Ok (s, m ++ "Invalid setting '" ++ raw ++ "' for '" ++ setting ++ "'." ++ nl
            ++ "Falling back to default '" ++ Config.str old ++ "'." ++ nl ++ nl).
Proof.
  intros Hkey Hold Hparse. unfold Config.overwrite_setting.
  by rewrite Hkey, Hold, Hparse.
Qed.

(** A text that is not a pair of integers is refused with [ValueError],
    except when it has a single component and that component is an integer:
    then [file_set[1]] is read before the length is looked at. *)
Lemma parse_thumbsize_cases raw :
  (∃ a b, Config.parse_thumbsize raw = Config.Store (Config.VPair a b))
  ∨ Config.parse_thumbsize raw = Config.Fail ValueError
  ∨ (Config.parse_thumbsize raw = Config.Fail IndexError
     ∧ ∃ x a, Py.split "," (Py.rstrip ")" (Py.lstrip "(" raw)) = [x]
              ∧ Py.int x = Some a).
Proof.
  unfold Config.parse_thumbsize.
  destruct (Py.split "," (Py.rstrip ")" (Py.lstrip "(" raw))) as [|x0 [|x1 rest]] eqn:E.
  - exfalso. revert E. generalize (Py.rstrip ")" (Py.lstrip "(" raw)).
    intros [|c s]; simpl; [discriminate|].
    destruct (Ascii.eqb c ","); [discriminate|]. destruct (Py.split "," s); discriminate.
  - simpl. destruct (Py.int x0) as [a|] eqn:Ea; [|right; left; reflexivity].
    right; right. split; [reflexivity|]. exists x0, a. split; [reflexivity | exact Ea].
  - simpl. destruct (Py.int x0) as [a|]; [|right; left; reflexivity].
    destruct (Py.int x1) as [b|]; [|right; left; reflexivity].
    destruct rest; simpl; [left; by exists a, b | right; left; reflexivity].
Qed.

(** C2. A thumbnail size with a single number, such as [128], is not caught
    as an invalid setting: [file_set[1]] raises [IndexError], which
    [except ValueError] lets through, so [overwrite_section] raises instead of
    keeping the default and adding the fallback warning. *)
Theorem thumbsize_single_number_raises env :
  Config.overwrite_section env "GENERAL"
    (<["GENERAL" := [("default_thumbsize", Config.Interpolated "128")]]> ∅)
    (Config.set_defaults env)
  = Raise IndexError.
Proof.
  rewrite overwrite_section_single. unfold Config.overwrite_setting, Config.set_defaults.
  rewrite lookup_insert_eq. reflexivity.
Qed.

(** ** The parser: dictionaries and interpolation *)







Lemma interpolate_loop_raises deeper map rounds accum rest e :
  (∀ accum rest, deeper accum rest = Raise e → e = InterpolationError) →
  ConfigParser.interpolate_loop deeper map rounds accum rest = Raise e →
  e = InterpolationError.
Proof.
  intros Hdeeper. revert accum rest.
  induction rounds as [|rounds IH]; intros accum rest; [discriminate|].
  cbn [ConfigParser.interpolate_loop].
  destruct (String.eqb rest ""); [discriminate|].
  destruct (ConfigParser.from "%" rest) as [|c0 [|c1 r]]; [discriminate | by intros [= <-] |].
  destruct c1 as [[] [] [] [] [] [] [] []];
    first [by intros [= <-] | apply IH | idtac].
  destruct (ConfigParser.keycre_match _) as [[var rest']|]; [|by intros [= <-]].
  destruct (map _) as [v|]; [|by intros [= <-]].
  destruct (ConfigParser.has_char "%" v); [|apply IH].
  destruct (deeper _ v) as [a|e'] eqn:E; cbn [bind];
    [apply IH | intros [= <-]; by apply Hdeeper in E].
Qed.

Lemma interpolate_raises budget map accum rest e :
  ConfigParser.interpolate_some budget map accum rest = Raise e →
  e = InterpolationError.
Proof.
  revert accum rest. induction budget as [|budget IH]; intros accum rest;
    [by intros [= <-]|].
  cbn [ConfigParser.interpolate_some]. by apply interpolate_loop_raises.
Qed.

Lemma proxy_get_raises p section key e :
  ConfigParser.proxy_get p section key = Raise e → from_update e.
Proof.
  unfold ConfigParser.proxy_get.
  destruct (ConfigParser.unify_values p section) as [d|]; [|by intros [= <-]].
  destruct (ConfigParser.chain_get d _); [|by intros [= <-]].
  intros H. by apply interpolate_raises in H as ->.
Qed.

Lemma proxy_set_raises p section key value e :
  ConfigParser.proxy_set p section key value = Raise e → from_update e.
Proof.
  unfold ConfigParser.proxy_set, ConfigParser.before_set.
  destruct (negb _); [destruct (ConfigParser.has_char _ _); [by intros [= <-]|]|];
    cbn [bind]; (destruct (_ || _); [discriminate|]);
    (destruct (ConfigParser.sections p !! section); [discriminate | by intros [= <-]]).
Qed.

Lemma proxy_update_raises p target source e :
  ConfigParser.proxy_update p target source = Raise e → from_update e.
Proof.
  unfold ConfigParser.proxy_update.
  destruct (ConfigParser.options p source) as [names|]; [|by intros [= <-]].
  revert p. induction names as [|n names IH]; intros p; [discriminate|].
  rewrite for_each_cons.
  destruct (ConfigParser.proxy_get p source n) as [v|e'] eqn:E1; cbn [bind];
    [|intros [= <-]; by apply proxy_get_raises in E1].
  destruct (ConfigParser.proxy_set p target n v) as [p'|e'] eqn:E2; cbn [bind];
    [apply IH | intros [= <-]; by apply proxy_set_raises in E2].
Qed.

(** ** configparser.py: [parse_keys] *)

Lemma lower_char_idem c : Py.lower_char (Py.lower_char c) = Py.lower_char c.
Proof. destruct c as [[] [] [] [] [] [] [] []]; reflexivity. Qed.

Lemma lower_idem s : Py.lower (Py.lower s) = Py.lower s.
Proof.
  induction s as [|c s IH]; [reflexivity|].
  cbn [Py.lower]. by rewrite lower_char_idem, IH.
Qed.















Lemma update_keybindings_cons s sections target out r :
  Config.update_keybindings (s :: sections) target (out, r)
  = Config.update_keybindings sections target
      match r with
      | Raise e => (out, Raise e)
      | Ok keys =>
          if ConfigParser.contains keys s then
            ((out ++ [Config.Print (Config.deprecation_notice s)])%list,
             ConfigParser.proxy_update keys target s)
          else (out, Ok keys)
      end.
Proof. reflexivity. Qed.



(** The messages of [update_keybindings] are printed lines, and what it
    raises comes from an update. *)
Lemma update_keybindings_events sections target out r out' r' :
  Config.update_keybindings sections target (out, r) = (out', r') →
  Forall (λ ev, ∃ line, ev = Config.Print line) out →
  (∀ e, r = Raise e → from_update e) →
  Forall (λ ev, ∃ line, ev = Config.Print line) out'
  ∧ (∀ e, r' = Raise e → from_update e).
Proof.
  revert out r. induction sections as [|s sections IH]; intros out r.
  - intros [= <- <-]. done.
  - rewrite update_keybindings_cons.
    destruct r as [p|e]; [|by apply IH].
    destruct (ConfigParser.contains p s); [|by apply IH].
    intros Hrest Hout _. apply (IH _ _ Hrest).
    + apply Forall_app. split; [exact Hout|]. constructor; [eauto | constructor].
    + intros e. apply proxy_update_raises.
Qed.


Lemma first_missing_sections keys :
  (let* keys_image := Config.section_of keys "IMAGE" in
   let* keys_thumbnail := Config.section_of keys "THUMBNAIL" in
   let* keys_library := Config.section_of keys "LIBRARY" in
   let* keys_manipulate := Config.section_of keys "MANIPULATE" in
   let* keys_command := Config.section_of keys "COMMAND" in
   Ok [keys_image; keys_thumbnail; keys_library; keys_manipulate; keys_command])
  = match first_missing keys with
    | Some name => Raise (KeyError name)
    | None => Ok Config.required_sections
    end.
Proof.
  unfold first_missing, Config.section_of, Config.required_sections. cbn [List.find].
  destruct (ConfigParser.contains keys "IMAGE"); [|reflexivity].
  destruct (ConfigParser.contains keys "THUMBNAIL"); [|reflexivity].
  destruct (ConfigParser.contains keys "LIBRARY"); [|reflexivity].
  destruct (ConfigParser.contains keys "MANIPULATE"); [|reflexivity].
  destruct (ConfigParser.contains keys "COMMAND"); reflexivity.
Qed.









(** A shared command with a [%] goes through the parser twice. The command
    [!gimp %%] of a file reads [!gimp %], which the parser refuses to store:
    [parse_keys] raises [ValueError]. The command [!gimp %%%%] reads
    [!gimp %%], which is stored and bound as [!gimp %]. A command of DEFAULT
    is a command of GENERAL too. *)
Example parse_keys_percent :
  Config.parse_keys (Ok (["/etc/vimiv/keys.conf"], sample_keys_with "!gimp %%"))
  = ([Config.Print "Section GENERAL is deprecated and will be removed in a future version."],
     Raise ValueError)
  ∧ ConfigParser.proxy_get (sample_keys_with "!gimp %%%%") "GENERAL" "a" = Ok "!gimp %%"
  ∧ binding (returned_keybindings
               (Config.parse_keys
                  (Ok (["/etc/vimiv/keys.conf"], sample_keys_with "!gimp %%%%"))))
      "IMAGE" "a" = Ok "!gimp %"
  ∧ binding (returned_keybindings
               (Config.parse_keys
                  (Ok (["/etc/vimiv/keys.conf"],
                       {| ConfigParser.defaults := [("q", "quit")];
                          ConfigParser.sections := ConfigParser.sections sample_keys |}))))
      "LIBRARY" "q" = Ok "quit".
Proof. repeat split; vm_compute; reflexivity. Qed.

(** *** When [parse_keys] gives up *)

Lemma parse_keys_missing f fs keys name :
  first_missing keys = Some name →
  Config.parse_keys (Ok (f :: fs, keys))
  = ([Config.ErrorMessage (Config.missing_section_message name)], Raise (SystemExit 1)).
Proof.
  intros H. unfold Config.parse_keys. rewrite first_missing_sections, H. reflexivity.
Qed.

(** With the five sections there, [parse_keys] only prints, and raises only
    what an update raises. *)
Lemma parse_keys_complete f fs keys :
  first_missing keys = None →
  ∃ out r,
    Config.parse_keys (Ok (f :: fs, keys)) = (out, r)
    ∧ Forall (λ ev, ∃ line, ev = Config.Print line) out
    ∧ ∀ e, r = Raise e → from_update e.
Proof.
  intros H. unfold Config.parse_keys. rewrite first_missing_sections, H.
  destruct (Config.update_keybindings _ "IMAGE" _) as [out1 r1] eqn:E1.
  destruct (Config.update_keybindings _ "THUMBNAIL" _) as [out2 r2] eqn:E2.
  destruct (Config.update_keybindings _ "LIBRARY" _) as [out3 r3] eqn:E3.
  apply update_keybindings_events in E1 as [Ho1 Hr1]; [|constructor|discriminate].
  apply update_keybindings_events in E2 as [Ho2 Hr2]; [|exact Ho1|exact Hr1].
  apply update_keybindings_events in E3 as [Ho3 Hr3]; [|exact Ho2|exact Hr2].
  eexists _, _. split; [reflexivity|]. split; [exact Ho3|].
  intros e He. apply Hr3. destruct r3; [discriminate He | by injection He as ->].
Qed.

Lemma from_update_status e : from_update e → exit_status (@Raise unit e) = Some 1.
Proof. destruct e; done. Qed.

(** C3, as the code has it. [parse_keys] reports an error and calls
    [sys.exit(1)] in exactly three situations: no keys file was read, the
    file has a duplicate option, or one of the five required sections is
    missing, and then the message names the first missing section. Any other
    exception of [keys.read] is not caught: it leaves [parse_keys] as it is,
    with nothing reported. In all these cases the exit status is 1. *)
Theorem parse_keys_exits read :
  ((∃ msg, Config.parse_keys read = ([Config.ErrorMessage msg], Raise (SystemExit 1)))
   ↔ keyfile_not_found read ∨ duplicate_option read ∨ ∃ name, missing_section read name)
  ∧ (∀ name, missing_section read name →
       Config.parse_keys read
       = ([Config.ErrorMessage ("Missing section '" ++ name ++ "' in keys.conf." ++ nl
                                ++ "Refer to vimivrc(5) to fix your config.")],
          Raise (SystemExit 1)))
  ∧ (∀ e, read = Raise e → (∀ m, e ≠ DuplicateOptionError m) →
       Config.parse_keys read = ([], Raise e))
  ∧ (∀ e, (Config.parse_keys read).2 = Raise e →
       exit_status (Config.parse_keys read).2 = Some 1
       ∨ ∃ c, read = Raise (SystemExit c)).
Proof.
  repeat split.
  - intros [msg H]. destruct read as [[[|f fs] keys]|e].
    + left. by exists keys.
    + right; right. destruct (first_missing keys) as [name|] eqn:E.
      * exists name, f, fs, keys. done.
      * destruct (parse_keys_complete f fs keys E) as (out & r & E' & Hout & Hr).
        rewrite E' in H. injection H as -> ->. by destruct (Hr _ eq_refl).
    + right; left. destruct e; try discriminate H. by eexists.
  - intros [[keys ->] | [[m ->] | [name (f & fs & keys & -> & H)]]].
    + eexists. reflexivity.
    + eexists. reflexivity.
    + eexists. by apply parse_keys_missing.
  - intros name (f & fs & keys & -> & H). by apply parse_keys_missing.
  - intros e -> Hne. destruct e; try reflexivity. by destruct (Hne message).
  - intros e H. destruct read as [[[|f fs] keys]|e'].
    + left. reflexivity.
    + destruct (first_missing keys) as [name|] eqn:E.
      * left. by rewrite (parse_keys_missing f fs keys name E).
      * destruct (parse_keys_complete f fs keys E) as (out & r & E' & Hout & Hr).
        rewrite E' in *. cbn [snd] in *. subst r. left.
        destruct e; try done; by destruct (Hr _ eq_refl).
    + destruct e'; try (left; reflexivity). right. by eexists.
Qed.

(** C3 as stated fails: a keys file whose first line is not a section header
    makes [keys.read] raise [MissingSectionHeaderError]; [parse_keys] does not
    catch it, so the process ends with status 1 in a fourth situation. *)
Lemma parse_keys_other_failure :
  Config.parse_keys (Raise MissingSectionHeaderError) = ([], Raise MissingSectionHeaderError)
  ∧ exit_status (Config.parse_keys (Raise MissingSectionHeaderError)).2 = Some 1
  ∧ ¬ (keyfile_not_found (Raise MissingSectionHeaderError)
       ∨ duplicate_option (Raise MissingSectionHeaderError)
       ∨ ∃ name, missing_section (Raise MissingSectionHeaderError) name).
Proof.
  split; [reflexivity|]. split; [reflexivity|].
  intros [[keys H] | [[m H] | [name (f & fs & keys & H & _)]]]; discriminate H.
Qed.

(** ** library.py: [move_pos] *)


(** C9. On a listing that is not empty, [move_pos] with an integer as the
    defined position puts the cursor on exactly that row, whatever the
    integer (negative, or past the last entry), and clears the pending
    numeric prefix; nothing is reported. *)
Theorem move_pos_defined forward p l :
  Library.files l ≠ [] →
  Library.move_pos forward (Some p) l
  = Ok (Library.num_clear (Library.set_cursor p l))
  ∧ Library.cursor (Library.num_clear (Library.set_cursor p l)) = Some p
  ∧ Library.num_str (Library.num_clear (Library.set_cursor p l)) = ""
  ∧ Library.err_messages (Library.num_clear (Library.set_cursor p l))
    = Library.err_messages l.
Proof.
  intros Hfiles. unfold Library.move_pos.
  destruct (Library.files l); [done|]. repeat split.
Qed.

Lemma move_pos_defined_witness :
  Library.move_pos true (Some 99) (typed "4" sample_library)
  = Ok (Library.num_clear (Library.set_cursor 99 (typed "4" sample_library)))
  ∧ Library.cursor (Library.num_clear (Library.set_cursor 99 (typed "4" sample_library)))
    = Some 99
  ∧ Library.num_str (Library.num_clear (Library.set_cursor 99 (typed "4" sample_library)))
    = ""
  ∧ Library.err_messages
      (Library.num_clear (Library.set_cursor 99 (typed "4" sample_library)))
    = Library.err_messages (typed "4" sample_library).
Proof.
  apply (move_pos_defined true 99 (typed "4" sample_library)). discriminate.
Defined.


(** The examples of the specification: prefix 3 on five entries, prefix 99
    on five entries, no prefix forwards and backwards. *)
Example move_pos_examples :
  Library.cursor <$> Library.move_pos true None (typed "3" sample_library)
  = Ok (Some 2) :> res (option Z)
  ∧ Library.num_str <$> Library.move_pos true None (typed "3" sample_library) = Ok ""
  ∧ Library.cursor <$> Library.move_pos true None (typed "99" sample_library)
    = Ok (Some 1)
  ∧ Library.err_messages <$> Library.move_pos true None (typed "99" sample_library)
    = Ok ["Warning: Unsupported index"]
  ∧ Library.num_str <$> Library.move_pos true None (typed "99" sample_library) = Ok ""
  ∧ Library.cursor <$> Library.move_pos true None sample_library = Ok (Some 4)
  ∧ Library.cursor <$> Library.move_pos false None sample_library = Ok (Some 0).
Proof. repeat split; reflexivity. Qed.

(** ** library.py: [resize] *)

Lemma limit_width_bounds a w :
  (300 ≤ Library.winsize_width a)%Z →
  (100 ≤ Library.limit_width a w ≤ Library.winsize_width a - 200)%Z.
Proof.
  intros HW. unfold Library.limit_width.
  destruct (Z.ltb_spec (Library.winsize_width a - 200) w); [lia|].
  destruct (Z.ltb_spec w 100); lia.
Qed.

Lemma limit_width_inside a w :
  (100 ≤ w ≤ Library.winsize_width a - 200)%Z → Library.limit_width a w = w.
Proof.
  intros Hw. unfold Library.limit_width.
  destruct (Z.ltb_spec (Library.winsize_width a - 200) w); [lia|].
  destruct (Z.ltb_spec w 100); [lia | reflexivity].
Qed.

(** The width that [resize] asks for before the limits apply. *)
Lemma resize_numeric a inc require_val val n l :
  Library.truthy val = true →
  Library.int_of val = Ok n →
  Library.resize a inc require_val val l
  = Library.set_width
      (Library.limit_width a
         (if require_val then n
          else if inc then Library.width l + n else Library.width l - n)) l.
Proof.
  intros Ht Hn. unfold Library.resize. rewrite Ht. cbn [negb]. rewrite Hn.
  destruct require_val; reflexivity.
Qed.

(** C8, as the code has it. In a window at least 300 pixels wide, a [resize]
    with a number (or with no value, which stands for the default) leaves a
    width in [100, window_width - 200] and reports nothing. In a window of
    any width, text that is not a number is reported as an error and the
    library is left as it was. *)
Theorem resize_within_limits a inc require_val val l :
  ((300 ≤ Library.winsize_width a)%Z →
   (Library.truthy val = false ∨ ∃ n, Library.int_of val = Ok n) →
     (100 ≤ Library.width (Library.resize a inc require_val val l)
          ≤ Library.winsize_width a - 200)%Z
     ∧ Library.err_messages (Library.resize a inc require_val val l)
       = Library.err_messages l)
  ∧ (Library.truthy val = true → (∃ e, Library.int_of val = Raise e) →
     Library.resize a inc require_val val l
     = Library.err_message "Library width must be an integer" l
     ∧ Library.width (Library.resize a inc require_val val l) = Library.width l).
Proof.
  split.
  - intros HW Hval. unfold Library.resize.
    destruct (Library.truthy val) eqn:Ht; cbn [negb].
    + destruct Hval as [Hf | [n Hn]]; [discriminate|]. rewrite Hn.
      destruct require_val; (split; [apply limit_width_bounds, HW | reflexivity]).
    + destruct require_val; (split; [apply limit_width_bounds, HW | reflexivity]).
  - intros Ht [e He]. unfold Library.resize. rewrite Ht. cbn [negb]. rewrite He.
    destruct require_val; split; reflexivity.
Qed.

Lemma resize_within_limits_witness :
  ((100 ≤ Library.width
            (Library.resize (sample_app "/a" 800 sample_files) true true
               (Library.PStr "5000") sample_library)
        ≤ Library.winsize_width (sample_app "/a" 800 sample_files) - 200)%Z
   ∧ Library.err_messages
       (Library.resize (sample_app "/a" 800 sample_files) true true
          (Library.PStr "5000") sample_library)
     = Library.err_messages sample_library)
  ∧ (Library.resize (sample_app "/a" 250 sample_files) true true
       (Library.PStr "wide") sample_library
     = Library.err_message "Library width must be an integer" sample_library
     ∧ Library.width
         (Library.resize (sample_app "/a" 250 sample_files) true true
            (Library.PStr "wide") sample_library)
       = Library.width sample_library).
Proof.
  split.
  - apply (proj1 (resize_within_limits (sample_app "/a" 800 sample_files) true true
                    (Library.PStr "5000") sample_library)).
    + vm_compute. discriminate.
    + right. exists 5000%Z. reflexivity.
  - apply (proj2 (resize_within_limits (sample_app "/a" 250 sample_files) true true
                    (Library.PStr "wide") sample_library)).
    + reflexivity.
    + eexists. reflexivity.
Defined.

(** C8 as stated fails in a narrow window: with a window 250 pixels wide the
    interval [100, 50] is empty, and setting the width to 300 leaves 50. *)
Lemma resize_narrow_window :
  Library.width
    (Library.resize (sample_app "/a" 250 sample_files) true true (Library.PInt 300)
       sample_library) = 50
  ∧ Library.winsize_width (sample_app "/a" 250 sample_files) - 200 = 50
  ∧ ¬ (100 ≤ 50 ≤ Library.winsize_width (sample_app "/a" 250 sample_files) - 200)%Z.
Proof. repeat split. vm_compute. intros [H _]. apply H. reflexivity. Qed.

Example resize_examples :
  Library.width (Library.resize (sample_app "/a" 800 sample_files) true true
                   (Library.PStr "5000") sample_library) = 600
  ∧ Library.width (Library.resize (sample_app "/a" 800 sample_files) true true
                     (Library.PStr "50") sample_library) = 100
  ∧ Library.width (Library.resize (sample_app "/a" 800 sample_files) false false
                     (Library.PStr "30") sample_library) = 270
  ∧ Library.resize (sample_app "/a" 800 sample_files) true true
      (Library.PStr "wide") sample_library
    = Library.err_message "Library width must be an integer" sample_library.
Proof. repeat split; reflexivity. Qed.

(** C10. A value that counts as false ([None], 0, the empty string) stands
    for the default: with [require_val] the width is set to the configured
    default width, as if that width had been given, and not to 0; when
    growing or shrinking the step is 20, and not 0. The limits of the width
    then apply as for any value. *)
Theorem resize_falsy_value a inc val l :
  Library.truthy val = false →
  Library.resize a inc true val l
  = Library.resize a inc true (Library.PInt (Library.default_width l)) l
  ∧ Library.resize a inc true val l
    = Library.set_width (Library.limit_width a (Library.default_width l)) l
  ∧ ((100 ≤ Library.default_width l ≤ Library.winsize_width a - 200)%Z →
     Library.width (Library.resize a inc true val l) = Library.default_width l)
  ∧ Library.resize a inc false val l = Library.resize a inc false (Library.PInt 20) l
  ∧ Library.resize a inc false val l
    = Library.set_width
        (Library.limit_width a
           (if inc then Library.width l + 20 else Library.width l - 20)) l.
Proof.
  intros Hf.
  assert (E1 : Library.resize a inc true val l
               = Library.set_width (Library.limit_width a (Library.default_width l)) l).
  { unfold Library.resize. rewrite Hf. reflexivity. }
  assert (E2 : Library.resize a inc false val l
               = Library.set_width
                   (Library.limit_width a
                      (if inc then Library.width l + 20 else Library.width l - 20)) l).
  { unfold Library.resize. rewrite Hf. reflexivity. }
  repeat split.
  - rewrite E1. unfold Library.resize.
    destruct (Library.truthy (Library.PInt (Library.default_width l))); reflexivity.
  - exact E1.
  - intros Hin. rewrite E1. cbn [Library.set_width Library.width].
    by apply limit_width_inside.
  - rewrite E2. reflexivity.
  - exact E2.
Qed.

Lemma resize_falsy_value_witness :
  Library.width (Library.resize (sample_app "/a" 800 sample_files) true true
                   (Library.PInt 0) (Library.set_width 450 sample_library)) = 300
  ∧ Library.width (Library.resize (sample_app "/a" 800 sample_files) true false
                     (Library.PStr "") (Library.set_width 450 sample_library)) = 470
  ∧ Library.width (Library.resize (sample_app "/a" 800 sample_files) false false
                     Library.PNone (Library.set_width 450 sample_library)) = 430.
Proof.
  pose proof (resize_falsy_value (sample_app "/a" 800 sample_files) true
                (Library.PInt 0) (Library.set_width 450 sample_library) eq_refl)
    as (_ & _ & H & _).
  split; [apply H; vm_compute; split; discriminate|].
  split; reflexivity.
Defined.

(** ** library.py: [reload] *)

Lemma index_contains x l :
  Py.contains x l = true →
  ∃ i, Py.index x l = Some i ∧ (0 ≤ i)%Z ∧ l !! Z.to_nat i = Some x.
Proof.
  induction l as [|y l IH]; [discriminate|]. unfold Py.contains. cbn [existsb Py.index].
  destruct (String.eqb x y) eqn:E.
  - intros _. exists 0%Z. apply String.eqb_eq in E as ->. repeat split. lia.
  - cbn [orb]. intros H. destruct (IH H) as (i & -> & Hi & Hl).
    exists (Z.succ i). repeat split; [lia|].
    rewrite Z2Nat.inj_succ by assumption. exact Hl.
Qed.

(** The position logic of [reload] never fails, and moves the cursor only
    as its three cases say. *)
Lemma restore_position_spec directory last_directory l :
  ∃ l', restore_position directory last_directory l = Ok l'
    ∧ Library.files l' = Library.files l
    ∧ Library.dir_pos l' = Library.dir_pos l
    ∧ (Library.files l = [] → Library.cursor l' = Library.cursor l)
    ∧ (∀ pos, Library.dir_pos l !! directory = Some pos → Library.files l ≠ [] →
         Library.cursor l' = Some pos
         ∧ Library.err_messages l' = Library.err_messages l)
    ∧ (∀ pos, Library.dir_pos l !! directory = Some pos → Library.files l = [] →
         Library.err_messages l'
         = (Library.err_messages l ++ ["Warning: Directory is empty"])%list)
    ∧ (Library.dir_pos l !! directory = None →
       Py.contains (Py.basename last_directory) (Library.files l) = true →
       ∃ i, Py.index (Py.basename last_directory) (Library.files l) = Some i
            ∧ Library.files l !! Z.to_nat i = Some (Py.basename last_directory)
            ∧ Library.cursor l' = Some i
            ∧ Library.err_messages l' = Library.err_messages l)
    ∧ (Library.dir_pos l !! directory = None →
       Py.contains (Py.basename last_directory) (Library.files l) = false →
       l' = l).
Proof.
  unfold restore_position.
  destruct (Library.dir_pos l !! directory) as [pos|] eqn:Hpos.
  - unfold Library.move_pos. destruct (Library.files l) as [|f fs] eqn:Hf.
    + eexists. split; [reflexivity|]. cbn. rewrite Hf. repeat split; done.
    + eexists. split; [reflexivity|]. cbn. rewrite Hf. repeat split; try done.
      all: intros pos' [= <-] _; reflexivity.
  - destruct (Py.contains _ (Library.files l)) eqn:Hc.
    + destruct (index_contains _ _ Hc) as (i & Hi & Hi0 & Hl). rewrite Hi.
      unfold Library.move_pos. destruct (Library.files l) as [|f fs] eqn:Hf;
        [discriminate Hc|].
      eexists. split; [reflexivity|]. cbn. rewrite Hf. repeat split; try done.
      intros _ _. exists i. repeat split; assumption.
    + exists l. repeat split; try done.
Qed.

(** The three methods, one level of calls at a time. *)
Lemma reload_unfold n a directory last_directory search l :
  Library.reload (S n) a directory last_directory search l
  = (let* r := Library.liststore_create a
                 (if negb search then Library.set_search_positions [] l else l) in
     let* l := Library.focus n a true (Library.set_model r.1 r.2) in
     restore_position directory last_directory l).
Proof.
  cbn [Library.reload]. destruct (Library.liststore_create a _) as [[rows l2]|e]; reflexivity.
Qed.

Lemma focus_unfold n a l :
  Library.focus (S n) a true l
  = if negb (Library.grid_visible l)
    then Library.toggle n a true (Library.set_focused true l)
    else Ok (Library.set_focused true l).
Proof. reflexivity. Qed.

Lemma toggle_unfold n a update_image l :
  Library.grid_visible l = false →
  Library.toggle (S n) a update_image l
  = (let* l := Library.focus n a true
                 (remember_image a (Library.set_grid_visible true l)) in
     Library.reload n a (Library.cwd a) "" false l).
Proof. intros H. cbn [Library.toggle]. rewrite H. reflexivity. Qed.

(** The rows can be built whenever every listed file has a size. *)
Lemma make_rows_again a l l' i fs rows :
  Library.filesize l' = Library.filesize l →
  Library.make_rows a l i fs = Ok rows →
  ∃ rows', Library.make_rows a l' i fs = Ok rows'.
Proof.
  intros Hsize. revert i rows. induction fs as [|f fs IH]; intros i rows.
  - intros _. by exists [].
  - cbn [Library.make_rows]. unfold Library.make_row. rewrite Hsize.
    destruct (Library.filesize l !! f) as [size|]; [|discriminate]. cbn [bind].
    destruct (Library.make_rows a l (S i) fs) as [rs|] eqn:E; [|discriminate].
    destruct (IH _ _ E) as [rs' ->]. intros _. cbn [bind]. eauto.
Qed.

(** What [liststore_create] changes are the files and their sizes, and these
    depend on the library only through its two listing settings. *)
Lemma liststore_create_again a l l' rows l2 :
  Library.liststore_create a l = Ok (rows, l2) →
  Library.show_hidden l' = Library.show_hidden l →
  Library.file_check_amount l' = Library.file_check_amount l →
  l2 = Library.set_files (Library.files l2) (Library.set_filesize (Library.filesize l2) l)
  ∧ ∃ rows',
      Library.liststore_create a l'
      = Ok (rows', Library.set_files (Library.files l2)
                     (Library.set_filesize (Library.filesize l2) l')).
Proof.
  unfold Library.liststore_create, Library.filelist_create. intros H Hs Hc. rewrite Hs.
  destruct (Library.listdir a "." (Library.show_hidden l)) as [files0|e];
    [|discriminate]. cbn [bind] in *.
  match goal with
  | |- context [Library.set_filesize ?s l'] =>
      match type of H with
      | context [Library.set_filesize ?s0 l] =>
          assert (Es : s = s0)
            by (destruct l, l'; cbn in Hs, Hc; subst; reflexivity);
          rewrite Es; clear Es; set (sizes := s0) in *
      end
  end.
  set (fs := if negb _ then _ else files0) in *.
  destruct (Library.make_rows a (Library.set_files fs (Library.set_filesize sizes l)) 0 fs)
    as [rows0|e] eqn:E; [|discriminate].
  cbn [bind] in H. injection H as <- <-. split; [reflexivity|].
  destruct (make_rows_again a (Library.set_files fs (Library.set_filesize sizes l))
              (Library.set_files fs (Library.set_filesize sizes l'))
              0%nat fs rows0 eq_refl E) as [rows' ->].
  cbn [bind]. eauto.
Qed.

Lemma listing_inv a l fs :
  listing a l = Ok fs →
  ∃ sizes, ∀ l',
    Library.show_hidden l' = Library.show_hidden l →
    Library.file_check_amount l' = Library.file_check_amount l →
    ∃ rows',
      Library.liststore_create a l'
      = Ok (rows', Library.set_files fs (Library.set_filesize sizes l')).
Proof.
  unfold listing.
  destruct (Library.liststore_create a l) as [[rows l2]|e] eqn:E; [|discriminate].
  intros [= <-]. exists (Library.filesize l2). intros l' Hs Hc.
  destruct (liststore_create_again a l l' rows l2 E Hs Hc) as [_ H]. exact H.
Qed.

Lemma remember_image_cases a l :
  remember_image a l = l
  ∨ ∃ i, remember_image a l = Library.remember_pos (Library.cwd a) i l.
Proof.
  unfold remember_image. destruct (Library.image a) as [image|]; [|by left].
  destruct (_ && _); [|by left].
  destruct (Py.index _ _) as [i|]; [right; by exists i | by left].
Qed.

(** Reading a field through the setters. *)
Ltac fields :=
  cbn [Library.dir_pos Library.default_width Library.width Library.markup
       Library.show_hidden Library.file_check_amount Library.files
       Library.filesize Library.model Library.cursor Library.grid_visible
       Library.focused Library.num_str Library.err_messages
       Library.search_positions
       Library.set_dir_pos Library.set_width Library.set_show_hidden
       Library.set_files Library.set_filesize Library.set_model
       Library.set_cursor Library.set_grid_visible Library.set_focused
       Library.set_search_positions Library.remember_pos] in *.

(** The example of the specification: back in [/a/b] from [/a/b/c], with no
    position remembered for [/a/b], the cursor is on the row of [c]. A
    remembered position comes first. *)
Example reload_examples :
  Library.cursor <$>
    Library.reload 5 (sample_app "/a/b" 800 sample_files) "/a/b" "/a/b/c" false
      sample_library = Ok (Some 2)
  ∧ Library.cursor <$>
      Library.reload 5 (sample_app "/a/b" 800 sample_files) "/a/b" "/a/b/c" false
        (Library.remember_pos "/a/b" 4 sample_library) = Ok (Some 4)
  ∧ Library.cursor <$>
      Library.reload 5 (sample_app "/a/b" 800 sample_files) "/a/b" "/a/x" false
        sample_library = Ok None.
Proof. repeat split; vm_compute; reflexivity. Qed.


(** ** Further properties of [overwrite_section] *)

(** X1. A start directory that does not exist leaves the setting as it was
    and adds no warning. *)
Theorem missing_start_dir_ignored env key s m raw known old :
  s !! key = Some known →
  known !! "desktop_start_dir" = Some old →
  Config.isdir env (Config.expanduser env raw) = false →
  Config.overwrite_setting env key (s, m) ("desktop_start_dir", Config.Interpolated raw)
  = Ok (s, m).
Proof.
  intros Hkey Hold Hdir. unfold Config.overwrite_setting.
  rewrite Hkey, Hold.
  change (Config.parse_setting env "desktop_start_dir" raw)
    with (if negb (Config.isdir env (Config.expanduser env raw))
          then Config.Skip else Config.Store (Config.VStr (Config.expanduser env raw))).
  rewrite Hdir. reflexivity.
Qed.

Lemma missing_start_dir_ignored_witness :
  Config.overwrite_setting sample_env "LIBRARY" (Config.set_defaults sample_env, "")
    ("desktop_start_dir", Config.Interpolated "~/Pictures")
  = Ok (Config.set_defaults sample_env, "").
Proof.
  exact (missing_start_dir_ignored sample_env "LIBRARY" (Config.set_defaults sample_env)
           "" "~/Pictures" (list_to_map (Config.library_defaults sample_env))
           (Config.VStr "/home/user") eq_refl eq_refl eq_refl).
Defined.

(** X2. An integer setting whose text is not an integer keeps its value, and
    the fallback warning names the text, the setting and the value kept. *)
Theorem invalid_integer_falls_back env key s m setting raw known old :
  s !! key = Some known →
  known !! setting = Some old →
  Py.contains setting Config.integer_settings = true →
  Py.int raw = None →
  Config.overwrite_setting env key (s, m) (setting, Config.Interpolated raw)
  = Ok (s, m ++ "Invalid setting '" ++ raw ++ "' for '" ++ setting ++ "'." ++ nl
            ++ "Falling back to default '" ++ Config.str old ++ "'." ++ nl ++ nl).
Proof.
  intros Hkey Hold Hint Hraw. apply overwrite_setting_invalid with known; try assumption.
  unfold Config.parse_setting.
  destruct (String.eqb setting "geometry") eqn:E1;
    [apply String.eqb_eq in E1; subst; discriminate Hint|].
  destruct (Py.contains setting ["default_thumbsize"]) eqn:E2.
  { unfold Py.contains in E2. cbn [existsb] in E2. rewrite orb_false_r in E2.
    apply String.eqb_eq in E2. subst. discriminate Hint. }
  rewrite Hint, Hraw. reflexivity.
Qed.

Lemma invalid_integer_falls_back_witness :
  Config.overwrite_setting sample_env "LIBRARY" (Config.set_defaults sample_env, "")
    ("library_width", Config.Interpolated "wide")
  = Ok (Config.set_defaults sample_env,
        "" ++ "Invalid setting '" ++ "wide" ++ "' for '" ++ "library_width" ++ "'." ++ nl
           ++ "Falling back to default '" ++ Config.str (Config.VInt 300) ++ "'."
           ++ nl ++ nl).
Proof.
  exact (invalid_integer_falls_back sample_env "LIBRARY" (Config.set_defaults sample_env)
           "" "library_width" "wide" (list_to_map (Config.library_defaults sample_env))
           (Config.VInt 300) eq_refl eq_refl eq_refl eq_refl).
Defined.

(** X3. A markup string that does not open a span, or does not end with the
    closing bracket, is dropped without a warning. *)
Theorem invalid_markup_ignored env key s m raw known old :
  s !! key = Some known →
  known !! "markup" = Some old →
  Py.startswith "<span " raw = false ∨ Py.endswith ">" raw = false →
  Config.overwrite_setting env key (s, m) ("markup", Config.Interpolated raw) = Ok (s, m).
Proof.
  intros Hkey Hold Hbad. unfold Config.overwrite_setting.
  rewrite Hkey, Hold.
  change (Config.parse_setting env "markup" raw)
    with (if negb (Py.startswith "<span " raw) || negb (Py.endswith ">" raw)
          then Config.Skip else Config.Store (Config.VStr raw)).
  destruct Hbad as [-> | ->]; [reflexivity|].
  rewrite orb_true_r. reflexivity.
Qed.

Lemma invalid_markup_ignored_witness :
  Config.overwrite_setting sample_env "LIBRARY" (Config.set_defaults sample_env, "")
    ("markup", Config.Interpolated "<b>")
  = Ok (Config.set_defaults sample_env, "").
Proof.
  exact (invalid_markup_ignored sample_env "LIBRARY" (Config.set_defaults sample_env)
           "" "<b>" (list_to_map (Config.library_defaults sample_env))
           (Config.VStr ("<span foreground=" ++ dquote ++ "#875FFF" ++ dquote ++ ">"))
           eq_refl eq_refl (or_introl eq_refl)).
Defined.

(** The components of a thumbnail size that [ValueError] refuses. *)
Lemma parse_thumbsize_refused raw :
  (∃ x, Py.split "," (Py.rstrip ")" (Py.lstrip "(" raw)) !! 0%nat = Some x
        ∧ Py.int x = None)
  ∨ (∃ x, Py.split "," (Py.rstrip ")" (Py.lstrip "(" raw)) !! 1%nat = Some x
          ∧ Py.int x = None)
  ∨ (2 < length (Py.split "," (Py.rstrip ")" (Py.lstrip "(" raw))))%nat →
  Config.parse_thumbsize raw = Config.Fail ValueError.
Proof.
  unfold Config.parse_thumbsize.
  destruct (Py.split "," (Py.rstrip ")" (Py.lstrip "(" raw))) as [|x0 [|x1 rest]];
    cbn [lookup list_lookup length].
  - intros [(x & [=] & _) | [(x & [=] & _) | H]]. lia.
  - intros [(x & [= <-] & ->) | [(x & [=] & _) | H]]; [reflexivity | lia].
  - intros H. destruct (Py.int x0) as [a|] eqn:E0; [|reflexivity].
    destruct (Py.int x1) as [b|] eqn:E1; [|reflexivity].
    destruct H as [(x & [= <-] & H) | [(x & [= <-] & H) | H]]; [congruence..|].
    destruct rest; [cbn in H; lia | reflexivity].
Qed.

(** X4. A thumbnail size is split at the commas after its outer brackets
    are stripped. When the first or the second component is not an integer
    for [int], or when there are more than two components, the setting keeps
    its value and the fallback warning names the text, the setting and the
    value kept. *)
Theorem invalid_thumbsize_falls_back env key s m raw known old :
  s !! key = Some known →
  known !! "default_thumbsize" = Some old →
  (∃ x, Py.split "," (Py.rstrip ")" (Py.lstrip "(" raw)) !! 0%nat = Some x
        ∧ Py.int x = None)
  ∨ (∃ x, Py.split "," (Py.rstrip ")" (Py.lstrip "(" raw)) !! 1%nat = Some x
          ∧ Py.int x = None)
  ∨ (2 < length (Py.split "," (Py.rstrip ")" (Py.lstrip "(" raw))))%nat →
  Config.overwrite_setting env key (s, m)
    ("default_thumbsize", Config.Interpolated raw)
  = Ok (s, m ++ "Invalid setting '" ++ raw ++ "' for 'default_thumbsize'." ++ nl
            ++ "Falling back to default '" ++ Config.str old ++ "'." ++ nl ++ nl).
Proof.
  intros Hkey Hold Hraw.
  apply (overwrite_setting_invalid env key s m "default_thumbsize" raw known old Hkey Hold).
  by apply parse_thumbsize_refused.
Qed.

Lemma invalid_thumbsize_falls_back_witness :
  Config.overwrite_setting sample_env "GENERAL" (Config.set_defaults sample_env, "")
    ("default_thumbsize", Config.Interpolated "(1, 2, 3)")
  = Ok (Config.set_defaults sample_env,
        "" ++ "Invalid setting '" ++ "(1, 2, 3)" ++ "' for 'default_thumbsize'." ++ nl
           ++ "Falling back to default '" ++ Config.str (Config.VPair 128 128) ++ "'."
           ++ nl ++ nl).
Proof.
  apply (invalid_thumbsize_falls_back sample_env "GENERAL"
           (Config.set_defaults sample_env) "" "(1, 2, 3)"
           (list_to_map Config.general_defaults) (Config.VPair 128 128)
           eq_refl eq_refl).
  right. right. vm_compute. lia.
Defined.

(** A second component that starts with one of the separators 0x1c-0x1f is
    no integer for [int], although [str.strip] would remove the separator. *)
Example thumbsize_separator_refused :
  Config.overwrite_setting sample_env "GENERAL" (Config.set_defaults sample_env, "")
    ("default_thumbsize", Config.Interpolated ("1," ++ String (ascii_of_nat 28) "2"))
  = Ok (Config.set_defaults sample_env,
        "Invalid setting '1," ++ String (ascii_of_nat 28) "2"
        ++ "' for 'default_thumbsize'." ++ nl
        ++ "Falling back to default '(128, 128)'." ++ nl ++ nl).
Proof. vm_compute. reflexivity. Qed.

(** ** configparser.py: what [overwrite_section] keeps *)

(** An iteration either changes nothing in the settings or stores a parsed
    value under a setting that was there. *)
Lemma overwrite_setting_inv env key s m setting read s' m' :
  Config.overwrite_setting env key (s, m) (setting, read) = Ok (s', m') →
  s' = s
  ∨ ∃ known old raw v,
      s !! key = Some known ∧ known !! setting = Some old
      ∧ read = Config.Interpolated raw
      ∧ Config.parse_setting env setting raw = Config.Store v
      ∧ s' = <[key := <[setting := v]> known]> s.
Proof.
  unfold Config.overwrite_setting.
  destruct (s !! key) as [known|] eqn:Hkey; [|discriminate].
  destruct (known !! setting) as [old|] eqn:Hold; [|intros [= <- _]; by left].
  destruct read as [raw|e]; [|discriminate].
  destruct (Config.parse_setting env setting raw) as [v| |[]] eqn:Hp;
    try discriminate; intros [= <- _]; [right | by left | by left].
  exists known, old, raw, v. done.
Qed.

(** A property of the stored values that every parsed value has is kept by
    the whole loop. *)
Lemma overwrite_section_invariant env key config s s' m
    (P : string → Config.value → Prop) :
  (∀ setting raw v, Config.parse_setting env setting raw = Config.Store v → P setting v) →
  Config.overwrite_section env key config s = Ok (s', m) →
  (∀ setting v, stored s key setting = Some v → P setting v) →
  ∀ setting v, stored s' key setting = Some v → P setting v.
Proof.
  intros HP. unfold Config.overwrite_section.
  destruct (config !! key) as [section|]; [|discriminate].
  generalize "". revert s. induction section as [|[setting read] section IH]; intros s m0.
  - intros [= <- _]. done.
  - rewrite for_each_cons.
    destruct (Config.overwrite_setting env key (s, m0) (setting, read))
      as [[s1 m1]|e] eqn:E; [|discriminate].
    cbn [bind]. intros Hrest Hs. apply (IH s1 m1 Hrest).
    destruct (overwrite_setting_inv _ _ _ _ _ _ _ _ E)
      as [-> | (known & old & raw & v & Hkey & Hold & -> & Hp & ->)]; [exact Hs|].
    intros setting' v'. unfold stored. rewrite lookup_insert_eq. cbn.
    destruct (decide (setting = setting')) as [<-|Hne].
    + rewrite lookup_insert_eq. intros [= <-]. by apply (HP setting raw).
    + rewrite lookup_insert_ne by assumption. intros Hv. apply Hs.
      unfold stored. rewrite Hkey. exact Hv.
Qed.

Lemma parse_setting_has_type env setting raw v :
  Config.parse_setting env setting raw = Config.Store v → has_type setting v.
Proof.
  unfold has_type, kind_of, Config.parse_setting.
  destruct (String.eqb setting "geometry"); [intros [= <-]; exact I|].
  destruct (Py.contains setting ["default_thumbsize"]).
  { destruct (parse_thumbsize_cases raw) as [(a & b & ->) | [-> | [-> _]]];
      [intros [= <-]; exact I | discriminate..]. }
  destruct (Py.contains setting Config.integer_settings).
  { destruct (Py.int raw); [intros [= <-]; exact I | discriminate]. }
  destruct (String.eqb setting "desktop_start_dir").
  { destruct (negb _); [discriminate | intros [= <-]; exact I]. }
  destruct (String.eqb setting "markup").
  { destruct (Py.startswith "<span " raw) eqn:E1, (Py.endswith ">" raw) eqn:E2;
      try discriminate. intros [= <-]. by rewrite E1, E2. }
  unfold Config.getboolean. destruct (Config.BOOLEAN_STATES _);
    [intros [= <-]; exact I | discriminate].
Qed.

Lemma parse_setting_acceptable env setting raw v :
  Config.parse_setting env setting raw = Config.Store v → acceptable env setting v.
Proof.
  intros H. split; [by apply parse_setting_has_type with env raw|].
  revert H. unfold kind_of, Config.parse_setting.
  destruct (String.eqb setting "geometry"); [discriminate|].
  destruct (Py.contains setting ["default_thumbsize"]); [discriminate|].
  destruct (Py.contains setting Config.integer_settings); [discriminate|].
  destruct (String.eqb setting "desktop_start_dir").
  { destruct (Config.isdir env (Config.expanduser env raw)) eqn:Hd;
      [|discriminate]. intros [= <-] _. eauto. }
  destruct (String.eqb setting "markup"); discriminate.
Qed.

(** X5. Whatever the file says, the values that [overwrite_section] leaves in
    the section are of the type of their setting, with a valid markup string
    and an existing start directory, when those it found there were. *)
Theorem overwrite_section_keeps_types env key config s s' m :
  Config.overwrite_section env key config s = Ok (s', m) →
  (∀ setting v, stored s key setting = Some v → acceptable env setting v) →
  ∀ setting v, stored s' key setting = Some v → acceptable env setting v.
Proof.
  intros Hrun. apply (overwrite_section_invariant env key config s s' m); [|exact Hrun].
  apply parse_setting_acceptable.
Qed.

(** The type of a setting that is named. *)
Ltac eval_kind :=
  repeat match goal with
         | |- context [kind_of ?s] =>
             let k := eval vm_compute in (kind_of s) in change (kind_of s) with k
         end.

Lemma defaults_acceptable env key setting v :
  Config.isdir env (Config.expanduser env "~") = true →
  key = "GENERAL" ∨ key = "LIBRARY" →
  stored (Config.set_defaults env) key setting = Some v →
  acceptable env setting v.
Proof.
  intros Hdir [-> | ->]; unfold stored, Config.set_defaults;
    [rewrite lookup_insert_eq | rewrite lookup_insert_ne, lookup_insert_eq by discriminate];
    cbn [mbind option_bind]; intros Hv;
    apply elem_of_list_to_map_2 in Hv;
    repeat (apply elem_of_cons in Hv as [[= -> ->] | Hv]);
    try (by apply elem_of_nil in Hv);
    unfold acceptable, has_type; eval_kind;
    try (split; [exact I | discriminate]).
  - split; [split; reflexivity | discriminate].
  - split; [exact I|]. intros _. eauto.
Qed.

Lemma overwrite_section_keeps_types_witness :
  acceptable sample_env "desktop_start_dir" (Config.VStr "/home/user")
  ∧ acceptable sample_env "markup" (Config.VStr "<span weight='bold'>")
  ∧ acceptable sample_env "show_hidden" (Config.VBool false).
Proof.
  pose proof (overwrite_section_keeps_types sample_env "LIBRARY"
           (<["LIBRARY" := readable [("desktop_start_dir", "~/"); ("show_hidden", "maybe");
                                     ("markup", "<span weight='bold'>")]]> ∅)
           (Config.set_defaults sample_env)
           (<["LIBRARY" := <["markup" := Config.VStr "<span weight='bold'>"]>
                             (<["desktop_start_dir" := Config.VStr "/home/user"]>
                                (list_to_map (Config.library_defaults sample_env)))]>
              (Config.set_defaults sample_env))
           ("Invalid setting 'maybe' for 'show_hidden'." ++ nl
            ++ "Falling back to default 'False'." ++ nl ++ nl)
           eq_refl
           (λ setting v, defaults_acceptable sample_env "LIBRARY" setting v eq_refl
                           (or_intror eq_refl))) as H.
  split; [|split]; apply H; reflexivity.
Defined.

(** *** Names and other sections *)

Lemma overwrite_setting_frame env key s m item s' m' :
  Config.overwrite_setting env key (s, m) item = Ok (s', m') →
  (∀ other, other ≠ key → s' !! other = s !! other)
  ∧ (∀ setting, is_Some (stored s' key setting) ↔ is_Some (stored s key setting)).
Proof.
  destruct item as [setting read]. intros E.
  destruct (overwrite_setting_inv _ _ _ _ _ _ _ _ E)
    as [-> | (known & old & raw & v & Hkey & Hold & -> & Hp & ->)]; [done|].
  split.
  - intros other Hne. by rewrite lookup_insert_ne.
  - intros setting'. unfold stored. rewrite lookup_insert_eq, Hkey. cbn.
    destruct (decide (setting = setting')) as [<-|Hne].
    + rewrite lookup_insert_eq, Hold. split; eauto.
    + by rewrite lookup_insert_ne.
Qed.

(** X6. [overwrite_section] changes values only: every other section is left
    as it is, and the section itself has the same setting names afterwards,
    no unknown name of the file added and none removed. *)
Theorem overwrite_section_keeps_names env key config s s' m :
  Config.overwrite_section env key config s = Ok (s', m) →
  (∀ other, other ≠ key → s' !! other = s !! other)
  ∧ (∀ setting, is_Some (stored s' key setting) ↔ is_Some (stored s key setting)).
Proof.
  unfold Config.overwrite_section.
  destruct (config !! key) as [section|]; [|discriminate].
  generalize "". revert s. induction section as [|item section IH]; intros s m0.
  - intros [= <- _]. done.
  - rewrite for_each_cons.
    destruct (Config.overwrite_setting env key (s, m0) item) as [[s1 m1]|e] eqn:E;
      [|discriminate].
    cbn [bind]. intros Hrest.
    destruct (IH s1 m1 Hrest) as [Hother Hnames].
    destruct (overwrite_setting_frame _ _ _ _ _ _ _ E) as [Hother1 Hnames1].
    split.
    + intros other Hne. by rewrite Hother, Hother1.
    + intros setting. by rewrite Hnames, Hnames1.
Qed.

Lemma overwrite_section_keeps_names_witness :
  (∀ other, other ≠ "GENERAL" →
     (<["GENERAL" := <["shuffle" := Config.VBool true]>
                       (list_to_map Config.general_defaults)]>
        (Config.set_defaults sample_env)) !! other
     = Config.set_defaults sample_env !! other)
  ∧ (∀ setting,
       is_Some (stored (<["GENERAL" := <["shuffle" := Config.VBool true]>
                                         (list_to_map Config.general_defaults)]>
                          (Config.set_defaults sample_env)) "GENERAL" setting)
       ↔ is_Some (stored (Config.set_defaults sample_env) "GENERAL" setting)).
Proof.
  exact (overwrite_section_keeps_names sample_env "GENERAL"
           (<["GENERAL" := readable [("shuffle", "yes"); ("colour", "red")]]> ∅)
           (Config.set_defaults sample_env)
           (<["GENERAL" := <["shuffle" := Config.VBool true]>
                             (list_to_map Config.general_defaults)]>
              (Config.set_defaults sample_env))
           "Ignoring unknown setting colour." eq_refl).
Defined.

(** ** configparser.py: [add_aliases] *)

Lemma last_alias_from items alias acc :
  foldl (λ acc item,
           match item with
           | (name, Config.Interpolated value) =>
               if String.eqb name alias then Some value else acc
           | (_, Config.InterpolationFails _) => acc
           end) acc items
  = match last_alias items alias with
    | Some c => Some c
    | None => acc
    end.
Proof.
  unfold last_alias. revert acc.
  induction items as [|[name [value|e]] items IH]; intros acc; [reflexivity|..];
    cbn [foldl].
  - rewrite (IH (if String.eqb name alias then Some value else acc)).
    rewrite (IH (if String.eqb name alias then Some value else None)).
    destruct (foldl _ None items); [reflexivity|].
    destruct (String.eqb name alias); reflexivity.
  - apply IH.
Qed.

Lemma add_aliases_from items settings m old :
  settings !! "ALIASES" = Some old →
  ∃ new,
    for_each Startup.add_alias items (settings, m)
    = Ok (<["ALIASES" := new]> settings, m ++ alias_failures items)
    ∧ ∀ alias, new !! alias = match last_alias items alias with
                              | Some c => Some (Config.VStr c)
                              | None => old !! alias
                              end.
Proof.
  revert settings m old.
  induction items as [|[name [value|e]] items IH]; intros settings m old Hold.
  - exists old. cbn. rewrite append_nil_r, insert_id by assumption. done.
  - rewrite for_each_cons. cbn [Startup.add_alias]. rewrite Hold. cbn [bind].
    destruct (IH (<["ALIASES" := <[name := Config.VStr value]> old]> settings) m
                (<[name := Config.VStr value]> old)) as (new & -> & Hnew);
      [apply lookup_insert_eq|].
    exists new. rewrite insert_insert_eq. split; [reflexivity|].
    intros alias. rewrite Hnew. unfold last_alias at 2. cbn [foldl].
    rewrite last_alias_from. destruct (last_alias items alias); [reflexivity|].
    destruct (String.eqb name alias) eqn:E.
    + apply String.eqb_eq in E as ->. apply lookup_insert_eq.
    + apply String.eqb_neq in E. by rewrite lookup_insert_ne.
  - rewrite for_each_cons. cbn [Startup.add_alias bind].
    destruct (IH settings (m ++ Startup.alias_failure name e) old Hold)
      as (new & -> & Hnew).
    exists new. cbn [alias_failures]. rewrite append_assoc. split; [reflexivity|].
    intros alias. rewrite Hnew. reflexivity.
Qed.

(** X7. [add_aliases] touches the ALIASES section only. Every alias of the
    file that can be read is stored with its command, the last definition
    winning; an alias that cannot be read costs one message that names it and
    discards nothing else; the aliases that were there and that the file does
    not define stay. *)
Theorem add_aliases_stores section settings old :
  settings !! "ALIASES" = Some old →
  ∃ new,
    Startup.add_aliases section settings
    = Ok (<["ALIASES" := new]> settings, alias_failures (default [] section))
    ∧ ∀ alias, new !! alias = match last_alias (default [] section) alias with
                              | Some c => Some (Config.VStr c)
                              | None => old !! alias
                              end.
Proof.
  intros Hold. unfold Startup.add_aliases.
  destruct (add_aliases_from (default [] section) settings "" old Hold)
    as (new & E & Hnew).
  exists new. split; [|exact Hnew]. rewrite E, append_nil_l. reflexivity.
Qed.

Lemma add_aliases_stores_witness :
  ∃ new,
    Startup.add_aliases (Startup.section sample_config "ALIASES")
      (Config.set_defaults sample_env)
    = Ok (<["ALIASES" := new]> (Config.set_defaults sample_env),
          alias_failures (default [] (Startup.section sample_config "ALIASES")))
    ∧ ∀ alias, new !! alias
               = match last_alias (default [] (Startup.section sample_config "ALIASES")) alias with
                 | Some c => Some (Config.VStr c)
                 | None => (∅ : gmap string Config.value) !! alias
                 end.
Proof.
  exact (add_aliases_stores (Startup.section sample_config "ALIASES")
           (Config.set_defaults sample_env) ∅ eq_refl).
Defined.

Example add_aliases_example :
  (λ r, (stored r.1 "ALIASES" "e", stored r.1 "ALIASES" "bad", r.2))
    <$> Startup.add_aliases (Startup.section sample_config "ALIASES")
          (Config.set_defaults sample_env)
  = Ok (Some (Config.VStr "!gimp %"), None,
        "Parsing alias 'bad' failed." ++ nl
        ++ "If you meant to use % for current file, use %%." ++ nl
        ++ "bad interpolation" ++ nl).
Proof. vm_compute. reflexivity. Qed.

(** ** configparser.py: [parse_config] *)

Lemma parse_config_unfold env user_config_dir read commandline_config running_tests :
  Startup.parse_config env user_config_dir read commandline_config running_tests
  = match overlay_all env
            (read (Startup.configfiles env user_config_dir commandline_config
                     running_tests)).1
            (read (Startup.configfiles env user_config_dir commandline_config
                     running_tests)).2 with
    | Raise e => ([], Raise e)
    | Ok (settings, message) =>
        (if negb (String.eqb message "") then [Config.ErrorMessage message] else [],
         Ok settings)
    end.
Proof.
  unfold Startup.parse_config.
  destruct (read _) as [config raised]. reflexivity.
Qed.

(** A relation between settings that holds across every store holds across
    [overwrite_section]. *)
Lemma overwrite_section_steps env key config s s' m
    (R : gmap string (gmap string Config.value) →
         gmap string (gmap string Config.value) → Prop) :
  (∀ s, R s s) →
  (∀ a b c, R a b → R b c → R a c) →
  (∀ s known old setting v raw,
     s !! key = Some known → known !! setting = Some old →
     Config.parse_setting env setting raw = Config.Store v →
     R s (<[key := <[setting := v]> known]> s)) →
  Config.overwrite_section env key config s = Ok (s', m) →
  R s s'.
Proof.
  intros Hrefl Htrans Hstep. unfold Config.overwrite_section.
  destruct (config !! key) as [section|]; [|discriminate].
  generalize "". revert s. induction section as [|[setting read] section IH]; intros s m0.
  - intros [= <- _]. apply Hrefl.
  - rewrite for_each_cons.
    destruct (Config.overwrite_setting env key (s, m0) (setting, read))
      as [[s1 m1]|e] eqn:E; [|discriminate].
    cbn [bind]. intros Hrest. apply Htrans with s1; [|by apply (IH s1 m1)].
    destruct (overwrite_setting_inv _ _ _ _ _ _ _ _ E)
      as [-> | (known & old & raw & v & Hkey & Hold & -> & Hp & ->)]; [apply Hrefl|].
    by apply Hstep with old raw.
Qed.

Lemma overlay_steps env config keys acc s' m'
    (R : gmap string (gmap string Config.value) →
         gmap string (gmap string Config.value) → Prop) :
  (∀ s, R s s) →
  (∀ a b c, R a b → R b c → R a c) →
  (∀ key s known old setting v raw,
     s !! key = Some known → known !! setting = Some old →
     Config.parse_setting env setting raw = Config.Store v →
     R s (<[key := <[setting := v]> known]> s)) →
  for_each (overlay env config) keys acc = Ok (s', m') →
  R acc.1 s'.
Proof.
  intros Hrefl Htrans Hstep. revert acc.
  induction keys as [|key keys IH]; intros [s m].
  - intros [= <- _]. apply Hrefl.
  - rewrite for_each_cons. unfold overlay at 1. cbn [fst snd].
    destruct (Config.overwrite_section env key config s) as [[s1 m1]|e] eqn:E;
      [|discriminate].
    cbn [bind]. intros Hrest. apply Htrans with s1.
    + apply (overwrite_section_steps env key config s s1 m1 R); auto.
      intros. by apply Hstep with old raw.
    + apply (IH (s1, m ++ m1) Hrest).
Qed.

(** The relation that [parse_config] keeps with the defaults: outside the
    aliases, the same names, and values that are of the type of their setting
    or have not changed. *)
Lemma overlay_all_keeps env config raised settings message key setting :
  overlay_all env config raised = Ok (settings, message) →
  key ≠ "ALIASES" →
  (is_Some (stored settings key setting)
   ↔ is_Some (stored (Config.set_defaults env) key setting))
  ∧ ∀ v, stored settings key setting = Some v →
         has_type setting v ∨ stored (Config.set_defaults env) key setting = Some v.
Proof.
  intros Hrun Hkey. unfold overlay_all in Hrun.
  destruct (match raised with None => _ | Some _ => _ end) as [m0|]; [|discriminate].
  cbn [bind] in Hrun.
  destruct (for_each _ _ _) as [[s1 m1]|] eqn:Eloop; [|discriminate].
  cbn [bind] in Hrun.
  destruct (Startup.add_aliases _ s1) as [[s2 m2]|] eqn:Ealias; [|discriminate].
  injection Hrun as <- _.
  set (R := λ s s' : gmap string (gmap string Config.value),
         ∀ key setting, key ≠ "ALIASES" →
           (is_Some (stored s' key setting) ↔ is_Some (stored s key setting))
           ∧ ∀ v, stored s' key setting = Some v →
                  has_type setting v ∨ stored s key setting = Some v).
  assert (Hrefl : ∀ s, R s s) by (intros s k st _; split; [done | by right]).
  assert (Htrans : ∀ a b c, R a b → R b c → R a c).
  { intros a b c Hab Hbc k st Hk.
    destruct (Hab k st Hk) as [H1 H2], (Hbc k st Hk) as [H3 H4].
    split; [by rewrite H3|]. intros v Hv.
    destruct (H4 v Hv) as [|Hb]; [by left | by apply H2]. }
  assert (Hloop : R (Config.set_defaults env) s1).
  { apply (overlay_steps env (list_to_map config) (overlaid config)
             (Config.set_defaults env, m0) s1 m1 R Hrefl Htrans);
      [|exact Eloop].
    intros key0 s known old setting0 v raw Hk0 Hold Hp k st _. unfold stored.
    destruct (decide (key0 = k)) as [<-|Hne];
      [|rewrite lookup_insert_ne by assumption; split; [done | by right]].
    rewrite lookup_insert_eq, Hk0. cbn.
    destruct (decide (setting0 = st)) as [<-|Hne];
      [|rewrite lookup_insert_ne by assumption; split; [done | by right]].
    rewrite lookup_insert_eq, Hold. split; [split; eauto|].
    intros v' [= <-]. left. by apply parse_setting_has_type with env raw. }
  assert (Halias : R s1 s2).
  { intros k st Hk. unfold Startup.add_aliases in Ealias.
    assert (s2 !! k = s1 !! k) as Hsame.
    { clear Hloop Eloop. revert Ealias.
      generalize (default [] (Startup.section config "ALIASES")). intros items.
      generalize "".
      revert s1. induction items as [|[name [value|e]] items IH]; intros s1 m.
      - by intros [= <- _].
      - rewrite for_each_cons. cbn [Startup.add_alias].
        destruct (s1 !! "ALIASES") as [al|]; [|discriminate]. cbn [bind].
        intros H. rewrite (IH _ _ H). by rewrite lookup_insert_ne.
      - rewrite for_each_cons. cbn [Startup.add_alias bind]. apply IH. }
    unfold stored. rewrite Hsame. split; [done | by right]. }
  exact (Htrans _ _ _ Hloop Halias key setting Hkey).
Qed.

Lemma defaults_has_type env key setting v :
  key ≠ "ALIASES" →
  stored (Config.set_defaults env) key setting = Some v → has_type setting v.
Proof.
  intros Hkey. unfold stored, Config.set_defaults.
  destruct (decide (key = "GENERAL")) as [->|Hg];
    [rewrite lookup_insert_eq
    |rewrite lookup_insert_ne by done;
     destruct (decide (key = "LIBRARY")) as [->|Hl];
       [rewrite lookup_insert_eq
       |rewrite !lookup_insert_ne, lookup_empty by done; discriminate]];
    cbn [mbind option_bind]; intros Hv;
    apply elem_of_list_to_map_2 in Hv;
    repeat (apply elem_of_cons in Hv as [[= -> ->] | Hv]);
    try (by apply elem_of_nil in Hv);
    unfold has_type; eval_kind; try exact I.
  split; reflexivity.
Qed.

(** X8. Whatever the configuration files hold, the settings that
    [parse_config] returns have, in GENERAL and in LIBRARY, exactly the
    setting names of the defaults, each with a value of the type of the
    setting. *)
Theorem parse_config_well_formed env user_config_dir read commandline_config
    running_tests out settings key setting :
  Startup.parse_config env user_config_dir read commandline_config running_tests
  = (out, Ok settings) →
  key = "GENERAL" ∨ key = "LIBRARY" →
  (is_Some (stored settings key setting)
   ↔ is_Some (stored (Config.set_defaults env) key setting))
  ∧ ∀ v, stored settings key setting = Some v → has_type setting v.
Proof.
  rewrite parse_config_unfold. intros Hrun Hkey.
  destruct (overlay_all env _ _) as [[s m]|e] eqn:E; [|discriminate].
  injection Hrun as _ <-.
  assert (Hne : key ≠ "ALIASES") by (destruct Hkey as [-> | ->]; discriminate).
  destruct (overlay_all_keeps env _ _ s m key setting E Hne) as [Hnames Htypes].
  split; [exact Hnames|]. intros v Hv.
  destruct (Htypes v Hv) as [|Hd]; [assumption|].
  by apply defaults_has_type with env key.
Qed.

Lemma returned_pair (r : list Config.event * res (gmap string (gmap string Config.value))) :
  (∀ e, r.2 ≠ Raise e) → r = (r.1, Ok (returned_settings r)).
Proof.
  destruct r as [out [s|e]]; [reflexivity|]. intros H. by destruct (H e).
Qed.

Lemma returns_not_raise {A} (r : res A) : returns r = true → ∀ e, r ≠ Raise e.
Proof. destruct r; [discriminate | discriminate]. Qed.

Lemma parse_config_well_formed_witness :
  (is_Some (stored (returned_settings sample_start) "LIBRARY" "library_width")
   ↔ is_Some (stored (Config.set_defaults sample_env) "LIBRARY" "library_width"))
  ∧ ∀ v, stored (returned_settings sample_start) "LIBRARY" "library_width" = Some v →
         has_type "library_width" v.
Proof.
  apply (parse_config_well_formed sample_env "/home/user/.config"
           (λ _, (sample_config, None)) None false sample_start.1
           (returned_settings sample_start) "LIBRARY" "library_width").
  - apply returned_pair, returns_not_raise. vm_compute. reflexivity.
  - right. reflexivity.
Defined.

Example parse_config_example :
  stored (returned_settings sample_start) "LIBRARY" "library_width"
  = Some (Config.VInt 400)
  ∧ stored (returned_settings sample_start) "GENERAL" "shuffle" = Some (Config.VBool true)
  ∧ stored (returned_settings sample_start) "GENERAL" "thumb_padding"
    = Some (Config.VInt 10)
  ∧ stored (returned_settings sample_start) "GENERAL" "colour" = None
  ∧ stored (returned_settings sample_start) "ALIASES" "e" = Some (Config.VStr "!gimp %")
  ∧ sample_start.1
    = [Config.ErrorMessage
         ("Ignoring unknown setting colour."
          ++ "Invalid setting 'x' for 'thumb_padding'." ++ nl
          ++ "Falling back to default '10'." ++ nl ++ nl
          ++ "Parsing alias 'bad' failed." ++ nl
          ++ "If you meant to use % for current file, use %%." ++ nl
          ++ "bad interpolation" ++ nl)].
Proof. repeat split; vm_compute; reflexivity. Qed.

(** *** Sections that are not settings *)





(** *** When [parse_config] returns *)








(** A value of a known setting that cannot be read stops [parse_config]:
    the [InterpolationError] is no [ValueError]. *)
Example parse_config_unreadable :
  (Startup.parse_config sample_env "/home/user/.config"
     (λ _, ([("DEFAULT", []);
             ("GENERAL", [("geometry", Config.InterpolationFails "bad interpolation")])],
            None)) None false).2
  = Raise InterpolationError.
Proof. vm_compute. reflexivity. Qed.

(** ** configparser.py: [parse_dirs] *)

Section ParseDirs.

Context {F : Type} (os : Startup.os_fs F).

(** What is asked of [os.mkdir]: the directory it made exists afterwards, and
    so does every directory that existed before. *)
Hypothesis mkdir_makes :
  ∀ fs p fs', Startup.fs_mkdir os fs p = Some fs' → Startup.fs_isdir os fs' p = true.
Hypothesis mkdir_keeps :
  ∀ fs p fs' q, Startup.fs_mkdir os fs p = Some fs' →
                Startup.fs_isdir os fs q = true → Startup.fs_isdir os fs' q = true.

Let ensure (acc : option F) (directory : string) : option F :=
  fs ← acc;
  if negb (Startup.fs_isdir os fs directory) then Startup.fs_mkdir os fs directory
  else Some fs.

Lemma ensure_none dirs : foldl ensure None dirs = None.
Proof. induction dirs as [|d dirs IH]; [reflexivity | exact IH]. Qed.

Lemma ensure_all dirs fs fs' :
  foldl ensure (Some fs) dirs = Some fs' →
  (∀ d, d ∈ dirs → Startup.fs_isdir os fs' d = true)
  ∧ (∀ q, Startup.fs_isdir os fs q = true → Startup.fs_isdir os fs' q = true).
Proof.
  revert fs. induction dirs as [|d dirs IH]; intros fs.
  - intros [= <-]. split; [intros d Hd; by apply elem_of_nil in Hd | done].
  - cbn [foldl]. unfold ensure at 2. cbn [mbind option_bind].
    destruct (Startup.fs_isdir os fs d) eqn:Hd; cbn [negb].
    + intros H. destruct (IH fs H) as [Hall Hkeep]. split; [|exact Hkeep].
      intros d' [-> | Hin]%elem_of_cons; [by apply Hkeep | by apply Hall].
    + destruct (Startup.fs_mkdir os fs d) as [fs1|] eqn:Hmk;
        [|by rewrite ensure_none].
      intros H. destruct (IH fs1 H) as [Hall Hkeep]. split.
      * intros d' [-> | Hin]%elem_of_cons; [|by apply Hall].
        apply Hkeep. by apply mkdir_makes with fs.
      * intros q Hq. apply Hkeep. by apply mkdir_keeps with fs d.
Qed.

Lemma ensure_nothing dirs fs :
  (∀ d, d ∈ dirs → Startup.fs_isdir os fs d = true) →
  foldl ensure (Some fs) dirs = Some fs.
Proof.
  induction dirs as [|d dirs IH]; [reflexivity|]. intros Hall.
  cbn [foldl]. unfold ensure at 2. cbn [mbind option_bind].
  rewrite Hall by (apply elem_of_cons; by left). cbn [negb].
  apply IH. intros d' Hd'. apply Hall, elem_of_cons. by right.
Qed.

(** X11. When [parse_dirs] returns, the base directory and its [Tags],
    [Thumbnails] and [Trash] directories all exist, every directory that
    existed before still does, and a second call finds them and makes
    nothing. *)
Theorem parse_dirs_creates env basedir fs fs' :
  Startup.parse_dirs os env basedir fs = Some fs' →
  (∀ d, d ∈ [Config.expanduser env basedir;
             Py.join (Config.expanduser env basedir) "Tags";
             Py.join (Config.expanduser env basedir) "Thumbnails";
             Py.join (Config.expanduser env basedir) "Trash"] →
        Startup.fs_isdir os fs' d = true)
  ∧ (∀ q, Startup.fs_isdir os fs q = true → Startup.fs_isdir os fs' q = true)
  ∧ Startup.parse_dirs os env basedir fs' = Some fs'.
Proof.
  unfold Startup.parse_dirs. intros H.
  destruct (ensure_all _ fs fs' H) as [Hall Hkeep].
  split; [exact Hall|]. split; [exact Hkeep|]. by apply ensure_nothing.
Qed.

End ParseDirs.

Lemma set_fs_mkdir_makes (fs : gset string) p fs' :
  Startup.fs_mkdir set_fs fs p = Some fs' → Startup.fs_isdir set_fs fs' p = true.
Proof.
  cbn. case_bool_decide; [discriminate|]. intros [= <-].
  apply bool_decide_eq_true. set_solver.
Qed.

Lemma set_fs_mkdir_keeps (fs : gset string) p fs' q :
  Startup.fs_mkdir set_fs fs p = Some fs' →
  Startup.fs_isdir set_fs fs q = true → Startup.fs_isdir set_fs fs' q = true.
Proof.
  cbn. case_bool_decide; [discriminate|]. intros [= <-].
  rewrite !bool_decide_eq_true. set_solver.
Qed.

Lemma some_default {A} (x : option A) (d : A) : is_Some x → x = Some (default d x).
Proof. by intros [a ->]. Qed.

Lemma parse_dirs_creates_witness :
  (∀ d, d ∈ [Config.expanduser sample_env "~/.vimiv";
             Py.join (Config.expanduser sample_env "~/.vimiv") "Tags";
             Py.join (Config.expanduser sample_env "~/.vimiv") "Thumbnails";
             Py.join (Config.expanduser sample_env "~/.vimiv") "Trash"] →
        Startup.fs_isdir set_fs
          (default ∅ (Startup.parse_dirs set_fs sample_env "~/.vimiv"
                        {["/home/user"; "/home/user/.vimiv"]})) d = true)
  ∧ (∀ q, Startup.fs_isdir set_fs {["/home/user"; "/home/user/.vimiv"]} q = true →
          Startup.fs_isdir set_fs
            (default ∅ (Startup.parse_dirs set_fs sample_env "~/.vimiv"
                          {["/home/user"; "/home/user/.vimiv"]})) q = true)
  ∧ Startup.parse_dirs set_fs sample_env "~/.vimiv"
      (default ∅ (Startup.parse_dirs set_fs sample_env "~/.vimiv"
                    {["/home/user"; "/home/user/.vimiv"]}))
    = Some (default ∅ (Startup.parse_dirs set_fs sample_env "~/.vimiv"
                         {["/home/user"; "/home/user/.vimiv"]})).
Proof.
  apply (parse_dirs_creates set_fs set_fs_mkdir_makes set_fs_mkdir_keeps sample_env
           "~/.vimiv" {["/home/user"; "/home/user/.vimiv"]}).
  apply some_default. apply (bool_decide_unpack _). vm_compute. exact I.
Defined.

Example parse_dirs_example :
  Startup.parse_dirs set_fs sample_env "~/.vimiv" {["/home/user"; "/home/user/.vimiv"]}
  = Some {["/home/user"; "/home/user/.vimiv"; "/home/user/.vimiv/Tags";
           "/home/user/.vimiv/Thumbnails"; "/home/user/.vimiv/Trash"]}.
Proof. vm_compute. reflexivity. Qed.

(** ** library.py: the list store *)

Lemma make_rows_spec a l i fs rows :
  Library.make_rows a l i fs = Ok rows →
  length rows = length fs
  ∧ ∀ k row, rows !! k = Some row →
       row_number row = Z.of_nat (i + k) + 1
       ∧ ∃ f, fs !! k = Some f ∧ Library.filesize l !! f = Some (row_size row).
Proof.
  revert i rows. induction fs as [|f fs IH]; intros i rows.
  - intros [= <-]. split; [reflexivity | intros k row H; by rewrite lookup_nil in H].
  - cbn [Library.make_rows]. unfold Library.make_row.
    destruct (Library.filesize l !! f) as [size|] eqn:Hsize; [|discriminate].
    cbn [bind]. destruct (Library.make_rows a l (S i) fs) as [rs|] eqn:E; [|discriminate].
    cbn [bind]. intros [= <-]. destruct (IH _ _ E) as [Hlen Hrows].
    split; [cbn; by rewrite Hlen|].
    intros [|k] row; cbn.
    + intros [= <-]. split; [unfold row_number; cbn; f_equal; lia|].
      exists f. by rewrite Hsize.
    + intros Hk. destruct (Hrows k row Hk) as [Hn Hf].
      split; [rewrite Hn; f_equal; lia | exact Hf].
Qed.

(** The sizes that [filelist_create] records: one for every entry that is
    not a broken link. *)
Lemma sizes_lookup a l entries (sizes0 : gmap string string) f :
  is_Some (foldl (λ (sizes : gmap string string) fil,
                    if Library.islink a fil && negb (Library.link_target_exists a fil)
                    then sizes
                    else if Library.isdir a fil
                         then <[fil := Library.dir_amount a l fil]> sizes
                         else <[fil := Library.size_fmt a fil]> sizes)
                 sizes0 entries !! f)
  ↔ is_Some (sizes0 !! f) ∨ (f ∈ entries ∧ broken_link a f = false).
Proof.
  revert sizes0. induction entries as [|e entries IH]; intros sizes0; cbn [foldl].
  - split; [by left | intros [H | [H _]]; [exact H | by apply elem_of_nil in H]].
  - rewrite IH. fold (broken_link a e).
    destruct (broken_link a e) eqn:Hb.
    + split; [intros [H | [H1 H2]]; [by left | right; split; [by apply elem_of_cons; right | done]]|].
      intros [H | [[-> | H1]%elem_of_cons H2]]; [by left | congruence | by right].
    + assert (Hins : ∀ v : string, is_Some (<[e := v]> sizes0 !! f)
                                   ↔ is_Some (sizes0 !! f) ∨ f = e).
      { intros v. destruct (decide (e = f)) as [->|Hne].
        - rewrite lookup_insert_eq. split; [by right | eauto].
        - rewrite lookup_insert_ne by done. split; [by left | intros [H | ->]; done]. }
      destruct (Library.isdir a e); rewrite Hins; (split;
        [ intros [[H | ->] | [H1 H2]];
          [ by left | right; split; [apply elem_of_cons; by left | done]
          | right; split; [apply elem_of_cons; by right | done] ]
        | intros [H | [[-> | H1]%elem_of_cons H2]];
          [ left; by left | left; by right | by right ] ]).
Qed.

(** X12. When [liststore_create] returns, the files of the library are the
    image and directory entries of the listing, in its order (all entries in
    the tag directory); the list store has one row for each file, numbered
    from 1, and its size column is the size recorded for that file. *)
Theorem liststore_create_rows a l rows l' :
  Library.liststore_create a l = Ok (rows, l') →
  (∃ entries, Library.listdir a "." (Library.show_hidden l) = Ok entries
              ∧ Library.files l' = kept_entries a entries)
  ∧ length rows = length (Library.files l')
  ∧ ∀ k row, rows !! k = Some row →
       row_number row = Z.of_nat k + 1
       ∧ ∃ f, Library.files l' !! k = Some f
              ∧ Library.filesize l' !! f = Some (row_size row).
Proof.
  unfold Library.liststore_create, Library.filelist_create.
  destruct (Library.listdir a "." (Library.show_hidden l)) as [entries|]; [|discriminate].
  cbn [bind]. fold (kept_entries a entries).
  destruct (Library.make_rows _ _ _ _) as [rs|] eqn:E; [|discriminate].
  cbn [bind]. intros [= <- <-]. destruct (make_rows_spec _ _ _ _ _ E) as [Hlen Hrows].
  split; [by exists entries|]. split; [exact Hlen|]. exact Hrows.
Qed.

Lemma liststore_create_rows_witness :
  (∃ entries, Library.listdir (album_app "/a" ["a.png"; "notes.txt"; "c"]) "."
                (Library.show_hidden sample_library) = Ok entries
              ∧ ["a.png"; "c"]
                = kept_entries (album_app "/a" ["a.png"; "notes.txt"; "c"]) entries)
  ∧ length [(1, "a.png", "1.0K", ""); (2, "<b>c</b>", "1", "")]
    = length ["a.png"; "c"]
  ∧ ∀ k row, [(1, "a.png", "1.0K", ""); (2, "<b>c</b>", "1", "")] !! k = Some row →
       row_number row = Z.of_nat k + 1
       ∧ ∃ f, ["a.png"; "c"] !! k = Some f
              ∧ (list_to_map [("a.png", "1.0K"); ("notes.txt", "1.0K"); ("c", "1")]
                   : gmap string string) !! f
                = Some (row_size row).
Proof.
  exact (liststore_create_rows (album_app "/a" ["a.png"; "notes.txt"; "c"])
           sample_library [(1, "a.png", "1.0K", ""); (2, "<b>c</b>", "1", "")]
           (Library.set_files ["a.png"; "c"]
              (Library.set_filesize
                 (list_to_map [("a.png", "1.0K"); ("notes.txt", "1.0K"); ("c", "1")])
                 sample_library)) eq_refl).
Defined.

Lemma find_ext_in {A} (p q : A → bool) (l : list A) :
  (∀ x, x ∈ l → p x = q x) → List.find p l = List.find q l.
Proof.
  induction l as [|x l IH]; [reflexivity|]. intros H. cbn.
  rewrite (H x) by (apply elem_of_cons; by left).
  destruct (q x); [reflexivity|]. apply IH. intros y Hy. apply H, elem_of_cons. by right.
Qed.

Lemma make_rows_find a l i fs :
  match List.find (λ f, bool_decide (Library.filesize l !! f = None)) fs with
  | Some f => Library.make_rows a l i fs = Raise (KeyError f)
  | None => ∃ rows, Library.make_rows a l i fs = Ok rows
  end.
Proof.
  revert i. induction fs as [|f fs IH]; intros i; [cbn; eauto|].
  cbn [List.find Library.make_rows]. unfold Library.make_row.
  destruct (Library.filesize l !! f) as [size|] eqn:Hsize.
  - rewrite bool_decide_eq_false_2 by discriminate. cbn [bind].
    specialize (IH (S i)). destruct (List.find _ fs) as [f'|].
    + rewrite IH. reflexivity.
    + destruct IH as [rows ->]. cbn [bind]. eauto.
  - rewrite bool_decide_eq_true_2 by reflexivity. reflexivity.
Qed.

Lemma kept_entries_subset a entries f : f ∈ kept_entries a entries → f ∈ entries.
Proof.
  unfold kept_entries. destruct (negb _); [|done].
  intros H. apply list_elem_of_In, List.filter_In in H as [H _]. by apply list_elem_of_In.
Qed.

(** Whether the rows can be built is decided by the first entry kept that is
    a broken link. *)
Lemma liststore_create_find a l entries :
  Library.listdir a "." (Library.show_hidden l) = Ok entries →
  match List.find (broken_link a) (kept_entries a entries) with
  | Some f => Library.liststore_create a l = Raise (KeyError f)
  | None => ∃ rows l', Library.liststore_create a l = Ok (rows, l')
  end.
Proof.
  unfold Library.liststore_create, Library.filelist_create. intros ->.
  cbn [bind]. fold (kept_entries a entries).
  match goal with
  | |- context [Library.make_rows a ?l1 0 _] => pose proof (make_rows_find a l1 0
                                                   (kept_entries a entries)) as Hrows
  end.
  rewrite (find_ext_in _ (broken_link a)) in Hrows.
  - destruct (List.find (broken_link a) (kept_entries a entries)) as [f|].
    + rewrite Hrows. reflexivity.
    + destruct Hrows as [rows ->]. cbn [bind]. eauto.
  - intros f Hf. apply kept_entries_subset in Hf.
    cbn [Library.filesize Library.set_files Library.set_filesize].
    pose proof (sizes_lookup a l entries ∅ f) as Hsize.
    destruct (broken_link a f) eqn:Hb.
    + apply bool_decide_eq_true_2, eq_None_not_Some. rewrite Hsize.
      intros [H | [_ H]]; [|done]. rewrite lookup_empty in H. by apply is_Some_None in H.
    + apply bool_decide_eq_false_2. intros Hnone.
      apply eq_None_not_Some in Hnone. apply Hnone, Hsize. by right.
Qed.

(** X13. The outcome of [liststore_create]. An exception of the directory
    listing goes through. Otherwise it returns, unless one of the entries it
    keeps is a symbolic link whose target is gone: [filelist_create] recorded
    no size for it, and the first such entry raises [KeyError]. *)
Theorem liststore_create_outcome a l :
  match Library.listdir a "." (Library.show_hidden l) with
  | Raise e => Library.liststore_create a l = Raise e
  | Ok entries =>
      match List.find (broken_link a) (kept_entries a entries) with
      | Some f => Library.liststore_create a l = Raise (KeyError f)
      | None => ∃ rows l', Library.liststore_create a l = Ok (rows, l')
      end
  end.
Proof.
  destruct (Library.listdir a "." (Library.show_hidden l)) as [entries|e] eqn:E.
  - by apply liststore_create_find.
  - unfold Library.liststore_create, Library.filelist_create. by rewrite E.
Qed.

(** In the tag directory every entry is kept, so a dangling link there stops
    the listing. *)
Example liststore_create_dangling :
  Library.liststore_create (album_app "/home/user/.vimiv/Tags" ["a.png"; "gone.png"])
    sample_library = Raise (KeyError "gone.png").
Proof. vm_compute. reflexivity. Qed.

(** ** library.py: the size column of a directory *)

(** X14. The size shown for a directory, for a check amount that is not
    negative. A directory that cannot be listed shows [N/A]. One with at most
    [file_check_amount] entries shows the number of its images. A larger one
    shows the number of images among its first [file_check_amount] entries,
    which is at most that amount, followed by [+]; when there is no image
    among them it shows [0], whatever comes later. *)
Theorem dir_amount_counts a l fil :
  (0 ≤ Library.file_check_amount l)%Z →
  (∀ e, Library.listdir a fil (Library.show_hidden l) = Raise e →
        Library.dir_amount a l fil = "N/A")
  ∧ ∀ subfiles, Library.listdir a fil (Library.show_hidden l) = Ok subfiles →
      let images := List.filter (λ subfile, Library.is_image a (Py.join fil subfile)) in
      ((Z.of_nat (length subfiles) ≤ Library.file_check_amount l)%Z →
       Library.dir_amount a l fil = Py.str_int (Z.of_nat (length (images subfiles))))
      ∧ ((Library.file_check_amount l < Z.of_nat (length subfiles))%Z →
         let n := length (images (take (Z.to_nat (Library.file_check_amount l)) subfiles)) in
         (Z.of_nat n ≤ Library.file_check_amount l)%Z
         ∧ Library.dir_amount a l fil
           = if Nat.eqb n 0 then "0" else Py.str_int (Z.of_nat n) ++ "+").
Proof.
  intros Hcap. unfold Library.dir_amount. split; [by intros e ->|].
  intros subfiles ->. cbn zeta. unfold Py.slice_to.
  rewrite (proj2 (Z.leb_le _ _) Hcap). split.
  - intros Hlen. rewrite (proj2 (Z.ltb_ge _ _) Hlen), andb_false_r.
    rewrite firstn_all2 by lia. reflexivity.
  - intros Hlen. rewrite (proj2 (Z.ltb_lt _ _) Hlen), andb_true_r. split.
    + etransitivity; [apply inj_le, List.filter_length_le|].
      rewrite length_take. lia.
    + destruct (Nat.eqb _ 0) eqn:E; [|reflexivity].
      apply Nat.eqb_eq in E. rewrite E. reflexivity.
Qed.

Lemma dir_amount_counts_witness :
  (0 ≤ Library.file_check_amount sample_library)%Z
  ∧ Library.dir_amount (album_app "/a" ["a.png"; "c"]) sample_library "c" = "1".
Proof.
  split; [done|].
  exact (proj1 (proj2 (dir_amount_counts (album_app "/a" ["a.png"; "c"]) sample_library "c"
                         ltac:(done)) ["x.png"; "y"] eq_refl) ltac:(done)).
Defined.

(** With a check amount of one, the second picture of a directory is not
    counted, and a directory whose first entry is no picture shows none. *)
Example dir_amount_examples :
  let l := {| Library.dir_pos := ∅; Library.default_width := 300; Library.width := 300;
              Library.markup := "<span>"; Library.show_hidden := false;
              Library.file_check_amount := 1; Library.files := [];
              Library.filesize := ∅; Library.model := []; Library.cursor := None;
              Library.grid_visible := true; Library.focused := true;
              Library.num_str := ""; Library.err_messages := [];
              Library.search_positions := [] |} in
  Library.dir_amount (album_app "/a" []) l "c" = "1+"
  ∧ Library.dir_amount
      {| Library.cwd := "/a"; Library.winsize_width := 800; Library.image := None;
         Library.get_pos := 0; Library.tags_directory := "/t"; Library.marked := [];
         Library.listdir := λ _ _, Ok ["y"; "x.png"];
         Library.is_image := Py.endswith ".png"; Library.isdir := λ _, false;
         Library.islink := λ _, false; Library.link_target_exists := λ _, true;
         Library.realpath := λ f, f; Library.abspath := λ f, f;
         Library.size_fmt := λ _, "1.0K" |} l "c" = "0".
Proof. split; vm_compute; reflexivity. Qed.

(** ** library.py: what [reload] keeps *)

(** Reading a field through all the setters. *)
Ltac all_fields :=
  cbn [Library.dir_pos Library.default_width Library.width Library.markup
       Library.show_hidden Library.file_check_amount Library.files
       Library.filesize Library.model Library.cursor Library.grid_visible
       Library.focused Library.num_str Library.err_messages
       Library.search_positions
       Library.set_dir_pos Library.set_width Library.set_show_hidden
       Library.set_files Library.set_filesize Library.set_model
       Library.set_cursor Library.set_grid_visible Library.set_focused
       Library.set_search_positions Library.remember_pos
       Library.num_clear Library.err_message negb andb] in *.

Lemma liststore_create_length a l rows l2 :
  Library.liststore_create a l = Ok (rows, l2) →
  length rows = length (Library.files l2).
Proof.
  unfold Library.liststore_create, Library.filelist_create.
  destruct (Library.listdir a "." (Library.show_hidden l)) as [entries|e];
    [|discriminate].
  cbn [bind]. destruct (Library.make_rows a _ 0 _) as [rs|] eqn:E; [|discriminate].
  cbn [bind]. intros [= <- <-]. apply make_rows_spec in E as [E _]. exact E.
Qed.

Lemma listing_same a l l' fs :
  listing a l = Ok fs →
  Library.show_hidden l' = Library.show_hidden l →
  Library.file_check_amount l' = Library.file_check_amount l →
  listing a l' = Ok fs.
Proof.
  intros H Hs Hc. destruct (listing_inv a l fs H) as [sizes Hagain].
  destruct (Hagain l' Hs Hc) as [rows E]. unfold listing. rewrite E. reflexivity.
Qed.

Lemma restore_position_cases directory last_directory l l' :
  restore_position directory last_directory l = Ok l' →
  l' = l
  ∨ (∃ p, Library.files l ≠ [] ∧ l' = Library.num_clear (Library.set_cursor p l))
  ∨ (Library.files l = [] ∧ l' = Library.err_message empty_warning l).
Proof.
  assert (Hmove : ∀ p, Library.move_pos true (Some p) l = Ok l' →
    (∃ p, Library.files l ≠ [] ∧ l' = Library.num_clear (Library.set_cursor p l))
    ∨ (Library.files l = [] ∧ l' = Library.err_message empty_warning l)).
  { intros p. unfold Library.move_pos. destruct (Library.files l) as [|f fs'].
    - intros [= <-]. by right.
    - cbn [bind]. intros [= <-]. left. by exists p. }
  unfold restore_position. destruct (Library.dir_pos l !! directory) as [pos|].
  - intros H. right. by apply (Hmove pos).
  - destruct (Py.contains _ _); [|intros [= <-]; by left].
    destruct (Py.index _ _) as [i|]; [|discriminate].
    intros H. right. by apply (Hmove i).
Qed.

Lemma reloaded_restore a search l fs directory last_directory l1 l' :
  reloaded a search l fs l1 →
  restore_position directory last_directory l1 = Ok l' →
  reloaded a search l fs l'.
Proof.
  intros H E.
  apply restore_position_cases in E as [-> | [(p & _ & ->) | [Hempty ->]]]; [exact H| |].
  - exact H.
  - destruct H as (Hf & Hm & Hv & Hfo & Hs & Hsp & Hd & Hdv & He & more & Hmore & Hall).
    unfold reloaded. all_fields. rewrite Hf in Hempty.
    repeat (split; [assumption || done|]).
    exists (more ++ [empty_warning])%list. rewrite Hmore, <- app_assoc.
    split; [reflexivity|]. apply Forall_app. split; [exact Hall|]. by constructor.
Qed.

Lemma reloaded_shown a search l fs rows sizes :
  Library.grid_visible l = true →
  length rows = length fs →
  reloaded a search l fs
    (Library.set_focused true (Library.set_model rows (Library.set_files fs
       (Library.set_filesize sizes
          (if negb search then Library.set_search_positions [] l else l))))).
Proof.
  intros Hv Hlen. unfold reloaded, same_settings.
  destruct search; all_fields; rewrite ?Hv; all_fields.
  all: repeat (split; [assumption || done|]).
  all: exists []; by rewrite app_nil_r.
Qed.

(** [reload] of a library that is shown. *)
Lemma reload_shown_state n a directory last_directory search l fs :
  Library.grid_visible l = true →
  listing a l = Ok fs →
  ∃ rows sizes,
    length rows = length fs
    ∧ Library.reload (S (S n)) a directory last_directory search l
      = restore_position directory last_directory
          (Library.set_focused true (Library.set_model rows (Library.set_files fs
             (Library.set_filesize sizes
                (if negb search then Library.set_search_positions [] l else l))))).
Proof.
  intros Hv Hl. destruct (listing_inv a l fs Hl) as [sizes Hagain].
  destruct (Hagain (if negb search then Library.set_search_positions [] l else l))
    as [rows E]; [by destruct search..|].
  exists rows, sizes. split; [by apply liststore_create_length in E|].
  rewrite reload_unfold, E. cbn [bind fst snd]. rewrite focus_unfold. fields.
  replace (Library.grid_visible (if negb search then _ else l)) with true
    by (by destruct search).
  reflexivity.
Qed.

(** [toggle] of a library that is hidden: it is shown, the row of the image
    remembered, and the current directory reloaded. *)
Lemma toggle_show_state n a update_image l fs :
  Library.grid_visible l = false →
  listing a l = Ok fs →
  ∃ rows sizes,
    length rows = length fs
    ∧ Library.toggle (S (S (S n))) a update_image l
      = restore_position (Library.cwd a) ""
          (Library.set_focused true (Library.set_model rows (Library.set_files fs
             (Library.set_filesize sizes (Library.set_search_positions []
                (Library.set_focused true
                   (remember_image a (Library.set_grid_visible true l)))))))).
Proof.
  intros Hv Hl. rewrite toggle_unfold by exact Hv.
  set (l1 := remember_image a _).
  assert (Hl1 : Library.grid_visible l1 = true
                ∧ Library.show_hidden l1 = Library.show_hidden l
                ∧ Library.file_check_amount l1 = Library.file_check_amount l).
  { subst l1. destruct (remember_image_cases a (Library.set_grid_visible true l))
      as [-> | [i ->]]; fields; done. }
  destruct Hl1 as (Hv1 & Hs1 & Hc1).
  rewrite focus_unfold, Hv1. cbn [negb bind].
  destruct (reload_shown_state n a (Library.cwd a) "" false (Library.set_focused true l1) fs)
    as (rows & sizes & Hlen & E); [fields; exact Hv1 | |].
  { apply (listing_same a l); [exact Hl | fields; exact Hs1 | fields; exact Hc1]. }
  exists rows, sizes. split; [exact Hlen|]. exact E.
Qed.

Lemma reloaded_toggled a l fs rows sizes :
  Library.grid_visible l = false →
  length rows = length fs →
  reloaded a false l fs
    (Library.set_focused true (Library.set_model rows (Library.set_files fs
       (Library.set_filesize sizes (Library.set_search_positions []
          (Library.set_focused true
             (remember_image a (Library.set_grid_visible true l)))))))).
Proof.
  intros Hv Hlen. unfold reloaded, same_settings.
  destruct (remember_image_cases a (Library.set_grid_visible true l)) as [-> | [i ->]];
    all_fields; rewrite ?Hv.
  all: repeat (split; [assumption || done|]).
  all: try (split; [intros d Hd; by rewrite lookup_insert_ne|]).
  all: repeat (split; [assumption || done|]).
  all: exists []; by rewrite app_nil_r.
Qed.

(** [reload]: it returns when the directory can be listed, and leaves the
    library as [reloaded] says. The cursor is placed by the position logic,
    run on a library [l1] that shows the listing already. *)
Lemma reload_reloaded fuel a directory last_directory search l fs :
  ((if Library.grid_visible l then 2 else 5) ≤ fuel)%nat →
  listing a l = Ok fs →
  ∃ l1 l',
    Library.reload fuel a directory last_directory search l = Ok l'
    ∧ restore_position directory last_directory l1 = Ok l'
    ∧ reloaded a search l fs l1
    ∧ reloaded a search l fs l'
    ∧ (Library.grid_visible l = true → Library.cursor l1 = None).
Proof.
  intros Hfuel Hl. destruct (Library.grid_visible l) eqn:Hv.
  - do 2 (destruct fuel as [|fuel]; [lia|]).
    destruct (reload_shown_state fuel a directory last_directory search l fs Hv Hl)
      as (rows & sizes & Hlen & ->).
    pose proof (reloaded_shown a search l fs rows sizes Hv Hlen) as H1.
    destruct (restore_position_spec directory last_directory
                (Library.set_focused true (Library.set_model rows (Library.set_files fs
                   (Library.set_filesize sizes
                      (if negb search then Library.set_search_positions [] l else l))))))
      as (l' & E & _).
    eexists _, l'. split; [exact E|]. split; [exact E|]. split; [exact H1|].
    split; [exact (reloaded_restore _ _ _ _ _ _ _ _ H1 E) | reflexivity].
  - do 5 (destruct fuel as [|fuel]; [lia|]).
    destruct (listing_inv a l fs Hl) as [sizes Hagain].
    destruct (Hagain (if negb search then Library.set_search_positions [] l else l))
      as [rows E]; [by destruct search..|].
    rewrite reload_unfold, E. cbn [bind fst snd]. rewrite focus_unfold. fields.
    replace (Library.grid_visible (if negb search then _ else l)) with false
      by (by destruct search).
    cbn [negb].
    set (l0 := Library.set_focused true _).
    assert (H0 : Library.grid_visible l0 = false
                 ∧ Library.dir_pos l0 = Library.dir_pos l
                 ∧ Library.err_messages l0 = Library.err_messages l
                 ∧ same_settings l l0).
    { subst l0. unfold same_settings. destruct search; all_fields; by rewrite ?Hv. }
    destruct H0 as (Hv0 & Hd0 & He0 & Hs0).
    assert (Hl0 : listing a l0 = Ok fs)
      by (apply (listing_same a l); [exact Hl | apply Hs0 | apply Hs0]).
    destruct (toggle_show_state fuel a true l0 fs Hv0 Hl0) as (rows' & sizes' & Hlen & ->).
    pose proof (reloaded_toggled a l0 fs rows' sizes' Hv0 Hlen) as H3.
    match goal with
    | |- context [restore_position (Library.cwd a) "" ?x] => set (l3 := x) in *
    end.
    destruct (restore_position_spec (Library.cwd a) "" l3) as (l4 & E4 & _).
    rewrite E4. cbn [bind].
    pose proof (reloaded_restore _ _ _ _ _ _ _ _ H3 E4) as H4.
    assert (H4' : reloaded a search l fs l4).
    { destruct H4 as (Hf & Hm & Hvis & Hfo & Hs & Hsp & Hd & Hdv & He & more & Hmore & Hall).
      unfold reloaded. rewrite Hv, andb_false_r. rewrite Hv0 in Hsp. cbn [andb] in Hsp.
      rewrite Hd0, He0 in *.
      repeat (split; [assumption || done|]).
      split. { destruct Hs as (?&?&?&?&?), Hs0 as (?&?&?&?&?). unfold same_settings.
               repeat split; congruence. }
      repeat (split; [assumption || done|]). by exists more. }
    destruct (restore_position_spec directory last_directory l4) as (l' & E' & _).
    exists l4, l'. split; [exact E'|]. split; [exact E'|]. split; [exact H4'|].
    split; [exact (reloaded_restore _ _ _ _ _ _ _ _ H4' E') | discriminate].
Qed.

(** X15. A reload of a directory that can be listed returns and leaves the
    library shown and focused, with the new listing as its files and one row
    for each of them. It changes none of the settings. The search positions
    are kept only by a reload for a search in a library that was shown. The
    positions remembered for other directories than the current one are kept,
    and all of them when the library was shown. The only messages it adds
    are warnings about an empty directory, and none when the listing is not
    empty. *)
Theorem reload_keeps fuel a directory last_directory search l fs :
  (5 ≤ fuel)%nat →
  listing a l = Ok fs →
  ∃ l',
    Library.reload fuel a directory last_directory search l = Ok l'
    ∧ Library.files l' = fs
    ∧ length (Library.model l') = length fs
    ∧ Library.grid_visible l' = true
    ∧ Library.focused l' = true
    ∧ (Library.default_width l' = Library.default_width l
       ∧ Library.width l' = Library.width l
       ∧ Library.markup l' = Library.markup l
       ∧ Library.show_hidden l' = Library.show_hidden l
       ∧ Library.file_check_amount l' = Library.file_check_amount l)
    ∧ Library.search_positions l'
      = (if search && Library.grid_visible l then Library.search_positions l else [])
    ∧ (∀ d, d ≠ Library.cwd a → Library.dir_pos l' !! d = Library.dir_pos l !! d)
    ∧ (Library.grid_visible l = true → Library.dir_pos l' = Library.dir_pos l)
    ∧ (fs ≠ [] → Library.err_messages l' = Library.err_messages l)
    ∧ ∃ more, Library.err_messages l' = (Library.err_messages l ++ more)%list
              ∧ Forall (eq "Warning: Directory is empty") more.
Proof.
  intros Hfuel Hl.
  destruct (reload_reloaded fuel a directory last_directory search l fs)
    as (l1 & l' & E & _ & _ & H & _); [destruct (Library.grid_visible l); lia | exact Hl |].
  exists l'. split; [exact E | exact H].
Qed.

Lemma reload_keeps_witness :
  ∃ l',
    Library.reload 5 hidden_app "/a" "" true
      (Library.set_grid_visible false (Library.remember_pos "/b" 3 sample_library)) = Ok l'
    ∧ Library.files l' = ["a.png"; "b.png"]
    ∧ length (Library.model l') = length ["a.png"; "b.png"]
    ∧ Library.grid_visible l' = true
    ∧ Library.focused l' = true
    ∧ (Library.default_width l' = 300
       ∧ Library.width l' = 300
       ∧ Library.markup l' = "<span>"
       ∧ Library.show_hidden l' = false
       ∧ Library.file_check_amount l' = 30)
    ∧ Library.search_positions l' = []
    ∧ (∀ d, d ≠ "/a" → Library.dir_pos l' !! d = ({[ "/b" := 3 ]} : gmap string Z) !! d)
    ∧ (false = true → Library.dir_pos l' = {[ "/b" := 3 ]})
    ∧ (["a.png"; "b.png"] ≠ [] → Library.err_messages l' = [])
    ∧ ∃ more, Library.err_messages l' = ([] ++ more)%list
              ∧ Forall (eq "Warning: Directory is empty") more.
Proof.
  apply (reload_keeps 5 hidden_app "/a" "" true
           (Library.set_grid_visible false (Library.remember_pos "/b" 3 sample_library))
           ["a.png"; "b.png"]).
  - lia.
  - vm_compute. reflexivity.
Defined.

(** ** library.py: [toggle_hidden] *)

(** X16. Toggling the hidden files twice, in a directory that can be listed
    both ways, brings back the setting and the listing: after the first call
    the library lists the directory the other way, after the second as
    before. *)
Theorem toggle_hidden_twice fuel a l fs fs' :
  (5 ≤ fuel)%nat →
  listing a l = Ok fs →
  listing a (Library.set_show_hidden (negb (Library.show_hidden l)) l) = Ok fs' →
  ∃ l1 l2,
    Library.toggle_hidden fuel a l = Ok l1
    ∧ Library.show_hidden l1 = negb (Library.show_hidden l)
    ∧ Library.files l1 = fs'
    ∧ Library.toggle_hidden fuel a l1 = Ok l2
    ∧ Library.show_hidden l2 = Library.show_hidden l
    ∧ Library.files l2 = fs.
Proof.
  intros Hfuel Hl Hl'. unfold Library.toggle_hidden.
  destruct (reload_reloaded fuel a "." "" false
              (Library.set_show_hidden (negb (Library.show_hidden l)) l) fs')
    as (l0 & l1 & E1 & _ & _ & H1 & _);
    [destruct (Library.grid_visible _); lia | exact Hl' |].
  destruct H1 as (Hf1 & _ & _ & _ & (_ & _ & _ & Hs1 & Hc1) & _). all_fields.
  destruct (reload_reloaded fuel a "." "" false
              (Library.set_show_hidden (negb (Library.show_hidden l1)) l1) fs)
    as (l0' & l2 & E2 & _ & _ & H2 & _); [destruct (Library.grid_visible _); lia | |].
  { apply (listing_same a l); [exact Hl | |]; all_fields.
    - rewrite Hs1. apply negb_involutive.
    - exact Hc1. }
  destruct H2 as (Hf2 & _ & _ & _ & (_ & _ & _ & Hs2 & _) & _). all_fields.
  exists l1, l2. repeat split; try assumption.
  rewrite Hs2, Hs1. apply negb_involutive.
Qed.

Lemma toggle_hidden_twice_witness :
  ∃ l1 l2,
    Library.toggle_hidden 5 hidden_app sample_library = Ok l1
    ∧ Library.show_hidden l1 = negb (Library.show_hidden sample_library)
    ∧ Library.files l1 = [".h.png"; "a.png"; "b.png"]
    ∧ Library.toggle_hidden 5 hidden_app l1 = Ok l2
    ∧ Library.show_hidden l2 = Library.show_hidden sample_library
    ∧ Library.files l2 = ["a.png"; "b.png"].
Proof.
  apply (toggle_hidden_twice 5 hidden_app sample_library); [lia | |]; vm_compute; reflexivity.
Defined.

(** ** library.py: [toggle] *)

Lemma index_not_contains x l : Py.contains x l = false → Py.index x l = None.
Proof.
  unfold Py.contains. induction l as [|y l IH]; [reflexivity|]. cbn [existsb Py.index].
  destruct (String.eqb x y); [discriminate|]. cbn [orb]. intros H. by rewrite IH.
Qed.

Lemma index_some_contains x l i : Py.index x l = Some i → Py.contains x l = true.
Proof.
  destruct (Py.contains x l) eqn:E; [done|]. by rewrite index_not_contains.
Qed.

Lemma remember_image_row a l :
  remember_image a l
  = match image_row a l with
    | Some i => Library.remember_pos (Library.cwd a) i l
    | None => l
    end.
Proof.
  unfold remember_image, image_row. destruct (Library.image a) as [image|]; [|reflexivity].
  destruct (String.eqb _ _); [|reflexivity]. cbn [andb].
  destruct (Py.contains _ _) eqn:E; [reflexivity|]. by rewrite index_not_contains.
Qed.

(** X17. Hiding the shown library and showing it again. The first [toggle]
    hides and unfocuses it and remembers the position of the cursor for the
    current directory. The second shows and focuses it with the directory
    listed anew, and, when the listing is not empty, puts the cursor on the
    row of the displayed image if that image is a file of the library in the
    current directory, and back on the remembered position otherwise. *)
Theorem toggle_twice fuel a update_image update_image' l fs :
  (3 ≤ fuel)%nat →
  Library.grid_visible l = true →
  listing a l = Ok fs →
  fs ≠ [] →
  ∃ l1 l2,
    Library.toggle fuel a update_image l = Ok l1
    ∧ Library.grid_visible l1 = false
    ∧ Library.focused l1 = false
    ∧ Library.dir_pos l1 !! Library.cwd a = Some (Library.get_pos a)
    ∧ Library.toggle fuel a update_image' l1 = Ok l2
    ∧ Library.grid_visible l2 = true
    ∧ Library.focused l2 = true
    ∧ Library.files l2 = fs
    ∧ Library.cursor l2 = Some (default (Library.get_pos a) (image_row a l)).
Proof.
  intros Hfuel Hv Hl Hne. do 3 (destruct fuel as [|fuel]; [lia|]).
  set (l1 := Library.set_focused false (Library.set_grid_visible false
               (Library.remember_pos (Library.cwd a) (Library.get_pos a) l))).
  assert (E1 : Library.toggle (S (S (S fuel))) a update_image l = Ok l1).
  { cbn [Library.toggle]. rewrite Hv. reflexivity. }
  assert (Hl1 : listing a l1 = Ok fs) by (by apply (listing_same a l)).
  destruct (toggle_show_state fuel a update_image' l1 fs eq_refl Hl1)
    as (rows & sizes & Hlen & E2).
  pose proof (reloaded_toggled a l1 fs rows sizes eq_refl Hlen) as H3.
  match type of E2 with
  | _ = restore_position _ _ ?x => set (l3 := x) in *
  end.
  assert (Hpos : Library.dir_pos l3 !! Library.cwd a
                 = Some (default (Library.get_pos a) (image_row a l))).
  { subst l3 l1. all_fields. rewrite remember_image_row.
    change (image_row a _) with (image_row a l).
    destruct (image_row a l) as [i|]; all_fields; cbn [default];
      by rewrite lookup_insert_eq. }
  destruct (restore_position_spec (Library.cwd a) "" l3)
    as (l2 & E & _ & _ & _ & Hsome & _).
  pose proof (reloaded_restore _ _ _ _ _ _ _ _ H3 E) as (Hf & _ & Hv2 & Hfo2 & _).
  destruct H3 as (Hf3 & _).
  destruct (Hsome _ Hpos) as [Hcur _]; [by rewrite Hf3|].
  exists l1, l2. split; [exact E1|]. subst l1. all_fields.
  rewrite lookup_insert_eq, E2, E. done.
Qed.

Lemma toggle_twice_witness :
  ∃ l1 l2,
    Library.toggle 3 hidden_app true (Library.set_files ["a.png"; "b.png"] sample_library)
    = Ok l1
    ∧ Library.grid_visible l1 = false
    ∧ Library.focused l1 = false
    ∧ Library.dir_pos l1 !! "/a" = Some 0
    ∧ Library.toggle 3 hidden_app true l1 = Ok l2
    ∧ Library.grid_visible l2 = true
    ∧ Library.focused l2 = true
    ∧ Library.files l2 = ["a.png"; "b.png"]
    ∧ Library.cursor l2 = Some 1.
Proof.
  apply (toggle_twice 3 hidden_app true true
           (Library.set_files ["a.png"; "b.png"] sample_library) ["a.png"; "b.png"]).
  - lia.
  - reflexivity.
  - vm_compute. reflexivity.
  - discriminate.
Defined.

(** ** library.py: where [reload] puts the cursor *)





(** A hidden library showing the image [b.png] of the current directory
    [/a]: the position 0 remembered for [/a] is replaced by the row of the
    image before the directory is reloaded, and the cursor goes there. *)
Example reload_hidden_example :
  Library.cursor <$>
    Library.reload 5 hidden_app "/a" "" false
      (Library.set_grid_visible false (Library.remember_pos "/a" 0 sample_library))
  = Ok (Some 1)
  ∧ remembered hidden_app
      (Library.set_grid_visible false (Library.remember_pos "/a" 0 sample_library))
      ["a.png"; "b.png"] !! "/a" = Some 1.
Proof. split; vm_compute; reflexivity. Qed.

(** ** library.py: [move_up] *)

(** Whether the rows can be built depends on the library only through its
    two listing settings. *)
Lemma liststore_create_raise_same a l l' e :
  Library.liststore_create a l = Raise e →
  Library.show_hidden l' = Library.show_hidden l →
  Library.file_check_amount l' = Library.file_check_amount l →
  Library.liststore_create a l' = Raise e.
Proof.
  unfold Library.liststore_create, Library.filelist_create. intros H Hs Hc. rewrite Hs.
  destruct (Library.listdir a "." (Library.show_hidden l)) as [files0|e0];
    [|exact H]. cbn [bind] in *.
  match goal with
  | |- context [Library.set_filesize ?s l'] =>
      match type of H with
      | context [Library.set_filesize ?s0 l] =>
          assert (Es : s = s0)
            by (destruct l, l'; cbn in Hs, Hc; subst; reflexivity);
          rewrite Es; clear Es; set (sizes := s0) in *
      end
  end.
  set (fs := if negb _ then _ else files0) in *.
  pose proof (make_rows_find a (Library.set_files fs (Library.set_filesize sizes l)) 0 fs) as H1.
  pose proof (make_rows_find a (Library.set_files fs (Library.set_filesize sizes l')) 0 fs) as H2.
  cbn [Library.filesize Library.set_files Library.set_filesize] in H1, H2.
  destruct (List.find _ fs) as [f|].
  - rewrite H1 in H. rewrite H2. exact H.
  - destruct H1 as [rows H1]. rewrite H1 in H. discriminate H.
Qed.

Lemma listing_raise a l e :
  listing a l = Raise e → Library.liststore_create a l = Raise e.
Proof.
  unfold listing. destruct (Library.liststore_create a l) as [r|e0]; [discriminate|].
  by intros [= ->].
Qed.

(** What a listing that fails leaves of the library. *)
Lemma failed_listing_keeps a l :
  Library.model (Pane.failed_listing a l) = Library.model l
  ∧ Library.cursor (Pane.failed_listing a l) = Library.cursor l
  ∧ Library.dir_pos (Pane.failed_listing a l) = Library.dir_pos l
  ∧ Library.grid_visible (Pane.failed_listing a l) = Library.grid_visible l
  ∧ Library.err_messages (Pane.failed_listing a l) = Library.err_messages l.
Proof.
  unfold Pane.failed_listing, Library.filelist_create.
  destruct (Library.listdir a "." (Library.show_hidden l)); done.
Qed.

(** X18. [move_up] into a directory that can be entered and listed: the
    library lists the new directory and is shown, and no error is reported.
    When the library was shown and remembers no position for the new
    directory, the cursor is put on the row of the directory that was left,
    if it is listed. *)
Theorem move_up_enters fuel a chdir directory l a' fs :
  (5 ≤ fuel)%nat →
  chdir directory = Ok a' →
  listing a' l = Ok fs →
  ∃ l',
    Pane.move_up fuel a chdir directory false l = (a', l')
    ∧ Library.files l' = fs
    ∧ length (Library.model l') = length fs
    ∧ Library.grid_visible l' = true
    ∧ (∃ more, Library.err_messages l' = (Library.err_messages l ++ more)%list
               ∧ Forall (eq "Warning: Directory is empty") more)
    ∧ (Library.grid_visible l = true →
       Library.dir_pos l !! Library.cwd a' = None →
       ∀ i, Py.index (Py.basename (Library.cwd a)) fs = Some i →
            Library.cursor l' = Some i).
Proof.
  intros Hfuel Hdir Hl. unfold Pane.move_up. rewrite Hdir. cbn [negb].
  destruct (reload_reloaded fuel a' (Library.cwd a') (Library.cwd a) false l fs)
    as (l1 & l' & E & Epos & H1 & H & _); [destruct (Library.grid_visible l); lia | exact Hl |].
  rewrite E. exists l'. split; [reflexivity|].
  destruct H as (Hf & Hm & Hv & _ & _ & _ & _ & _ & _ & Hmore).
  repeat (split; [assumption|]).
  intros Hshown Hnone i Hi.
  destruct H1 as (Hf1 & _ & _ & _ & _ & _ & _ & Hd1 & _).
  destruct (restore_position_spec (Library.cwd a') (Library.cwd a) l1)
    as (l2 & E2 & _ & _ & _ & _ & _ & Hbase & _).
  rewrite Epos in E2. injection E2 as <-. rewrite Hd1, Hf1 in Hbase by exact Hshown.
  destruct (Hbase Hnone (index_some_contains _ _ _ Hi)) as (i' & Hi' & _ & Hcur & _).
  congruence.
Qed.

Lemma move_up_enters_witness :
  ∃ l',
    Pane.move_up 5 (sample_app "/a/b/c" 800 []) (λ _, Ok (sample_app "/a/b" 800 sample_files))
      ".." false sample_library
    = (sample_app "/a/b" 800 sample_files, l')
    ∧ Library.files l' = sample_files
    ∧ length (Library.model l') = length sample_files
    ∧ Library.grid_visible l' = true
    ∧ (∃ more, Library.err_messages l' = (Library.err_messages sample_library ++ more)%list
               ∧ Forall (eq "Warning: Directory is empty") more)
    ∧ (Library.grid_visible sample_library = true →
       Library.dir_pos sample_library !! "/a/b" = None →
       ∀ i, Py.index (Py.basename "/a/b/c") sample_files = Some i →
            Library.cursor l' = Some i).
Proof.
  apply (move_up_enters 5 (sample_app "/a/b/c" 800 [])
           (λ _, Ok (sample_app "/a/b" 800 sample_files)) ".." sample_library
           (sample_app "/a/b" 800 sample_files) sample_files).
  - lia.
  - reflexivity.
  - vm_compute. reflexivity.
Defined.

(** X19. [move_up] reports [Error: directory not accessible] and raises
    nothing when the directory cannot be entered or cannot be listed. The
    rows, the cursor, the remembered positions and the visibility of the
    library stay as they were. In the second case the working directory has
    changed all the same. *)
Theorem move_up_not_accessible fuel a chdir directory l :
  (1 ≤ fuel)%nat →
  match chdir directory with
  | Raise _ => True
  | Ok a' => ∃ e, listing a' l = Raise e
  end →
  ∃ l',
    Pane.move_up fuel a chdir directory false l
    = (match chdir directory with Raise _ => a | Ok a' => a' end, l')
    ∧ Library.err_messages l'
      = (Library.err_messages l ++ ["Error: directory not accessible"])%list
    ∧ Library.model l' = Library.model l
    ∧ Library.cursor l' = Library.cursor l
    ∧ Library.dir_pos l' = Library.dir_pos l
    ∧ Library.grid_visible l' = Library.grid_visible l.
Proof.
  intros Hfuel H. unfold Pane.move_up.
  destruct (chdir directory) as [a'|e0]; [|eexists; split; [reflexivity | done]].
  destruct H as [e He]. cbn [negb]. destruct fuel as [|fuel]; [lia|].
  rewrite reload_unfold. cbn [negb].
  rewrite (liststore_create_raise_same a' l (Library.set_search_positions [] l) e)
    by (by apply listing_raise || reflexivity).
  cbn [bind]. eexists. split; [reflexivity|].
  destruct (failed_listing_keeps a' (Library.set_search_positions [] l))
    as (Hm & Hc & Hd & Hv & He').
  all_fields. rewrite Hm, Hc, Hd, Hv, He'. done.
Qed.

Lemma move_up_not_accessible_witness :
  ∃ l',
    Pane.move_up 1 (album_app "/a" ["a.png"])
      (λ _, Ok (album_app "/home/user/.vimiv/Tags" ["gone.png"])) "/home/user/.vimiv/Tags"
      false sample_library
    = (album_app "/home/user/.vimiv/Tags" ["gone.png"], l')
    ∧ Library.err_messages l'
      = (Library.err_messages sample_library ++ ["Error: directory not accessible"])%list
    ∧ Library.model l' = Library.model sample_library
    ∧ Library.cursor l' = Library.cursor sample_library
    ∧ Library.dir_pos l' = Library.dir_pos sample_library
    ∧ Library.grid_visible l' = Library.grid_visible sample_library.
Proof.
  apply (move_up_not_accessible 1 (album_app "/a" ["a.png"])
           (λ _, Ok (album_app "/home/user/.vimiv/Tags" ["gone.png"]))
           "/home/user/.vimiv/Tags" sample_library).
  - lia.
  - exists (KeyError "gone.png"). vm_compute. reflexivity.
Defined.

(** ** library.py: [scroll] *)

(** X20. Scrolling down or up in a library that is not empty and has a row
    for each file, with the cursor on one of the rows. The step is the
    pending number, or one when there is none. [j] moves the cursor down by
    the step, but not past the last row; every other direction than [h] and
    [l] moves it up by the step, but not past the first row. The cursor
    stays on a row, the pending number is cleared, and nothing is reported. *)
Theorem scroll_moves fuel a chdir file_select direction l step :
  direction ≠ "h" →
  direction ≠ "l" →
  Library.files l ≠ [] →
  length (Library.model l) = length (Library.files l) →
  (0 ≤ Library.get_pos a < Z.of_nat (length (Library.files l)))%Z →
  (if String.eqb (Library.num_str l) "" then step = 1%Z
   else Py.int (Library.num_str l) = Some step) →
  (0 ≤ step)%Z →
  ∃ l' p,
    Pane.scroll fuel a chdir file_select direction l = Ok (a, l')
    ∧ Library.cursor l' = Some p
    ∧ p = (if String.eqb direction "j"
           then Z.min (Library.get_pos a + step) (Z.of_nat (length (Library.files l)) - 1)
           else Z.max (Library.get_pos a - step) 0)
    ∧ (0 ≤ p < Z.of_nat (length (Library.files l)))%Z
    ∧ Library.num_str l' = ""
    ∧ Library.files l' = Library.files l
    ∧ Library.model l' = Library.model l
    ∧ Library.err_messages l' = Library.err_messages l.
Proof.
  intros Hh Hl Hne Hlen Hpos Hstep Hstep0. unfold Pane.scroll.
  rewrite (proj2 (String.eqb_neq _ _) Hh), (proj2 (String.eqb_neq _ _) Hl).
  assert (Es : (if negb (String.eqb (Library.num_str l) "")
                then match Py.int (Library.num_str l) with
                     | Some n => Ok n
                     | None => Raise ValueError
                     end
                else Ok 1%Z) = Ok step).
  { destruct (String.eqb (Library.num_str l) ""); cbn [negb]; by rewrite Hstep. }
  rewrite Es. cbn [bind]. rewrite Hlen.
  set (n := Z.of_nat (length (Library.files l))) in *.
  set (p := if String.eqb direction "j" then _ else _).
  assert (Hp : p = (if String.eqb direction "j"
                    then Z.min (Library.get_pos a + step) (n - 1)
                    else Z.max (Library.get_pos a - step) 0)
               ∧ (0 ≤ p < n)%Z).
  { subst p. destruct (String.eqb direction "j").
    - destruct (Z.leb_spec n (Library.get_pos a + step)); lia.
    - destruct (Z.ltb_spec (Library.get_pos a - step) 0); lia. }
  destruct Hp as [Hp Hbound].
  unfold Library.move_pos. destruct (Library.files l) as [|f fs] eqn:Hf; [done|].
  cbn [bind]. eexists _, p. split; [reflexivity|]. all_fields. rewrite Hf. done.
Qed.

Lemma scroll_moves_witness :
  ∃ l' p,
    Pane.scroll 5 (album_app "/a" ["a.png"; "c"]) (λ _, Raise ValueError)
      (λ _, Raise ValueError) "j"
      (typed "3" (Library.set_model [(1, "a.png", "1.0K", ""); (2, "<b>c</b>", "1", "")]
                    (Library.set_files ["a.png"; "c"] sample_library)))
    = Ok (album_app "/a" ["a.png"; "c"], l')
    ∧ Library.cursor l' = Some p
    ∧ p = Z.min (1 + 3) (2 - 1)
    ∧ (0 ≤ p < 2)%Z
    ∧ Library.num_str l' = ""
    ∧ Library.files l' = ["a.png"; "c"]
    ∧ Library.model l' = [(1, "a.png", "1.0K", ""); (2, "<b>c</b>", "1", "")]
    ∧ Library.err_messages l' = [].
Proof.
  apply (scroll_moves 5 (album_app "/a" ["a.png"; "c"]) (λ _, Raise ValueError)
           (λ _, Raise ValueError) "j"
           (typed "3" (Library.set_model [(1, "a.png", "1.0K", ""); (2, "<b>c</b>", "1", "")]
                         (Library.set_files ["a.png"; "c"] sample_library))) 3).
  - discriminate.
  - discriminate.
  - discriminate.
  - reflexivity.
  - cbn. lia.
  - reflexivity.
  - lia.
Defined.

(** X21. Leaving a directory with [h] and coming back. [scroll] remembers
    the position of the cursor for the directory before it moves up; when
    [move_up] enters that directory again, and its listing is not empty, the
    cursor is back on that position. *)
Theorem scroll_back_restores fuel a chdir chdir' file_select directory l a' a'' fs' fs :
  (5 ≤ fuel)%nat →
  Library.grid_visible l = true →
  chdir ".." = Ok a' →
  listing a' l = Ok fs' →
  chdir' directory = Ok a'' →
  Library.cwd a'' = Library.cwd a →
  listing a'' l = Ok fs →
  fs ≠ [] →
  ∃ l1 l2,
    Pane.scroll fuel a chdir file_select "h" l = Ok (a', l1)
    ∧ Library.files l1 = fs'
    ∧ Pane.move_up fuel a' chdir' directory false l1 = (a'', l2)
    ∧ Library.files l2 = fs
    ∧ Library.cursor l2 = Some (Library.get_pos a).
Proof.
  intros Hfuel Hv Hup Hl' Hback Hcwd Hl Hne. unfold Pane.scroll, Pane.move_up.
  change (String.eqb "h" "h") with true. cbn iota. rewrite Hup. cbn [negb].
  set (lr := Library.remember_pos (Library.cwd a) (Library.get_pos a) l).
  destruct (reload_reloaded fuel a' (Library.cwd a') (Library.cwd a) false lr fs')
    as (l0 & l1 & E1 & _ & _ & H1 & _);
    [destruct (Library.grid_visible lr); lia | by apply (listing_same a' l) |].
  rewrite E1. destruct H1 as (Hf1 & _ & Hv1 & _ & (_ & _ & _ & Hs1 & Hc1) & _ & _ & Hd1 & _).
  rewrite Hback.
  destruct (reload_reloaded fuel a'' (Library.cwd a'') (Library.cwd a') false l1 fs)
    as (l1' & l2 & E2 & Epos & H1' & H2 & _); [rewrite Hv1; lia | |].
  { apply (listing_same a'' l); [exact Hl | exact Hs1 | exact Hc1]. }
  exists l1, l2. rewrite E2. repeat (split; [done|]).
  destruct H2 as (Hf2 & _). split; [exact Hf2|].
  destruct H1' as (Hf1' & _ & _ & _ & _ & _ & _ & Hd1' & _).
  destruct (restore_position_spec (Library.cwd a'') (Library.cwd a') l1')
    as (l2' & E2' & _ & _ & _ & Hsome & _).
  rewrite Epos in E2'. injection E2' as <-.
  apply (Hsome (Library.get_pos a)); [|by rewrite Hf1'].
  rewrite Hd1' by exact Hv1. rewrite Hd1 by exact Hv. subst lr. all_fields.
  rewrite Hcwd. apply lookup_insert_eq.
Qed.

Lemma scroll_back_restores_witness :
  ∃ l1 l2,
    Pane.scroll 5 (album_app "/a/c" ["x.png"; "y.png"; "z.png"])
      (λ _, Ok (album_app "/a" ["a.png"; "c"])) (λ _, Raise ValueError) "h" sample_library
    = Ok (album_app "/a" ["a.png"; "c"], l1)
    ∧ Library.files l1 = ["a.png"; "c"]
    ∧ Pane.move_up 5 (album_app "/a" ["a.png"; "c"])
        (λ _, Ok (album_app "/a/c" ["x.png"; "y.png"; "z.png"])) "c" false l1
      = (album_app "/a/c" ["x.png"; "y.png"; "z.png"], l2)
    ∧ Library.files l2 = ["x.png"; "y.png"; "z.png"]
    ∧ Library.cursor l2 = Some 1.
Proof.
  apply (scroll_back_restores 5 (album_app "/a/c" ["x.png"; "y.png"; "z.png"])
           (λ _, Ok (album_app "/a" ["a.png"; "c"]))
           (λ _, Ok (album_app "/a/c" ["x.png"; "y.png"; "z.png"]))
           (λ _, Raise ValueError) "c" sample_library
           (album_app "/a" ["a.png"; "c"]) (album_app "/a/c" ["x.png"; "y.png"; "z.png"])
           ["a.png"; "c"] ["x.png"; "y.png"; "z.png"]).
  - lia.
  - reflexivity.
  - reflexivity.
  - vm_compute. reflexivity.
  - reflexivity.
  - reflexivity.
  - vm_compute. reflexivity.
  - discriminate.
Defined.

(** ** library.py: the image selected in [file_select] *)

Lemma image_index_from isfile fil index files k :
  files !! k = Some fil →
  (∀ j, (j < k)%nat → files !! j ≠ Some fil) →
  Pane.image_index isfile fil index files
  = (index + Z.of_nat (length (List.filter isfile (take k files))))%Z.
Proof.
  revert index k. induction files as [|f files IH]; intros index k Hk Hfirst;
    [by rewrite lookup_nil in Hk|].
  cbn [Pane.image_index]. destruct k as [|k].
  - injection Hk as ->. rewrite String.eqb_refl. cbn. lia.
  - destruct (String.eqb f fil) eqn:E.
    + apply String.eqb_eq in E as ->. by destruct (Hfirst 0%nat ltac:(lia)).
    + cbn [take List.filter]. cbn in Hk.
      assert (Hfirst' : ∀ j, (j < k)%nat → files !! j ≠ Some fil)
        by (intros j Hj; apply (Hfirst (S j)); lia).
      destruct (isfile f); rewrite (IH _ k Hk Hfirst'); cbn [length]; lia.
Qed.

(** X22. The index that [file_select] hands to the image for the file of
    row [k], the first row holding that file, is the number of regular
    files on the rows before it: directories are not counted, and the index
    is at most [k]. *)
Theorem image_index_counts isfile fil files k :
  files !! k = Some fil →
  (∀ j, (j < k)%nat → files !! j ≠ Some fil) →
  Pane.image_index isfile fil 0 files
  = Z.of_nat (length (List.filter isfile (take k files)))
  ∧ (0 ≤ Pane.image_index isfile fil 0 files ≤ Z.of_nat k)%Z.
Proof.
  intros Hk Hfirst. rewrite (image_index_from isfile fil 0 files k Hk Hfirst).
  split; [lia|]. split; [lia|].
  assert (length (List.filter isfile (take k files)) ≤ k)%nat; [|lia].
  etransitivity; [apply List.filter_length_le|]. rewrite length_take. lia.
Qed.

Lemma image_index_counts_witness :
  Pane.image_index (λ f, negb (String.eqb f "c")) "d.png" 0 sample_files
  = Z.of_nat (length (List.filter (λ f, negb (String.eqb f "c")) (take 3 sample_files)))
  ∧ (0 ≤ Pane.image_index (λ f, negb (String.eqb f "c")) "d.png" 0 sample_files
     ≤ Z.of_nat 3)%Z.
Proof.
  apply (image_index_counts (λ f, negb (String.eqb f "c")) "d.png" sample_files 3).
  - reflexivity.
  - intros [|[|[|j]]] Hj; (discriminate || lia).
Defined.

(** ** library.py: building the library from the settings *)

(** The settings that [parse_config] returns hold every setting of the
    defaults, with a value of its type. *)
Lemma parse_config_setting env user_config_dir read commandline_config running_tests
    out settings key setting :
  Startup.parse_config env user_config_dir read commandline_config running_tests
  = (out, Ok settings) →
  key ≠ "ALIASES" →
  is_Some (stored (Config.set_defaults env) key setting) →
  ∃ v, stored settings key setting = Some v ∧ has_type setting v.
Proof.
  rewrite parse_config_unfold. intros Hrun Hkey Hdef.
  destruct (overlay_all env _ _) as [[s m]|e] eqn:E; [|discriminate].
  injection Hrun as _ <-.
  destruct (overlay_all_keeps env _ _ s m key setting E Hkey) as [Hnames Htypes].
  apply Hnames in Hdef as [v Hv]. exists v. split; [exact Hv|].
  destruct (Htypes v Hv) as [|Hd]; [assumption|].
  by apply defaults_has_type with env key.
Qed.

Lemma library_default env setting :
  setting ∈ (Config.library_defaults env).*1 →
  is_Some (stored (Config.set_defaults env) "LIBRARY" setting).
Proof.
  intros H. unfold stored, Config.set_defaults.
  rewrite lookup_insert_ne by done. rewrite lookup_insert_eq. cbn [mbind option_bind].
  destruct (list_to_map (Config.library_defaults env) !! setting) as [v|] eqn:E; [by exists v|].
  by apply not_elem_of_list_to_map in E.
Qed.

(** X23. The settings that [parse_config] returns are all that the library
    needs: in a directory that can be listed, with no dangling link among
    the entries kept, [Library.__init__] raises neither [KeyError] nor a type
    error. The library it builds is hidden and remembers no position; its
    default width is the setting [library_width], its width that less the
    setting [border_width], and it has one row for each file. *)
Theorem init_from_config env user_config_dir read commandline_config running_tests
    out settings a num_str err_messages search_positions :
  Startup.parse_config env user_config_dir read commandline_config running_tests
  = (out, Ok settings) →
  (∀ hidden, ∃ entries,
     Library.listdir a "." hidden = Ok entries
     ∧ List.find (broken_link a) (kept_entries a entries) = None) →
  ∃ l library_width border_width,
    Pane.init a settings num_str err_messages search_positions = Ok l
    ∧ stored settings "LIBRARY" "library_width" = Some (Config.VInt library_width)
    ∧ stored settings "LIBRARY" "border_width" = Some (Config.VInt border_width)
    ∧ Library.default_width l = library_width
    ∧ Library.width l = (library_width - border_width)%Z
    ∧ stored settings "LIBRARY" "show_hidden" = Some (Config.VBool (Library.show_hidden l))
    ∧ Library.dir_pos l = ∅
    ∧ Library.grid_visible l = false
    ∧ Library.cursor l = None
    ∧ length (Library.model l) = length (Library.files l).
Proof.
  intros Hrun Hlist.
  assert (Hget : ∀ setting, setting ∈ (Config.library_defaults env).*1 →
            ∃ v, stored settings "LIBRARY" setting = Some v ∧ has_type setting v).
  { intros setting H. apply (parse_config_setting _ _ _ _ _ _ _ _ _ Hrun); [done|].
    by apply library_default. }
  assert (Hin : ∀ setting, bool_decide (setting ∈ (Config.library_defaults env).*1) = true →
            setting ∈ (Config.library_defaults env).*1)
    by (intros setting; apply bool_decide_eq_true_1).
  destruct (Hget "show_library") as (v1 & E1 & T1); [by apply Hin|].
  destruct (Hget "library_width") as (v2 & E2 & T2); [by apply Hin|].
  destruct (Hget "expand_lib") as (v3 & E3 & T3); [by apply Hin|].
  destruct (Hget "border_width") as (v4 & E4 & T4); [by apply Hin|].
  destruct (Hget "markup") as (v5 & E5 & T5); [by apply Hin|].
  destruct (Hget "show_hidden") as (v6 & E6 & T6); [by apply Hin|].
  destruct (Hget "file_check_amount") as (v7 & E7 & T7); [by apply Hin|].
  destruct (Hget "desktop_start_dir") as (v8 & E8 & T8); [by apply Hin|].
  unfold has_type in T1, T2, T3, T4, T5, T6, T7, T8.
  change (kind_of "show_library") with KBool in T1.
  change (kind_of "library_width") with KInt in T2.
  change (kind_of "expand_lib") with KBool in T3.
  change (kind_of "border_width") with KInt in T4.
  change (kind_of "markup") with KMarkup in T5.
  change (kind_of "show_hidden") with KBool in T6.
  change (kind_of "file_check_amount") with KInt in T7.
  change (kind_of "desktop_start_dir") with KDir in T8.
  destruct v1 as [show_library| | |]; try done.
  destruct v2 as [|library_width| |]; try done.
  destruct v3 as [expand_lib| | |]; try done.
  destruct v4 as [|border_width| |]; try done.
  destruct v5 as [| |markup|]; try done.
  destruct v6 as [show_hidden| | |]; try done.
  destruct v7 as [|file_check_amount| |]; try done.
  destruct v8 as [| |desktop_start_dir|]; try done.
  unfold stored in *.
  destruct (settings !! "LIBRARY") as [library|] eqn:El; [|discriminate].
  cbn [mbind option_bind] in *.
  unfold Pane.init. rewrite El. cbn [bind]. unfold Pane.setting.
  rewrite E1, E2, E3, E4, E5, E6, E7, E8. cbn [bind Pane.as_bool Pane.as_int Pane.as_str].
  destruct (Hlist show_hidden) as (entries & Hentries & Hfind).
  match goal with
  | |- context [Library.liststore_create a ?l0] =>
      pose proof (liststore_create_find a l0 entries Hentries) as Hrows;
      rewrite Hfind in Hrows; destruct Hrows as (rows & l' & Hrows);
      pose proof (liststore_create_again a l0 l0 rows l' Hrows eq_refl eq_refl) as [Hl' _];
      pose proof (liststore_create_length a l0 rows l' Hrows) as Hlen;
      rewrite Hrows
  end.
  cbn [bind]. eexists _, library_width, border_width. split; [reflexivity|].
  rewrite Hl'. all_fields. rewrite Hl' in Hlen. all_fields. done.
Qed.

Lemma init_from_config_witness :
  ∃ l library_width border_width,
    Pane.init (sample_app "/a/b" 800 sample_files) (returned_settings sample_start) "" [] []
    = Ok l
    ∧ stored (returned_settings sample_start) "LIBRARY" "library_width"
      = Some (Config.VInt library_width)
    ∧ stored (returned_settings sample_start) "LIBRARY" "border_width"
      = Some (Config.VInt border_width)
    ∧ Library.default_width l = library_width
    ∧ Library.width l = (library_width - border_width)%Z
    ∧ stored (returned_settings sample_start) "LIBRARY" "show_hidden"
      = Some (Config.VBool (Library.show_hidden l))
    ∧ Library.dir_pos l = ∅
    ∧ Library.grid_visible l = false
    ∧ Library.cursor l = None
    ∧ length (Library.model l) = length (Library.files l).
Proof.
  apply (init_from_config sample_env "/home/user/.config" (λ _, (sample_config, None))
           None false sample_start.1 (returned_settings sample_start)
           (sample_app "/a/b" 800 sample_files) "" [] []).
  - apply returned_pair, returns_not_raise. vm_compute. reflexivity.
  - intros hidden. exists sample_files. split; reflexivity.
Defined.

(** With [sample_config], which asks for a library 400 wide with a border
    of 10, the library is 390 wide. *)
Example init_example :
  Library.width <$>
    Pane.init (sample_app "/a/b" 800 sample_files) (returned_settings sample_start) "" [] []
  = Ok 390%Z.
Proof. vm_compute. reflexivity. Qed.
